(** * Training scripts and the LSTM-CTC model builder

    A shallow embedding of
      - [models/ctc/lstm_ctc.py]                        (module [LstmCtc]),
      - [experiments/csj/training/train_multitask_ctc.py] (module [Csj]),
      - [experiments/timit/training/train_attention.py]   (module [Timit]).

    The scripts are glue around library calls.  Every call that leaves the
    script (TensorFlow, the data set classes, the metric and csv helpers, the
    operating system) is recorded as an [event] of a trace; the few file
    operations the scripts perform themselves also act on a file system map. *)

From Stdlib Require Import ZArith QArith List Bool Ascii String Lia.
From stdpp Require Import base option list gmap strings pretty.

Local Open Scope Z_scope.
Set Warnings "-register-all".

(** ** Python values read from the YAML configuration *)

Inductive pyval :=
| PNone
| PBool (b : bool)
| PInt (z : Z)
| PFloat (q : Q)
| PStr (s : string)
| PList (l : list pyval)
| PDict (d : list (string * pyval)).

(** The exceptions the scripts can surface. [ExternalError n] is an exception
    raised inside the [n]-th library call. *)
Inductive exn :=
| KeyError (key : string)
| ValueError (msg : string)
| TypeError
| AttributeError
| UnboundLocalError (name : string)
| ZeroDivisionError
| OverflowError
| IOError (path : string)
| SystemExit (code : Z)
| ExternalError (call : nat).

Inductive result (A : Type) :=
| Ok (a : A)
| Raise (e : exn).
Arguments Ok {A} a.
Arguments Raise {A} e.

Definition is_ok {A} (r : result A) : bool :=
  match r with Ok _ => true | Raise _ => false end.

(** ** LSTM-CTC model *)

Module LstmCtc.

(** The attributes [ctcBase.__init__] stores on the object and [_build]
    reads back; [ctc_base.py] is not part of the sources, so the base
    object is taken as given. *)
Record ctcBase := {
  num_unit : Z;
  num_layer : Z;
  num_classes : Z;
  parameter_init : Q;
  clip_activation : option Q
}.

Record LSTM_CTC := {
  base : ctcBase;
  num_proj : option Z;
  bottleneck_dim : option Z
}.

(** [self.num_proj = None if num_proj == 0 else num_proj] *)
Definition init (b : ctcBase) (num_proj bottleneck_dim : option Z) : LSTM_CTC :=
  {| base := b;
     num_proj := match num_proj with
                 | Some n => if n =? 0 then None else Some n
                 | None => None
                 end;
     bottleneck_dim := bottleneck_dim |}.

(** One [tf.contrib.rnn.LSTMCell] wrapped in a [DropoutWrapper]. *)
Record LSTMCell := {
  name_scope : string;
  cell_num_units : Z;
  use_peepholes : bool;
  cell_clip : option Q;
  initializer_minval : Q;
  initializer_maxval : Q;
  cell_num_proj : option Z;
  forget_bias : Q;
  state_is_tuple : bool
}.

(** What [_build] adds to the graph: the stacked cells, the shape of the
    reshape applied to the RNN outputs, the shapes of the bottleneck
    variables when that layer is built, and the shapes of the output
    layer's variables.  [-1] is TensorFlow's inferred dimension. *)
Record graph := {
  lstm_list : list LSTMCell;
  reshape_shape : list Z;
  W_bottleneck : option (list Z);
  b_bottleneck : option (list Z);
  W_output : list Z;
  b_output : list Z
}.

Definition lstm_cell (self : LSTM_CTC) (i_layer : nat) : LSTMCell :=
  {| name_scope := "lstm_hidden" +:+ pretty (Z.of_nat i_layer + 1);
     cell_num_units := num_unit (base self);
     use_peepholes := true;
     cell_clip := clip_activation (base self);
     initializer_minval := - parameter_init (base self);
     initializer_maxval := parameter_init (base self);
     cell_num_proj := num_proj self;
     forget_bias := 1;
     state_is_tuple := true |}.

Definition has_bottleneck (self : LSTM_CTC) : option Z :=
  match bottleneck_dim self with
  | Some d => if d =? 0 then None else Some d
  | None => None
  end.

Definition build (self : LSTM_CTC) : graph :=
  let cells := map (lstm_cell self) (seq 0 (Z.to_nat (num_layer (base self)))) in
  let output_node :=
    match num_proj self with
    | None => num_unit (base self)
    | Some p => p
    end in
  let output_node' :=
    match has_bottleneck self with
    | Some d => d
    | None => output_node
    end in
  {| lstm_list := cells;
     reshape_shape := [-1; output_node];
     W_bottleneck := (fun d => [output_node; d]) <$> has_bottleneck self;
     b_bottleneck := (fun d => [d]) <$> has_bottleneck self;
     W_output := [output_node'; num_classes (base self)];
     b_output := [num_classes (base self)] |}.

Definition example_base : ctcBase :=
  {| num_unit := 256; num_layer := 5; num_classes := 62;
     parameter_init := 1 # 10; clip_activation := Some (50 # 1) |}.

End LstmCtc.

(** ** What the scripts hand to the libraries *)

(** The two mini-batch generators of [do_train]. *)
Inductive generator := MiniBatchTrain | MiniBatchDev.

(** Graph operations fetched with [sess.run]. *)
Inductive op :=
| TrainOp | LossOp | InitOp
| LerOpMain | LerOpSecond | LerOp
| DecodeOpMain | DecodeOpSecond | DecodeOpTrain | DecodeOpInfer
| SummaryTrain | SummaryDev.

(** Keys of a feed dictionary: the placeholders stored on [network]. *)
Inductive placeholder :=
| Inputs | Labels | LabelsSecond | InputsSeqLen | LabelsSeqLen
| KeepProbInput | KeepProbHidden | Lr | LabelsStTrue | LabelsStPred.

Global Instance placeholder_eq_dec : EqDecision placeholder.
Proof. solve_decision. Defined.

Definition placeholder_code (p : placeholder) : nat :=
  match p with
  | Inputs => 0 | Labels => 1 | LabelsSecond => 2 | InputsSeqLen => 3
  | LabelsSeqLen => 4 | KeepProbInput => 5 | KeepProbHidden => 6 | Lr => 7
  | LabelsStTrue => 8 | LabelsStPred => 9
  end%nat.

Definition placeholder_of_code (n : nat) : option placeholder :=
  match n with
  | 0 => Some Inputs | 1 => Some Labels | 2 => Some LabelsSecond
  | 3 => Some InputsSeqLen | 4 => Some LabelsSeqLen | 5 => Some KeepProbInput
  | 6 => Some KeepProbHidden | 7 => Some Lr | 8 => Some LabelsStTrue
  | 9 => Some LabelsStPred | _ => None
  end%nat.

Global Instance placeholder_countable : Countable placeholder.
Proof.
  apply (inj_countable placeholder_code placeholder_of_code).
  intros []; reflexivity.
Defined.

(** The scripts never inspect tensors or fetched numbers; they only route
    them.  A value therefore records where it came from:
    [VYield g n pos] is component [pos] of the [n]-th tuple yielded by
    generator [g], [VFetch call pos] is result number [pos] of library call
    number [call] of the run. *)
Inductive value :=
| VYield (g : generator) (n : nat) (pos : nat)
| VFetch (call : nat) (pos : nat)
| VAttr (name : string)
| VConst (q : Q)
| VPy (v : pyval)
| VSparse (v : value).

Inductive dataset := TrainData | DevData | TestData.

Inductive event :=
| ECall (f : string)
| ENext (g : generator)
| ERun (fetches : list op) (feed_dict : gmap placeholder value)
| EAddSummary (summary : value) (global_step : Z)
| ESaverSave (checkpoint_file : string) (global_step : Z)
| EDoEvalCer (decode_op : op) (d : dataset)
| EDoEvalPer (decode_op per_op : op) (d : dataset)
| ESaveLoss (steps : list Z) (train dev : list value) (save_path : string)
| ESaveLer (steps : list Z) (train dev : list value) (save_path : string)
| EOpen (path mode : string)
| EIsFile (path : string)
| EMkdir (path : string)
| EMkdirJoin (path name : string)
| EDeleteRecursively (path : string)
| EMakeDirs (path : string)
| ECopyFile (src dst : string)
| ESetProcTitle (title : string).

(** ** File system and process state *)

Inductive node := Dir | File (content : string).

Record world := {
  fs : gmap string node;
  stdout : option string;      (* [None]: the terminal, [sys.__stdout__] *)
  trace : list event
}.

Definition initial (files : gmap string node) : world :=
  {| fs := files; stdout := None; trace := [] |}.

Definition isfile (path : string) (files : gmap string node) : bool :=
  match files !! path with Some (File _) => true | _ => false end.

Definition isdir (path : string) (files : gmap string node) : bool :=
  match files !! path with Some Dir => true | _ => false end.

Fixpoint ends_with_slash (s : string) : bool :=
  match s with
  | EmptyString => false
  | String c EmptyString => bool_decide (c = "/"%char)
  | String _ r => ends_with_slash r
  end.

(** [os.path.join] on two components. *)
Definition join (a b : string) : string :=
  if String.prefix "/" b then b
  else if bool_decide (a = "") || ends_with_slash a then a +:+ b
  else a +:+ "/" +:+ b.

(** Paths removed by a recursive delete of [dir]: [dir] itself and every
    path below it. *)
Definition below (dir path : string) : bool :=
  bool_decide (path = dir) || String.prefix (join dir "") path.

(** ** The environment of a run

    Everything the sources import but do not define, and every answer a
    library gives that the scripts branch on. *)
Record Env := {
  (** [faulty n]: library call number [n] of the run raises. *)
  faulty : nat -> bool;
  (** [yaml.load] applied to the content of the configuration file. *)
  yaml_load : string -> result pyval;
  (** [str] of a float, and of a list or dictionary. *)
  str_float : Q -> string;
  str_container : pyval -> string;
  (** [str.upper]. *)
  str_upper : string -> string;
  (** [float] of a string. *)
  float_of_str : string -> result Q;
  (** [*] on operands that are not both integers. *)
  mul_other : pyval -> pyval -> result pyval;
  (** [utils.directory.mkdir] and [mkdir_join]: the returned path and the
      file system they leave. *)
  mkdir : string -> gmap string node -> result (string * gmap string node);
  mkdir_join :
    string -> string -> gmap string node -> result (string * gmap string node);
  (** [train_data.data_num]. *)
  data_num : Z;
  (** The error rate returned by [do_eval_cer] or [do_eval_per] when it is
      library call number [n]. *)
  eval_error : nat -> Q
}.

(** ** Python's operators on configuration values *)

Global Instance result_ret : MRet result := fun A a => Ok a.

Global Instance result_bind : MBind result := fun A B f r =>
  match r with
  | Ok a => f a
  | Raise e => Raise e
  end.

Fixpoint assoc (k : string) (d : list (string * pyval)) : option pyval :=
  match d with
  | [] => None
  | (k', v) :: r => if bool_decide (k' = k) then Some v else assoc k r
  end.

(** [d[k]] *)
Definition getitem (d : pyval) (k : string) : result pyval :=
  match d with
  | PDict l => match assoc k l with
               | Some v => Ok v
               | None => Raise (KeyError k)
               end
  | _ => Raise TypeError
  end.

(** [v == s] for a string literal [s] *)
Definition eq_str (v : pyval) (s : string) : bool :=
  match v with
  | PStr t => bool_decide (t = s)
  | _ => false
  end.

(** [v != 0] *)
Definition ne_zero (v : pyval) : bool :=
  match v with
  | PInt z => negb (z =? 0)
  | PFloat q => negb (Qeq_bool q 0)
  | PBool b => b
  | _ => true
  end.

(** [v != 1] *)
Definition ne_one (v : pyval) : bool :=
  match v with
  | PInt z => negb (z =? 1)
  | PFloat q => negb (Qeq_bool q 1)
  | PBool b => negb b
  | _ => true
  end.

(** [s + v] for a string [s]: concatenation, defined on strings only. *)
Definition str_add (s : string) (v : pyval) : result string :=
  match v with
  | PStr t => Ok (s +:+ t)
  | _ => Raise TypeError
  end.

(** ** Floating point numbers

    A Python [float] is an IEEE 754 binary64 number: 53 significant bits,
    normal exponents from -1022 to 1023, subnormal numbers down to
    [2^-1074], and every result rounded to the nearest number, ties to the
    even one.  A number is given by its exact value; [Infinity] is an
    infinity of either sign.  The operations below never yield a NaN. *)

Inductive float := Finite (q : Q) | Infinity.

(** The integer nearest to [n / d], ties to the even one, for [d > 0]. *)
Definition round_half_even (n d : Z) : Z :=
  let f := n / d in
  let r := n mod d in
  if 2 * r <? d then f
  else if d <? 2 * r then f + 1
  else if Z.even f then f else f + 1.

(** [2^e] for [e >= 0] and [1] for [e < 0]: [pow2 e / pow2 (- e)] is [2^e]
    for every [e]. *)
Definition pow2 (e : Z) : Z := 2 ^ Z.max 0 e.

(** [floor (log2 (n / d))] for positive [n] and [d]. *)
Definition exponent (n d : Z) : Z :=
  let e := Z.log2 n - Z.log2 d in
  if d * pow2 e <=? n * pow2 (- e) then e else e - 1.

(** The binary64 number nearest to [n / d] for positive [n] and [d]: a
    multiple [m * 2^p] of the unit in the last place [2^p], or an infinity
    beyond the largest finite number. *)
Definition binary64_pos (n d : Z) : float :=
  let p := Z.max (exponent n d) (-1022) - 52 in
  let m := round_half_even (n * pow2 (- p)) (d * pow2 p) in
  if 2 ^ 1024 <=? m * pow2 p then Infinity
  else Finite (Qmake (m * pow2 p) (Z.to_pos (pow2 (- p)))).

(** The binary64 number nearest to [q]. *)
Definition binary64 (q : Q) : float :=
  match Qnum q with
  | 0 => Finite 0
  | Zpos n => binary64_pos (Zpos n) (Zpos (Qden q))
  | Zneg n =>
      match binary64_pos (Zpos n) (Zpos (Qden q)) with
      | Finite x => Finite (- x)
      | Infinity => Infinity
      end
  end.

(** [float(a)] for an integer [a]. *)
Definition float_of_int (a : Z) : result Q :=
  match binary64 (inject_Z a) with
  | Finite x => Ok x
  | Infinity => Raise OverflowError
  end.

(** [a / b] on integers under [from __future__ import division]: the
    quotient is rounded once. *)
Definition int_true_div (a b : Z) : result float :=
  if b =? 0 then Raise ZeroDivisionError else
  match binary64 (inject_Z a / inject_Z b) with
  | Finite x => Ok (Finite x)
  | Infinity => Raise OverflowError
  end.

(** [a / v] for an integer [a]: [bool] is a subclass of [int], a [float]
    divisor has [a] converted first, and a float division that overflows
    yields an infinity. *)
Definition true_div (a : Z) (v : pyval) : result float :=
  match v with
  | PInt b => int_true_div a b
  | PBool b => int_true_div a (if b then 1 else 0)
  | PFloat y =>
      x ← float_of_int a;
      if Qeq_bool y 0 then Raise ZeroDivisionError
      else Ok (binary64 (x / y))
  | _ => Raise TypeError
  end.

(** [int(q)]: truncation toward zero. *)
Definition int_of_Q (q : Q) : Z := Z.quot (Qnum q) (Zpos (Qden q)).

(** [int(x)] *)
Definition int_of_float (x : float) : result Z :=
  match x with
  | Finite q => Ok (int_of_Q q)
  | Infinity => Raise OverflowError
  end.

(** [x != n] for an integer [n] *)
Definition float_ne_int (x : float) (n : Z) : bool :=
  match x with
  | Finite q => negb (Qeq_bool q (inject_Z n))
  | Infinity => true
  end.

(** Lines 163-165 of [train_multitask_ctc.py] and 152-155 of
    [train_attention.py]; the three divisions give the same number. *)
Definition iter_per_epoch (data_num : Z) (batch_size : pyval) : result Z :=
  train_step ← true_div data_num batch_size;
  iter_per_epoch ← int_of_float train_step;
  Ok (if float_ne_int train_step iter_per_epoch
      then iter_per_epoch + 1 else iter_per_epoch).

(** The number of iterations of [for step in range(v)]. *)
Definition range_count (v : pyval) : result Z :=
  match v with
  | PInt n => Ok n
  | PBool b => Ok (if b then 1 else 0)
  | _ => Raise TypeError
  end.

(** ** The monad of a run: state, trace and exceptions *)

Definition M (A : Type) : Type := world -> world * result A.

Global Instance M_ret : MRet M := fun A a w => (w, Ok a).

Global Instance M_bind : MBind M := fun A B f c w =>
  match c w with
  | (w', Ok a) => f a w'
  | (w', Raise e) => (w', Raise e)
  end.

Definition raise {A} (e : exn) : M A := fun w => (w, Raise e).

Definition lift {A} (r : result A) : M A := fun w => (w, r).

Definition get_fs : M (gmap string node) := fun w => (w, Ok (fs w)).

Definition put_fs (files : gmap string node) : M unit := fun w =>
  ({| fs := files; stdout := stdout w; trace := trace w |}, Ok tt).

Definition put_stdout (o : option string) : M unit := fun w =>
  ({| fs := fs w; stdout := o; trace := trace w |}, Ok tt).

Definition log (ev : event) (w : world) : world :=
  {| fs := fs w; stdout := stdout w; trace := trace w ++ [ev] |}.

(** [for i in range(start, start + count)] threading the local variables. *)
Fixpoint for_range {S} (body : nat -> S -> M S) (start count : nat) (s : S)
  : M S :=
  match count with
  | O => mret s
  | Datatypes.S n => s' ← body start s; for_range body (Datatypes.S start) n s'
  end.

(** [a % b] and [a // b] on integers. *)
Definition py_mod (a b : Z) : result Z :=
  if b =? 0 then Raise ZeroDivisionError else Ok (a mod b).

Definition py_floordiv (a b : Z) : result Z :=
  if b =? 0 then Raise ZeroDivisionError else Ok (a / b).

(** ** Library and operating system calls *)

Section Calls.
Context (E : Env).

(** [str(v)] *)
Definition py_str (v : pyval) : string :=
  match v with
  | PNone => "None"
  | PBool true => "True"
  | PBool false => "False"
  | PInt z => pretty z
  | PFloat q => str_float E q
  | PStr s => s
  | _ => str_container E v
  end.

(** [a * b] *)
Definition py_mul (a b : pyval) : result pyval :=
  match a, b with
  | PInt x, PInt y => Ok (PInt (x * y))
  | _, _ => mul_other E a b
  end.

(** [a * v] for an integer [a]; [bool] is a subclass of [int]. *)
Definition int_mul (a : Z) (v : pyval) : result pyval :=
  match v with
  | PInt b => Ok (PInt (a * b))
  | PBool b => Ok (PInt (if b then a else 0))
  | _ => mul_other E (PInt a) v
  end.

(** [float(v)] *)
Definition py_float (v : pyval) : result Q :=
  match v with
  | PInt z => Ok (inject_Z z)
  | PFloat q => Ok q
  | PBool b => Ok (if b then 1 else 0)%Q
  | PStr s => float_of_str E s
  | _ => Raise TypeError
  end.

(** A library call: it raises when the environment says so, and is appended
    to the trace otherwise.  The result is the number of the call. *)
Definition ext (ev : event) : M nat := fun w =>
  let n := length (trace w) in
  if faulty E n then (w, Raise (ExternalError n)) else (log ev w, Ok n).

Fixpoint calls (names : list string) : M unit :=
  match names with
  | [] => mret tt
  | f :: r => _ ← ext (ECall f); calls r
  end.

(** [open(path, 'r')] followed by reading the file. *)
Definition open_read (path : string) : M string :=
  _ ← ext (EOpen path "r");
  files ← get_fs;
  match files !! path with
  | Some (File c) => mret c
  | _ => raise (IOError path)
  end.

(** [open(path, 'w')]: the file is created or truncated. *)
Definition open_write (path : string) : M unit :=
  _ ← ext (EOpen path "w");
  files ← get_fs;
  match files !! path with
  | Some Dir => raise (IOError path)
  | _ => put_fs (<[path := File ""]> files)
  end.

(** [os.path.isfile] *)
Definition os_isfile (path : string) : M bool :=
  _ ← ext (EIsFile path);
  files ← get_fs;
  mret (isfile path files).

(** [tf.gfile.DeleteRecursively] *)
Definition delete_recursively (dir : string) : M unit :=
  _ ← ext (EDeleteRecursively dir);
  files ← get_fs;
  match files !! dir with
  | None => raise (IOError dir)
  | Some _ => put_fs (filter (fun kv => below dir kv.1 = false) files)
  end.

(** [tf.gfile.MakeDirs]; ancestors of [dir] are not tracked. *)
Definition make_dirs (dir : string) : M unit :=
  _ ← ext (EMakeDirs dir);
  files ← get_fs;
  match files !! dir with
  | Some (File _) => raise (IOError dir)
  | _ => put_fs (<[dir := Dir]> files)
  end.

(** [shutil.copyfile] *)
Definition copyfile (src dst : string) : M unit :=
  _ ← ext (ECopyFile src dst);
  files ← get_fs;
  match files !! src, files !! dst with
  | Some (File c), Some Dir => raise (IOError dst)
  | Some (File c), _ => put_fs (<[dst := File c]> files)
  | _, _ => raise (IOError src)
  end.

(** [utils.directory.mkdir] and [mkdir_join], answered by the environment. *)
Definition util_mkdir (path : string) : M string :=
  _ ← ext (EMkdir path);
  files ← get_fs;
  match mkdir E path files with
  | Ok (p, files') => _ ← put_fs files'; mret p
  | Raise e => raise e
  end.

Definition util_mkdir_join (path name : string) : M string :=
  _ ← ext (EMkdirJoin path name);
  files ← get_fs;
  match mkdir_join E path name files with
  | Ok (p, files') => _ ← put_fs files'; mret p
  | Raise e => raise e
  end.

(** [sess.run(fetches, feed_dict=feed_dict)]; fetch [i] of call [n] is
    [VFetch n i]. *)
Definition sess_run (fetches : list op) (feed_dict : gmap placeholder value)
  : M nat :=
  ext (ERun fetches feed_dict).

(** [do_eval_cer] and [do_eval_per] of the metric modules. *)
Definition do_eval_cer (decode_op : op) (d : dataset) : M Q :=
  n ← ext (EDoEvalCer decode_op d); mret (eval_error E n).

Definition do_eval_per (decode_op per_op : op) (d : dataset) : M Q :=
  n ← ext (EDoEvalPer decode_op per_op d); mret (eval_error E n).

End Calls.

(** The network object: the two attributes the scripts assign themselves. *)
Record Network := {
  model_name : string;
  model_dir : string
}.

Section Common.
Context (E : Env).

(** "Reset model directory": lines 488-493 of [train_multitask_ctc.py] and
    386-391 of [train_attention.py]. *)
Definition reset_model_directory (dir : string) : M unit :=
  complete ← os_isfile E (join dir "complete.txt");
  if negb complete then
    _ ← delete_recursively E dir;
    make_dirs E dir
  else raise (ValueError "File exists.").

(** "Save config file" and the redirection of [sys.stdout]: lines 499-502
    and 396-399. *)
Definition save_config (config_path dir : string) : M unit :=
  _ ← copyfile E config_path (join dir "config.yml");
  _ ← open_write E (join dir "train.log");
  put_stdout (Some (join dir "train.log")).

End Common.

(** ** [experiments/csj/training/train_multitask_ctc.py] *)

Module Csj.

(** Local variables of [do_train] that the training loop updates.  A
    generator is represented by the number of tuples drawn from it. *)
Record locals := {
  mini_batch_train : nat;
  mini_batch_dev : nat;
  csv_steps : list Z;
  csv_loss_train : list value;
  csv_loss_dev : list value;
  csv_ler_main_train : list value;
  csv_ler_main_dev : list value;
  csv_ler_second_train : list value;
  csv_ler_second_dev : list value;
  ler_main_dev_best : Q
}.

Definition locals0 : locals :=
  {| mini_batch_train := 0; mini_batch_dev := 0;
     csv_steps := []; csv_loss_train := []; csv_loss_dev := [];
     csv_ler_main_train := []; csv_ler_main_dev := [];
     csv_ler_second_train := []; csv_ler_second_dev := [];
     ler_main_dev_best := 1 |}.

(** Lines 175-183. *)
Definition feed_dict_train (learning_rate : pyval) (n : nat)
  : gmap placeholder value :=
  list_to_map
    [ (Inputs, VYield MiniBatchTrain n 0);
      (Labels, VYield MiniBatchTrain n 1);
      (LabelsSecond, VYield MiniBatchTrain n 2);
      (InputsSeqLen, VYield MiniBatchTrain n 3);
      (KeepProbInput, VAttr "dropout_ratio_input");
      (KeepProbHidden, VAttr "dropout_ratio_hidden");
      (Lr, VPy learning_rate) ].

(** Lines 186-194: [labels_main] and [labels_second] of the dev tuple are
    unpacked but the dictionary is built from [labels_main_st] and
    [labels_second_st], the variables bound at line 174. *)
Definition feed_dict_dev (n m : nat) : gmap placeholder value :=
  list_to_map
    [ (Inputs, VYield MiniBatchDev m 0);
      (Labels, VYield MiniBatchTrain n 1);
      (LabelsSecond, VYield MiniBatchTrain n 2);
      (InputsSeqLen, VYield MiniBatchDev m 3);
      (KeepProbInput, VAttr "dropout_ratio_input");
      (KeepProbHidden, VAttr "dropout_ratio_hidden") ].

(** Lines 208-211: "Change to evaluation mode". *)
Definition evaluation_mode (feed_dict : gmap placeholder value)
  : gmap placeholder value :=
  <[KeepProbHidden := VConst 1]> (<[KeepProbInput := VConst 1]> feed_dict).

Section Script.
Context (E : Env).

(** Lines 199-233, the block run every 200 steps. *)
Definition log_step (step : Z) (fd_train fd_dev : gmap placeholder value)
    (l : locals) : M locals :=
  c_loss_train ← sess_run E [LossOp] fd_train;
  c_loss_dev ← sess_run E [LossOp] fd_dev;
  c_train ← sess_run E [LerOpMain; LerOpSecond; SummaryTrain]
              (evaluation_mode fd_train);
  c_dev ← sess_run E [LerOpMain; LerOpSecond; SummaryDev]
            (evaluation_mode fd_dev);
  _ ← ext E (EAddSummary (VFetch c_train 2) (step + 1));
  _ ← ext E (EAddSummary (VFetch c_dev 2) (step + 1));
  _ ← ext E (ECall "summary_writer.flush");
  mret {| mini_batch_train := mini_batch_train l;
          mini_batch_dev := mini_batch_dev l;
          csv_steps := csv_steps l ++ [step];
          csv_loss_train := csv_loss_train l ++ [VFetch c_loss_train 0];
          csv_loss_dev := csv_loss_dev l ++ [VFetch c_loss_dev 0];
          csv_ler_main_train := csv_ler_main_train l ++ [VFetch c_train 0];
          csv_ler_main_dev := csv_ler_main_dev l ++ [VFetch c_dev 0];
          csv_ler_second_train := csv_ler_second_train l ++ [VFetch c_train 1];
          csv_ler_second_dev := csv_ler_second_dev l ++ [VFetch c_dev 1];
          ler_main_dev_best := ler_main_dev_best l |}.

Definition set_best (l : locals) (q : Q) : locals :=
  {| mini_batch_train := mini_batch_train l;
     mini_batch_dev := mini_batch_dev l;
     csv_steps := csv_steps l;
     csv_loss_train := csv_loss_train l;
     csv_loss_dev := csv_loss_dev l;
     csv_ler_main_train := csv_ler_main_train l;
     csv_ler_main_dev := csv_ler_main_dev l;
     csv_ler_second_train := csv_ler_second_train l;
     csv_ler_second_dev := csv_ler_second_dev l;
     ler_main_dev_best := q |}.

(** Lines 236-407, the block run at the end of an epoch. *)
Definition end_of_epoch (network : Network) (step iter_per_epoch : Z)
    (l : locals) : M locals :=
  epoch ← lift (py_floordiv (step + 1) iter_per_epoch);
  _ ← ext E (ESaverSave (join (model_dir network) "model.ckpt") epoch);
  if 5 <=? epoch then
    ler_main_dev_epoch ← do_eval_cer E DecodeOpMain DevData;
    mret (if negb (Qle_bool (ler_main_dev_best l) ler_main_dev_epoch)
          then set_best l ler_main_dev_epoch else l)
  else mret l.

Definition draw (l : locals) : locals :=
  {| mini_batch_train := S (mini_batch_train l);
     mini_batch_dev := S (mini_batch_dev l);
     csv_steps := csv_steps l;
     csv_loss_train := csv_loss_train l;
     csv_loss_dev := csv_loss_dev l;
     csv_ler_main_train := csv_ler_main_train l;
     csv_ler_main_dev := csv_ler_main_dev l;
     csv_ler_second_train := csv_ler_second_train l;
     csv_ler_second_dev := csv_ler_second_dev l;
     ler_main_dev_best := ler_main_dev_best l |}.

(** Lines 171-407, one iteration of [for step in range(max_steps)]. *)
Definition train_step (network : Network) (learning_rate : pyval)
    (iter_per_epoch max_steps : Z) (i : nat) (l : locals) : M locals :=
  let step := Z.of_nat i in
  _ ← ext E (ENext MiniBatchTrain);
  let fd_train := feed_dict_train learning_rate (mini_batch_train l) in
  _ ← ext E (ENext MiniBatchDev);
  let fd_dev := feed_dict_dev (mini_batch_train l) (mini_batch_dev l) in
  let l := draw l in
  _ ← sess_run E [TrainOp] fd_train;
  l ← (if (step + 1) mod 200 =? 0
       then log_step step fd_train fd_dev l else mret l);
  r ← lift (py_mod (step + 1) iter_per_epoch);
  if (r =? 0) || (step + 1 =? max_steps)
  then end_of_epoch network step iter_per_epoch l
  else mret l.

(** Lines 45-144: the data sets and the graph. *)
Definition build_graph (learning_rate : pyval) : M unit :=
  _ ← calls E ["DataSet"; "DataSet"; "tf.Graph";
               "tf.placeholder"; "tf.placeholder"; "tf.placeholder";
               "tf.placeholder"; "tf.SparseTensor";
               "tf.placeholder"; "tf.placeholder"; "tf.placeholder";
               "tf.SparseTensor";
               "tf.placeholder"; "tf.placeholder"; "tf.placeholder";
               "network.compute_loss"];
  _ ← lift (py_float E learning_rate);
  calls E ["network.train"; "network.decoder"; "network.compute_ler";
           "tf.summary.merge"; "tf.summary.merge";
           "tf.global_variables_initializer"; "tf.train.Saver";
           "tf.trainable_variables"; "count_total_parameters"].

(** Lines 163-166, and [range(max_steps)] of line 171. *)
Definition steps (batch_size epoch_num : pyval) : result (Z * Z) :=
  iter_per_epoch ← iter_per_epoch (data_num E) batch_size;
  max_steps ← int_mul E iter_per_epoch epoch_num;
  count ← range_count max_steps;
  Ok (iter_per_epoch, count).

Definition do_train (network : Network)
    (optimizer learning_rate batch_size epoch_num label_type_main
     label_type_second num_stack num_skip train_data_size : pyval) : M unit :=
  _ ← build_graph learning_rate;
  _ ← calls E ["tf.Session"; "tf.summary.FileWriter"];
  _ ← sess_run E [InitOp] ∅;
  _ ← calls E ["train_data.next_batch"; "dev_data.next_batch"];
  '(iter_per_epoch, max_steps) ← lift (steps batch_size epoch_num);
  l ← for_range (train_step network learning_rate iter_per_epoch max_steps)
        0 (Z.to_nat max_steps) locals0;
  _ ← ext E (ESaveLoss (csv_steps l) (csv_loss_train l) (csv_loss_dev l)
               (model_dir network));
  _ ← ext E (ESaveLer (csv_steps l) (csv_ler_main_train l)
               (csv_ler_second_dev l) (model_dir network));
  _ ← ext E (ESaveLer (csv_steps l) (csv_ler_second_train l)
               (csv_ler_second_dev l) (model_dir network));
  open_write E (join (model_dir network) "complete.txt").

(** Lines 427-432.  A key that was just read from the same dictionary is
    not read a second time in the model: [getitem] is a function. *)
Definition read_config (config_path : string)
  : M (pyval * pyval * pyval * pyval) :=
  content ← open_read E config_path;
  config ← lift (yaml_load E content);
  corpus ← lift (getitem config "corpus");
  feature ← lift (getitem config "feature");
  param ← lift (getitem config "param");
  mret (config, corpus, feature, param).

(** Lines 434-442; [None] is a local variable left unbound. *)
Definition output_size_main (corpus : pyval) : result (option Z) :=
  label_type_main ← getitem corpus "label_type_main";
  Ok (if eq_str label_type_main "character" then Some 147
      else if eq_str label_type_main "kanji" then Some 3386
      else None).

Definition output_size_second (corpus : pyval) : result (option Z) :=
  label_type_second ← getitem corpus "label_type_second";
  Ok (if eq_str label_type_second "phone" then Some 38
      else if eq_str label_type_second "character" then Some 147
      else None).

Definition bound {A} (name : string) (o : option A) : result A :=
  match o with
  | Some a => Ok a
  | None => Raise (UnboundLocalError name)
  end.

(** Lines 446-461: the arguments of [CTCModel], evaluated left to right. *)
Definition model_args (feature param : pyval) (size_main size_second : option Z)
  : result unit :=
  _ ← getitem param "batch_size";
  input_size ← getitem feature "input_size";
  num_stack ← getitem feature "num_stack";
  _ ← py_mul E input_size num_stack;
  _ ← getitem param "num_unit";
  _ ← getitem param "num_layer_main";
  _ ← getitem param "num_layer_second";
  _ ← bound "output_size_main" size_main;
  _ ← bound "output_size_second" size_second;
  _ ← getitem param "main_task_weight";
  _ ← getitem param "weight_init";
  _ ← getitem param "clip_grad";
  _ ← getitem param "clip_activation";
  _ ← getitem param "dropout_input";
  _ ← getitem param "dropout_hidden";
  _ ← getitem param "num_proj";
  _ ← getitem param "weight_decay";
  Ok tt.

(** Lines 444-461. *)
Definition model_setting (config feature param : pyval)
    (size_main size_second : option Z) : M unit :=
  _ ← lift (getitem config "model_name");
  _ ← ext E (ECall "load");
  _ ← lift (model_args feature param size_main size_second);
  _ ← ext E (ECall "CTCModel");
  mret tt.

(** [v.upper()] *)
Definition py_upper (v : pyval) : result string :=
  match v with
  | PStr s => Ok (str_upper E s)
  | _ => Raise AttributeError
  end.

(** [v + s] for a string literal [s] *)
Definition add_str (v : pyval) (s : string) : result string :=
  match v with
  | PStr t => Ok (t +:+ s)
  | _ => Raise TypeError
  end.

(** Lines 463-479. *)
Definition make_model_name (config corpus feature param : pyval)
  : result string :=
  model_name ← getitem config "model_name";
  name ← py_upper model_name;
  num_unit ← getitem param "num_unit";
  let name := name +:+ "_" +:+ py_str E num_unit in
  num_layer_main ← getitem param "num_layer_main";
  let name := name +:+ "_main" +:+ py_str E num_layer_main in
  num_layer_second ← getitem param "num_layer_second";
  let name := name +:+ "_second" +:+ py_str E num_layer_second in
  optimizer ← getitem param "optimizer";
  suffix ← str_add "_" optimizer;
  let name := name +:+ suffix in
  learning_rate ← getitem param "learning_rate";
  let name := name +:+ "_lr" +:+ py_str E learning_rate in
  bottleneck_dim ← getitem param "bottleneck_dim";
  let name := if ne_zero bottleneck_dim
              then name +:+ "_bottoleneck" +:+ py_str E bottleneck_dim
              else name in
  num_proj ← getitem param "num_proj";
  let name := if ne_zero num_proj
              then name +:+ "_proj" +:+ py_str E num_proj else name in
  num_stack ← getitem feature "num_stack";
  let name := if ne_one num_stack
              then name +:+ "_stack" +:+ py_str E num_stack else name in
  weight_decay ← getitem param "weight_decay";
  let name := if ne_zero weight_decay
              then name +:+ "_weightdecay" +:+ py_str E weight_decay
              else name in
  main_task_weight ← getitem param "main_task_weight";
  let name := name +:+ "_taskweight" +:+ py_str E main_task_weight in
  train_data_size ← getitem corpus "train_data_size";
  Ok (if eq_str train_data_size "large" then name +:+ "_large" else name).

(** [corpus['label_type_main'] + '_' + corpus['label_type_second']] *)
Definition label_types (corpus : pyval) : result string :=
  label_type_main ← getitem corpus "label_type_main";
  s ← add_str label_type_main "_";
  label_type_second ← getitem corpus "label_type_second";
  str_add s label_type_second.

(** Lines 481-486. *)
Definition set_save_path (corpus : pyval) (name : string) : M string :=
  dir ← util_mkdir E "/n/sd8/inaguma/result/csj/monolog/";
  dir ← util_mkdir_join E dir "ctc";
  sub ← lift (label_types corpus);
  dir ← util_mkdir_join E dir sub;
  util_mkdir_join E dir name.


(** Line 496, the argument of [setproctitle]. *)
Definition proc_title (corpus : pyval) : result string :=
  label_type_main ← getitem corpus "label_type_main";
  s ← str_add "multitaskctc_csj_" label_type_main;
  label_type_second ← getitem corpus "label_type_second";
  s ← str_add (s +:+ "_") label_type_second;
  train_data_size ← getitem corpus "train_data_size";
  str_add (s +:+ "_") train_data_size.

(** Lines 504-513, the arguments of [do_train]. *)
Record TrainArgs := {
  optimizer : pyval;
  learning_rate : pyval;
  batch_size : pyval;
  epoch_num : pyval;
  label_type_main : pyval;
  label_type_second : pyval;
  num_stack : pyval;
  num_skip : pyval;
  train_data_size : pyval
}.

Definition train_args (corpus feature param : pyval) : result TrainArgs :=
  optimizer ← getitem param "optimizer";
  learning_rate ← getitem param "learning_rate";
  batch_size ← getitem param "batch_size";
  epoch_num ← getitem param "num_epoch";
  label_type_main ← getitem corpus "label_type_main";
  label_type_second ← getitem corpus "label_type_second";
  num_stack ← getitem feature "num_stack";
  num_skip ← getitem feature "num_skip";
  train_data_size ← getitem corpus "train_data_size";
  Ok {| optimizer := optimizer; learning_rate := learning_rate;
        batch_size := batch_size; epoch_num := epoch_num;
        label_type_main := label_type_main;
        label_type_second := label_type_second;
        num_stack := num_stack; num_skip := num_skip;
        train_data_size := train_data_size |}.

(** Lines 427-486: from the configuration file to the model directory. *)
Definition locate (config_path : string)
  : M (pyval * pyval * pyval * Network) :=
  '(config, corpus, feature, param) ← read_config config_path;
  size_main ← lift (output_size_main corpus);
  size_second ← lift (output_size_second corpus);
  _ ← model_setting config feature param size_main size_second;
  name ← lift (make_model_name config corpus feature param);
  dir ← set_save_path corpus name;
  mret (corpus, feature, param, {| model_name := name; model_dir := dir |}).

(** Lines 427-513 up to the call of [do_train]. *)
Definition setup (config_path : string) : M (Network * TrainArgs) :=
  '(corpus, feature, param, network) ← locate config_path;
  _ ← reset_model_directory E (model_dir network);
  title ← lift (proc_title corpus);
  _ ← ext E (ESetProcTitle title);
  _ ← save_config E config_path (model_dir network);
  args ← lift (train_args corpus feature param);
  mret (network, args).

Definition main (config_path : string) : M unit :=
  '(network, a) ← setup config_path;
  _ ← do_train network (optimizer a) (learning_rate a) (batch_size a)
        (epoch_num a) (label_type_main a) (label_type_second a)
        (num_stack a) (num_skip a) (train_data_size a);
  put_stdout None.

(** Lines 517-522: [sys.argv] holds the script name and the arguments. *)
Definition script (argv : list string) : M unit :=
  if negb (length argv =? 2)%nat then raise (SystemExit 0)
  else main (nth 1 argv "").

End Script.
End Csj.

(** ** [experiments/timit/training/train_attention.py] *)

Module Timit.

Record locals := {
  mini_batch_train : nat;
  mini_batch_dev : nat;
  csv_steps : list Z;
  csv_loss_train : list value;
  csv_loss_dev : list value;
  csv_ler_train : list value;
  csv_ler_dev : list value;
  error_best : Q
}.

Definition locals0 : locals :=
  {| mini_batch_train := 0; mini_batch_dev := 0;
     csv_steps := []; csv_loss_train := []; csv_loss_dev := [];
     csv_ler_train := []; csv_ler_dev := []; error_best := 1 |}.

(** Lines 165-173. *)
Definition feed_dict_train (learning_rate : pyval) (n : nat)
  : gmap placeholder value :=
  list_to_map
    [ (Inputs, VYield MiniBatchTrain n 0);
      (Labels, VYield MiniBatchTrain n 1);
      (InputsSeqLen, VYield MiniBatchTrain n 2);
      (LabelsSeqLen, VYield MiniBatchTrain n 3);
      (KeepProbInput, VAttr "dropout_ratio_input");
      (KeepProbHidden, VAttr "dropout_ratio_hidden");
      (Lr, VPy learning_rate) ].

(** Lines 177-184. *)
Definition feed_dict_dev (m : nat) : gmap placeholder value :=
  list_to_map
    [ (Inputs, VYield MiniBatchDev m 0);
      (Labels, VYield MiniBatchDev m 1);
      (InputsSeqLen, VYield MiniBatchDev m 2);
      (LabelsSeqLen, VYield MiniBatchDev m 3);
      (KeepProbInput, VAttr "dropout_ratio_input");
      (KeepProbHidden, VAttr "dropout_ratio_hidden") ].

(** Lines 199-202. *)
Definition evaluation_mode (feed_dict : gmap placeholder value)
  : gmap placeholder value :=
  <[KeepProbHidden := VConst 1]> (<[KeepProbInput := VConst 1]> feed_dict).

(** Lines 216-223. *)
Definition feed_dict_ler (labels predicted_ids : value)
  : gmap placeholder value :=
  list_to_map
    [ (LabelsStTrue, VSparse labels); (LabelsStPred, VSparse predicted_ids) ].

Section Script.
Context (E : Env).

(** Lines 189-238, the block run every 10 steps. *)
Definition log_step (step : Z) (n m : nat)
    (fd_train fd_dev : gmap placeholder value) (l : locals) : M locals :=
  c_loss_train ← sess_run E [LossOp] fd_train;
  c_loss_dev ← sess_run E [LossOp] fd_dev;
  c_train ← sess_run E [DecodeOpInfer; SummaryTrain] (evaluation_mode fd_train);
  c_dev ← sess_run E [DecodeOpInfer; SummaryDev] (evaluation_mode fd_dev);
  _ ← ext E (EAddSummary (VFetch c_train 1) (step + 1));
  _ ← ext E (EAddSummary (VFetch c_dev 1) (step + 1));
  _ ← ext E (ECall "summary_writer.flush");
  _ ← calls E ["list2sparsetensor"; "list2sparsetensor";
               "list2sparsetensor"; "list2sparsetensor"];
  c_ler_train ← sess_run E [LerOp]
                  (feed_dict_ler (VYield MiniBatchTrain n 1) (VFetch c_train 0));
  c_ler_dev ← sess_run E [LerOp]
                (feed_dict_ler (VYield MiniBatchDev m 1) (VFetch c_dev 0));
  mret {| mini_batch_train := mini_batch_train l;
          mini_batch_dev := mini_batch_dev l;
          csv_steps := csv_steps l ++ [step];
          csv_loss_train := csv_loss_train l ++ [VFetch c_loss_train 0];
          csv_loss_dev := csv_loss_dev l ++ [VFetch c_loss_dev 0];
          csv_ler_train := csv_ler_train l ++ [VFetch c_ler_train 0];
          csv_ler_dev := csv_ler_dev l ++ [VFetch c_ler_dev 0];
          error_best := error_best l |}.

Definition set_best (l : locals) (q : Q) : locals :=
  {| mini_batch_train := mini_batch_train l;
     mini_batch_dev := mini_batch_dev l;
     csv_steps := csv_steps l;
     csv_loss_train := csv_loss_train l;
     csv_loss_dev := csv_loss_dev l;
     csv_ler_train := csv_ler_train l;
     csv_ler_dev := csv_ler_dev l;
     error_best := q |}.

(** Lines 253-308, the evaluation of an epoch. *)
Definition evaluate (label_type : pyval) (l : locals) : M locals :=
  if eq_str label_type "character" then
    error_dev_epoch ← do_eval_cer E DecodeOpInfer DevData;
    if negb (Qle_bool (error_best l) error_dev_epoch) then
      _ ← do_eval_cer E DecodeOpInfer TestData;
      mret (set_best l error_dev_epoch)
    else mret l
  else
    error_dev_epoch ← do_eval_per E DecodeOpInfer LerOp DevData;
    if negb (Qle_bool (error_best l) error_dev_epoch) then
      _ ← do_eval_per E DecodeOpInfer LerOp TestData;
      mret (set_best l error_dev_epoch)
    else mret l.

(** Lines 241-308, the block run at the end of an epoch. *)
Definition end_of_epoch (network : Network) (label_type : pyval)
    (step iter_per_epoch : Z) (l : locals) : M locals :=
  epoch ← lift (py_floordiv (step + 1) iter_per_epoch);
  _ ← ext E (ESaverSave (join (model_dir network) "model.ckpt") epoch);
  if 10 <=? epoch then evaluate label_type l else mret l.

Definition draw (l : locals) : locals :=
  {| mini_batch_train := S (mini_batch_train l);
     mini_batch_dev := S (mini_batch_dev l);
     csv_steps := csv_steps l;
     csv_loss_train := csv_loss_train l;
     csv_loss_dev := csv_loss_dev l;
     csv_ler_train := csv_ler_train l;
     csv_ler_dev := csv_ler_dev l;
     error_best := error_best l |}.

(** Lines 161-311, one iteration of [for step in range(max_steps)]. *)
Definition train_step (network : Network) (learning_rate label_type : pyval)
    (iter_per_epoch max_steps : Z) (i : nat) (l : locals) : M locals :=
  let step := Z.of_nat i in
  let n := mini_batch_train l in
  let m := mini_batch_dev l in
  _ ← ext E (ENext MiniBatchTrain);
  let fd_train := feed_dict_train learning_rate n in
  _ ← ext E (ENext MiniBatchDev);
  let fd_dev := feed_dict_dev m in
  let l := draw l in
  _ ← sess_run E [TrainOp] fd_train;
  l ← (if (step + 1) mod 10 =? 0
       then log_step step n m fd_train fd_dev l else mret l);
  r ← lift (py_mod (step + 1) iter_per_epoch);
  if (r =? 0) || (step + 1 =? max_steps)
  then end_of_epoch network label_type step iter_per_epoch l
  else mret l.

(** Lines 45-137: the data sets, the graph and the two generators. *)
Definition build_graph (learning_rate : pyval) : M unit :=
  _ ← calls E ["DataSet"; "DataSet"; "DataSet"; "tf.Graph";
               "tf.placeholder"; "tf.placeholder";
               "tf.placeholder"; "tf.placeholder"; "tf.placeholder";
               "tf.SparseTensor";
               "tf.placeholder"; "tf.placeholder"; "tf.placeholder";
               "tf.SparseTensor";
               "tf.placeholder"; "tf.placeholder";
               "tf.placeholder"; "tf.placeholder";
               "network.compute_loss"];
  _ ← lift (py_float E learning_rate);
  calls E ["network.train"; "network.decoder"; "network.compute_ler";
           "tf.summary.merge"; "tf.summary.merge";
           "tf.global_variables_initializer"; "tf.train.Saver";
           "tf.trainable_variables"; "count_total_parameters";
           "train_data.next_batch"; "dev_data.next_batch"].

(** Lines 152-156, and [range(max_steps)] of line 161. *)
Definition steps (batch_size epoch_num : pyval) : result (Z * Z) :=
  iter_per_epoch ← iter_per_epoch (data_num E) batch_size;
  max_steps ← int_mul E iter_per_epoch epoch_num;
  count ← range_count max_steps;
  Ok (iter_per_epoch, count).

Definition do_train (network : Network)
    (optimizer learning_rate batch_size epoch_num label_type : pyval)
    (eos_index : Z) : M unit :=
  _ ← build_graph learning_rate;
  _ ← calls E ["tf.Session"; "tf.summary.FileWriter"];
  _ ← sess_run E [InitOp] ∅;
  '(iter_per_epoch, max_steps) ← lift (steps batch_size epoch_num);
  l ← for_range
        (train_step network learning_rate label_type iter_per_epoch max_steps)
        0 (Z.to_nat max_steps) locals0;
  _ ← ext E (ESaveLoss (csv_steps l) (csv_loss_train l) (csv_loss_dev l)
               (model_dir network));
  _ ← ext E (ESaveLer (csv_steps l) (csv_ler_train l) (csv_loss_dev l)
               (model_dir network));
  open_write E (join (model_dir network) "complete.txt").

(** Lines 329-334. *)
Definition read_config (config_path : string)
  : M (pyval * pyval * pyval * pyval) :=
  content ← open_read E config_path;
  config ← lift (yaml_load E content);
  corpus ← lift (getitem config "corpus");
  feature ← lift (getitem config "feature");
  param ← lift (getitem config "param");
  mret (config, corpus, feature, param).

(** Lines 336-343; [None] is a local variable left unbound. *)
Definition output_size (corpus : pyval) : result (option Z) :=
  label_type ← getitem corpus "label_type";
  Ok (if eq_str label_type "phone61" then Some 63
      else if eq_str label_type "phone48" then Some 50
      else if eq_str label_type "phone39" then Some 41
      else if eq_str label_type "character" then Some 33
      else None).

Definition bound {A} (name : string) (o : option A) : result A :=
  match o with
  | Some a => Ok a
  | None => Raise (UnboundLocalError name)
  end.

(** Lines 347-368: the arguments of [BLSTMAttetion], evaluated left to
    right, and the call. *)
Definition model_args (feature param : pyval) (size : option Z) : result unit :=
  _ ← getitem param "batch_size";
  _ ← getitem feature "input_size";
  _ ← getitem param "encoder_num_unit";
  _ ← getitem param "encoder_num_layer";
  _ ← getitem param "attention_dim";
  _ ← getitem param "decoder_num_unit";
  _ ← getitem param "decoder_num_layer";
  _ ← getitem param "embedding_dim";
  _ ← bound "output_size" size;
  _ ← getitem param "max_decode_length";
  _ ← getitem param "attention_weights_tempareture";
  _ ← getitem param "logits_tempareture";
  _ ← getitem param "weight_init";
  _ ← getitem param "clip_grad";
  _ ← getitem param "clip_activation_encoder";
  _ ← getitem param "clip_activation_decoder";
  _ ← getitem param "dropout_input";
  _ ← getitem param "dropout_hidden";
  _ ← getitem param "weight_decay";
  Ok tt.

Definition model_setting (feature param : pyval) (size : option Z) : M unit :=
  _ ← lift (model_args feature param size);
  _ ← ext E (ECall "BLSTMAttetion");
  mret tt.

(** [v.upper()] *)
Definition py_upper (v : pyval) : result string :=
  match v with
  | PStr s => Ok (str_upper E s)
  | _ => Raise AttributeError
  end.

(** Lines 370-379. *)
Definition make_model_name (config param : pyval) : result string :=
  model_name ← getitem config "model_name";
  name ← py_upper model_name;
  encoder_num_unit ← getitem param "encoder_num_unit";
  let name := name +:+ "_encoder" +:+ py_str E encoder_num_unit in
  encoder_num_layer ← getitem param "encoder_num_layer";
  let name := name +:+ "_" +:+ py_str E encoder_num_layer in
  attention_dim ← getitem param "attention_dim";
  let name := name +:+ "_attdim" +:+ py_str E attention_dim in
  decoder_num_unit ← getitem param "decoder_num_unit";
  let name := name +:+ "_decoder" +:+ py_str E decoder_num_unit in
  decoder_num_layer ← getitem param "decoder_num_layer";
  let name := name +:+ "_" +:+ py_str E decoder_num_layer in
  optimizer ← getitem param "optimizer";
  suffix ← str_add "_" optimizer;
  let name := name +:+ suffix in
  learning_rate ← getitem param "learning_rate";
  let name := name +:+ "_lr" +:+ py_str E learning_rate in
  weight_decay ← getitem param "weight_decay";
  Ok (if ne_zero weight_decay
      then name +:+ "_weightdecay" +:+ py_str E weight_decay else name).

(** Lines 381-384; [os.path.join] inside [mkdir_join] needs a string. *)
Definition set_save_path (corpus : pyval) (name : string) : M string :=
  dir ← util_mkdir E "/n/sd8/inaguma/result/timit/attention/";
  label_type ← lift (getitem corpus "label_type");
  sub ← lift (str_add "" label_type);
  dir ← util_mkdir_join E dir sub;
  util_mkdir_join E dir name.

(** Line 394, the argument of [setproctitle]. *)
Definition proc_title (corpus : pyval) : result string :=
  label_type ← getitem corpus "label_type";
  str_add "attention_timit_" label_type.

(** Lines 401-407, the arguments of [do_train]. *)
Record TrainArgs := {
  optimizer : pyval;
  learning_rate : pyval;
  batch_size : pyval;
  epoch_num : pyval;
  label_type : pyval;
  eos_index : Z
}.

Definition train_args (corpus param : pyval) (size : option Z)
  : result TrainArgs :=
  optimizer ← getitem param "optimizer";
  learning_rate ← getitem param "learning_rate";
  batch_size ← getitem param "batch_size";
  epoch_num ← getitem param "num_epoch";
  label_type ← getitem corpus "label_type";
  output_size ← bound "output_size" size;
  Ok {| optimizer := optimizer; learning_rate := learning_rate;
        batch_size := batch_size; epoch_num := epoch_num;
        label_type := label_type; eos_index := output_size - 1 |}.

(** Lines 327-384: from the configuration file to the model directory. *)
Definition locate (config_path : string)
  : M (pyval * pyval * option Z * Network) :=
  '(config, corpus, feature, param) ← read_config config_path;
  size ← lift (output_size corpus);
  _ ← model_setting feature param size;
  name ← lift (make_model_name config param);
  dir ← set_save_path corpus name;
  mret (corpus, param, size, {| model_name := name; model_dir := dir |}).

(** Lines 327-407 up to the call of [do_train]. *)
Definition setup (config_path : string) : M (Network * TrainArgs) :=
  '(corpus, param, size, network) ← locate config_path;
  _ ← reset_model_directory E (model_dir network);
  title ← lift (proc_title corpus);
  _ ← ext E (ESetProcTitle title);
  _ ← save_config E config_path (model_dir network);
  args ← lift (train_args corpus param size);
  mret (network, args).

Definition main (config_path : string) : M unit :=
  '(network, a) ← setup config_path;
  _ ← do_train network (optimizer a) (learning_rate a) (batch_size a)
        (epoch_num a) (label_type a) (eos_index a);
  put_stdout None.

(** Lines 411-416. *)
Definition script (argv : list string) : M unit :=
  if negb (length argv =? 2)%nat then raise (ValueError "")
  else main (nth 1 argv "").

End Script.
End Timit.

(** ** A concrete environment, used to run the scripts on examples *)

Module Example.

Definition upper_char (c : ascii) : ascii :=
  let n := nat_of_ascii c in
  if (97 <=? n)%nat && (n <=? 122)%nat then ascii_of_nat (n - 32) else c.

Fixpoint upper (s : string) : string :=
  match s with
  | EmptyString => EmptyString
  | String c r => String (upper_char c) (upper r)
  end.

Definition float_repr (q : Q) : string :=
  if Qeq_bool q (1 # 1000) then "0.001"
  else if Qeq_bool q (4 # 5) then "0.8"
  else if Qeq_bool q (1 # 10) then "0.1"
  else "0.0".

(** [mkdir] and [mkdir_join] that create the directory unless it exists. *)
Definition make_dir (path : string) (files : gmap string node)
  : result (string * gmap string node) :=
  Ok (path, if isdir path files then files else <[path := Dir]> files).

Definition make_dir_join (path name : string) (files : gmap string node)
  : result (string * gmap string node) :=
  make_dir (join path name) files.

(** An environment in which [yaml.load] returns [config], the training set
    has [n] utterances, every evaluation returns [err] and the library calls
    listed by [faults] raise. *)
Definition env (config : pyval) (n : Z) (err : Q) (faults : nat -> bool) : Env :=
  {| faulty := faults;
     yaml_load := fun _ => Ok config;
     str_float := float_repr;
     str_container := fun _ => "";
     str_upper := upper;
     float_of_str := fun _ => Raise (ValueError "could not convert");
     mul_other := fun _ _ => Raise TypeError;
     mkdir := make_dir;
     mkdir_join := make_dir_join;
     data_num := n;
     eval_error := fun _ => err |}.

Definition no_faults : nat -> bool := fun _ => false.

Definition csj_param (num_epoch : list (string * pyval)) : pyval :=
  PDict ([ ("batch_size", PInt 2); ("num_unit", PInt 256);
           ("num_layer_main", PInt 5); ("num_layer_second", PInt 3);
           ("main_task_weight", PFloat (4 # 5));
           ("weight_init", PFloat (1 # 10));
           ("clip_grad", PInt 5); ("clip_activation", PInt 50);
           ("dropout_input", PInt 1); ("dropout_hidden", PInt 1);
           ("num_proj", PInt 0); ("weight_decay", PInt 0);
           ("bottleneck_dim", PInt 0);
           ("optimizer", PStr "adam");
           ("learning_rate", PFloat (1 # 1000)) ] ++ num_epoch).

Definition csj_config (num_epoch : list (string * pyval)) : pyval :=
  PDict [ ("model_name", PStr "blstm_ctc");
          ("corpus", PDict [ ("label_type_main", PStr "kanji");
                             ("label_type_second", PStr "character");
                             ("train_data_size", PStr "default") ]);
          ("feature", PDict [ ("input_size", PInt 123);
                              ("num_stack", PInt 3); ("num_skip", PInt 3) ]);
          ("param", csj_param num_epoch) ].

Definition csj_dir : string :=
  "/n/sd8/inaguma/result/csj/monolog/ctc/kanji_character/BLSTM_CTC_256_main5_second3_adam_lr0.001_stack3_taskweight0.8".

Definition timit_param (num_epoch : list (string * pyval)) : pyval :=
  PDict ([ ("batch_size", PInt 2);
           ("encoder_num_unit", PInt 256); ("encoder_num_layer", PInt 2);
           ("attention_dim", PInt 128);
           ("decoder_num_unit", PInt 256); ("decoder_num_layer", PInt 1);
           ("embedding_dim", PInt 64); ("max_decode_length", PInt 50);
           ("attention_weights_tempareture", PInt 1);
           ("logits_tempareture", PInt 1);
           ("weight_init", PFloat (1 # 10)); ("clip_grad", PInt 5);
           ("clip_activation_encoder", PInt 50);
           ("clip_activation_decoder", PInt 50);
           ("dropout_input", PInt 1); ("dropout_hidden", PInt 1);
           ("weight_decay", PInt 0);
           ("optimizer", PStr "adam");
           ("learning_rate", PFloat (1 # 1000)) ] ++ num_epoch).



(** A file system holding only the configuration file. *)
Definition files0 : gmap string node := {[ "config.yml" := File "yaml" ]}.

Definition csj_env : Env :=
  Example.env (Example.csj_config [("num_epoch", PInt 1)]) 2 (1 # 2)
    Example.no_faults.


(** A model directory left by an interrupted run: a checkpoint, no
    [complete.txt]. *)
Definition files_interrupted (dir : string) : gmap string node :=
  <[join dir "model.ckpt-1" := File "weights"]>
    (<[dir := Dir]> Example.files0).

(** A model directory left by a run that completed. *)
Definition files_completed (dir : string) : gmap string node :=
  <[join dir "complete.txt" := File ""]> (files_interrupted dir).

End Example.

(** ** What a trace shows of the training loop *)

Inductive metric := CER | PER.

Inductive mark := Trained | Saved (global_step : Z) | DevEvaluated (m : metric).

(** The events that matter for the progress of training: a parameter
    update, a checkpoint, an evaluation on the dev set. *)
Definition mark_of (ev : event) : option mark :=
  match ev with
  | ERun [TrainOp] _ => Some Trained
  | ESaverSave _ k => Some (Saved k)
  | EDoEvalCer _ DevData => Some (DevEvaluated CER)
  | EDoEvalPer _ _ DevData => Some (DevEvaluated PER)
  | _ => None
  end.

Definition skeleton (tr : list event) : list mark := omap mark_of tr.





Definition is_trained (m : mark) : bool :=
  match m with Trained => true | _ => false end.




(** ** Feed dictionaries seen by [sess.run] *)

(** [extends P w w']: the run from [w] to [w'] appended events that all
    satisfy [P]. *)
Definition extends (P : event -> Prop) (w w' : world) : Prop :=
  exists evs, trace w' = trace w ++ evs /\ Forall P evs.



(** ** Training progress and files *)

Definition is_update (ev : event) : bool :=
  match ev with ERun [TrainOp] _ => true | _ => false end.

(** The number of parameter updates in a trace. *)
Definition updates (tr : list event) : nat := length (List.filter is_update tr).

(** What [do_train] leaves outside the trace. *)
Definition same_files (w w' : world) : Prop :=
  fs w' = fs w /\ stdout w' = stdout w.

(** The state of a run in which nothing was trained or written since [w]. *)
Definition idle (w w' : world) : Prop :=
  same_files w w' /\ updates (trace w') = updates (trace w).

(** The model directory when [do_train] is entered. *)
Definition ready (config_path : string) (network : Network) (w : world) : Prop :=
  exists c,
    fs w !! config_path = Some (File c) /\
    fs w !! join (model_dir network) "config.yml" = Some (File c) /\
    fs w !! join (model_dir network) "train.log" = Some (File "") /\
    fs w !! join (model_dir network) "complete.txt" = None /\
    stdout w = Some (join (model_dir network) "train.log").

(** ** Outcomes of the scripts *)


Definition csj_exports (network : Network) (l : Csj.locals) : list event :=
  [ ESaveLoss (Csj.csv_steps l) (Csj.csv_loss_train l) (Csj.csv_loss_dev l)
      (model_dir network);
    ESaveLer (Csj.csv_steps l) (Csj.csv_ler_main_train l)
      (Csj.csv_ler_second_dev l) (model_dir network);
    ESaveLer (Csj.csv_steps l) (Csj.csv_ler_second_train l)
      (Csj.csv_ler_second_dev l) (model_dir network) ].

Definition timit_exports (network : Network) (l : Timit.locals) : list event :=
  [ ESaveLoss (Timit.csv_steps l) (Timit.csv_loss_train l)
      (Timit.csv_loss_dev l) (model_dir network);
    ESaveLer (Timit.csv_steps l) (Timit.csv_ler_train l)
      (Timit.csv_loss_dev l) (model_dir network) ].


(** [config.yml] and [train.log] are files of the model directory. *)
Definition has_config_and_log (network : Network) (w : world) : Prop :=
  isfile (join (model_dir network) "config.yml") (fs w) = true /\
  isfile (join (model_dir network) "train.log") (fs w) = true.

(** The file system after "Reset model directory" found no [complete.txt]:
    everything below [dir] is gone and [dir] is an empty directory. *)
Definition emptied (dir : string) (files : gmap string node)
  : gmap string node :=
  <[dir := Dir]> (filter (fun kv => below dir kv.1 = false) files).

(** What lines 488-493 and 386-391 do from the world [w1] reached when the
    save path is set, in a run without faults. *)
Definition reset_outcome (E : Env) (dir : string) (w1 : world)
  : world * result unit :=
  let complete := join dir "complete.txt" in
  if isfile complete (fs w1) then
    (log (EIsFile complete) w1, Raise (ValueError "File exists."))
  else
    match fs w1 !! dir with
    | Some _ =>
        ({| fs := emptied dir (fs w1); stdout := stdout w1;
            trace := trace w1 ++ [EIsFile complete; EDeleteRecursively dir;
                                  EMakeDirs dir] |}, Ok tt)
    | None =>
        (log (EDeleteRecursively dir) (log (EIsFile complete) w1),
         Raise (IOError dir))
    end.

(** ** Where an exported number came from *)

(** [fetched tr fetches pos P v]: [v] is result number [pos] of a
    [sess.run] of the trace [tr] that fetched [fetches] with a feed
    dictionary satisfying [P]. *)
Definition fetched (tr : list event) (fetches : list op) (pos : nat)
    (P : gmap placeholder value -> Prop) (v : value) : Prop :=
  exists call fd,
    v = VFetch call pos /\ tr !! call = Some (ERun fetches fd) /\ P fd.

Definition train_fed (fd : gmap placeholder value) : Prop := fd !! Lr <> None.
Definition dev_fed (fd : gmap placeholder value) : Prop := fd !! Lr = None.
Definition any_fed (fd : gmap placeholder value) : Prop := True.

Definition is_export (ev : event) : bool :=
  match ev with
  | ESaveLoss _ _ _ _ | ESaveLer _ _ _ _ => true
  | _ => false
  end.

(** The calls of [save_loss] and [save_ler] in a trace. *)
Definition exports (tr : list event) : list event := List.filter is_export tr.

(** The numbers handed to [save_loss] or [save_ler]. *)
Definition exported_values (ev : event) : list value :=
  match ev with
  | ESaveLoss _ train dev _ | ESaveLer _ train dev _ => train ++ dev
  | _ => []
  end.

(** What the seven lists of [train_multitask_ctc.do_train] hold. *)
Definition csj_series (tr : list event) (l : Csj.locals) : Prop :=
  Forall (fetched tr [LossOp] 0 train_fed) (Csj.csv_loss_train l) /\
  Forall (fetched tr [LossOp] 0 dev_fed) (Csj.csv_loss_dev l) /\
  Forall (fetched tr [LerOpMain; LerOpSecond; SummaryTrain] 0 any_fed)
         (Csj.csv_ler_main_train l) /\
  Forall (fetched tr [LerOpMain; LerOpSecond; SummaryDev] 0 any_fed)
         (Csj.csv_ler_main_dev l) /\
  Forall (fetched tr [LerOpMain; LerOpSecond; SummaryTrain] 1 any_fed)
         (Csj.csv_ler_second_train l) /\
  Forall (fetched tr [LerOpMain; LerOpSecond; SummaryDev] 1 any_fed)
         (Csj.csv_ler_second_dev l) /\
  length (Csj.csv_ler_main_dev l) = length (Csj.csv_steps l) /\
  length (Csj.csv_ler_second_dev l) = length (Csj.csv_steps l).

(** The dictionary of an LER computation of [train_attention.py] whose
    true labels are those of a tuple of generator [g]. *)
Definition true_labels_of (g : generator) (fd : gmap placeholder value) : Prop :=
  exists n, fd !! LabelsStTrue = Some (VSparse (VYield g n 1)).

(** What the five lists of [train_attention.do_train] hold. *)
Definition timit_series (tr : list event) (l : Timit.locals) : Prop :=
  Forall (fetched tr [LossOp] 0 train_fed) (Timit.csv_loss_train l) /\
  Forall (fetched tr [LossOp] 0 dev_fed) (Timit.csv_loss_dev l) /\
  Forall (fetched tr [LerOp] 0 (true_labels_of MiniBatchTrain))
         (Timit.csv_ler_train l) /\
  Forall (fetched tr [LerOp] 0 (true_labels_of MiniBatchDev))
         (Timit.csv_ler_dev l) /\
  length (Timit.csv_ler_dev l) = length (Timit.csv_steps l) /\
  length (Timit.csv_loss_dev l) = length (Timit.csv_steps l).

(** The exports of a run of [do_train] started in [w]: the first [k]
    calls of [expected], all of them when the run returned. *)
Definition exported (expected : list event) (k : nat) (w : world)
    (run : world * result unit) : Prop :=
  exports (trace run.1) = exports (trace w) ++ take k expected /\
  (is_ok run.2 = true -> k = length expected).

(** None of the values [vs] was handed to an export of [expected]. *)
Definition never_exported (vs : list value) (expected : list event) : Prop :=
  Forall (fun v => ~ In v (flat_map exported_values expected)) vs.

(** No export since [w0]. *)
Definition no_export_since (w0 w : world) : Prop :=
  exports (trace w) = exports (trace w0).

(** ** Keys of the configuration *)

Definition has_key (d : pyval) (k : string) : bool := is_ok (getitem d k).

(** [config[section]] is a dictionary that has all of [keys]. *)
Definition has_keys (config : pyval) (section : string) (keys : list string)
  : bool :=
  match getitem config section with
  | Ok d => forallb (has_key d) keys
  | Raise _ => false
  end.

(** The keys [main] of [train_multitask_ctc.py] reads. *)
Definition csj_complete (config : pyval) : bool :=
  has_key config "model_name" &&
  has_keys config "corpus"
    ["label_type_main"; "label_type_second"; "train_data_size"] &&
  has_keys config "feature" ["input_size"; "num_stack"; "num_skip"] &&
  has_keys config "param"
    ["batch_size"; "num_unit"; "num_layer_main"; "num_layer_second";
     "main_task_weight"; "weight_init"; "clip_grad"; "clip_activation";
     "dropout_input"; "dropout_hidden"; "num_proj"; "weight_decay";
     "optimizer"; "learning_rate"; "bottleneck_dim"; "num_epoch"].

(** The keys [main] of [train_attention.py] reads. *)
Definition timit_complete (config : pyval) : bool :=
  has_key config "model_name" &&
  has_keys config "corpus" ["label_type"] &&
  has_keys config "feature" ["input_size"] &&
  has_keys config "param"
    ["batch_size"; "encoder_num_unit"; "encoder_num_layer"; "attention_dim";
     "decoder_num_unit"; "decoder_num_layer"; "embedding_dim";
     "max_decode_length"; "attention_weights_tempareture";
     "logits_tempareture"; "weight_init"; "clip_grad";
     "clip_activation_encoder"; "clip_activation_decoder";
     "dropout_input"; "dropout_hidden"; "weight_decay";
     "optimizer"; "learning_rate"; "num_epoch"].

(** ** Shapes of the layers of [LSTM_CTC._build] *)

(** The affine layers [_build] applies to the reshaped RNN outputs, in the
    order of lines 120-138: the shapes of the weight and of the bias. *)
Definition affine_layers (g : LstmCtc.graph) : list (list Z * list Z) :=
  match LstmCtc.W_bottleneck g, LstmCtc.b_bottleneck g with
  | Some W, Some b => [(W, b)]
  | _, _ => []
  end ++ [(LstmCtc.W_output g, LstmCtc.b_output g)].

(** [tf.matmul(outputs, W) + b] on rows of [n] entries needs [W] of shape
    [[n; m]] and [b] of shape [[m]], and yields rows of [m] entries.
    [feeds_through n layers] is the row length after all [layers]. *)
Fixpoint feeds_through (n : Z) (layers : list (list Z * list Z)) : option Z :=
  match layers with
  | [] => Some n
  | ([i; o], [o']) :: r =>
      if (i =? n) && (o =? o') then feeds_through o r else None
  | _ :: _ => None
  end.

(** Two cells that differ at most in their name scope. *)
Definition same_cell_settings (c c' : LstmCtc.LSTMCell) : Prop :=
  LstmCtc.cell_num_units c = LstmCtc.cell_num_units c' /\
  LstmCtc.use_peepholes c = LstmCtc.use_peepholes c' /\
  LstmCtc.cell_clip c = LstmCtc.cell_clip c' /\
  LstmCtc.initializer_minval c = LstmCtc.initializer_minval c' /\
  LstmCtc.initializer_maxval c = LstmCtc.initializer_maxval c' /\
  LstmCtc.cell_num_proj c = LstmCtc.cell_num_proj c' /\
  LstmCtc.forget_bias c = LstmCtc.forget_bias c' /\
  LstmCtc.state_is_tuple c = LstmCtc.state_is_tuple c'.

(** ** The three parts of [do_train] *)

(** Lines 412-422 and 316-324: the csv exports and [complete.txt]. *)
Definition csj_finish (E : Env) (network : Network) (l : Csj.locals) : M unit :=
  _ ← ext E (ESaveLoss (Csj.csv_steps l) (Csj.csv_loss_train l)
               (Csj.csv_loss_dev l) (model_dir network));
  _ ← ext E (ESaveLer (Csj.csv_steps l) (Csj.csv_ler_main_train l)
               (Csj.csv_ler_second_dev l) (model_dir network));
  _ ← ext E (ESaveLer (Csj.csv_steps l) (Csj.csv_ler_second_train l)
               (Csj.csv_ler_second_dev l) (model_dir network));
  open_write E (join (model_dir network) "complete.txt").

Definition timit_finish (E : Env) (network : Network) (l : Timit.locals)
  : M unit :=
  _ ← ext E (ESaveLoss (Timit.csv_steps l) (Timit.csv_loss_train l)
               (Timit.csv_loss_dev l) (model_dir network));
  _ ← ext E (ESaveLer (Timit.csv_steps l) (Timit.csv_ler_train l)
               (Timit.csv_loss_dev l) (model_dir network));
  open_write E (join (model_dir network) "complete.txt").

(** The events [do_train] logs before its loop. *)
Definition prelude_event (ev : event) : Prop :=
  (exists f, ev = ECall f) \/ ev = ERun [InitOp] ∅.

(** ** Runs of [do_train] that never enter the loop *)

(** Nothing was trained, saved, evaluated, exported or written since [w]. *)
Definition untouched (w w' : world) : Prop :=
  same_files w w' /\ skeleton (trace w') = skeleton (trace w) /\
  exports (trace w') = exports (trace w).



(** ** The feed dictionaries of the parameter updates *)

Definition update_feed (ev : event) : option (gmap placeholder value) :=
  match ev with
  | ERun [TrainOp] fd => Some fd
  | _ => None
  end.

(** The dictionaries fed to [sess.run(train_op, ...)], in order. *)
Definition update_feeds (tr : list event) : list (gmap placeholder value) :=
  omap update_feed tr.

(** The updates of a run started in [w] were fed the first [k] training
    dictionaries, in order; all [max_steps] of them when the run returned. *)
Definition updates_in_order (feed : nat -> gmap placeholder value)
    (steps : result (Z * Z)) (w : world) (run : world * result unit) : Prop :=
  exists k,
    update_feeds (trace run.1) = update_feeds (trace w) ++ map feed (seq 0 k) /\
    (is_ok run.2 = true ->
     exists ipe max_steps, steps = Ok (ipe, max_steps) /\ k = Z.to_nat max_steps).

(** ** The rows of the csv exports *)

(** The values of [step] at which the loop logs, among the first [n]
    iterations: those with [(step + 1) % every == 0]. *)
Definition logged (every : Z) (n : nat) : list Z :=
  flat_map (fun i => if (Z.of_nat i + 1) mod every =? 0 then [Z.of_nat i] else [])
           (seq 0 n).

(** The same steps counted off: [every - 1], [2 * every - 1], ... below
    [max_steps]. *)
Definition logged_steps (every max_steps : Z) : list Z :=
  map (fun k => every * (Z.of_nat k + 1) - 1)
      (seq 0 (Z.to_nat (max_steps / every))).

(** What the loop logs of a run with the csv steps [steps]: every export
    carries [steps] and two series with one entry per step, and every
    summary is written with the [global_step] that follows a csv step. *)
Definition logs_rows (steps : list Z) (ev : event) : Prop :=
  match ev with
  | ESaveLoss s train dev _ | ESaveLer s train dev _ =>
      s = steps /\ length train = length steps /\ length dev = length steps
  | EAddSummary _ global_step => In (global_step - 1) steps
  | _ => True
  end.

(** The series of [train_multitask_ctc.do_train] that are exported have one
    entry per entry of [csv_steps]. *)
Definition csj_aligned (l : Csj.locals) : Prop :=
  length (Csj.csv_loss_train l) = length (Csj.csv_steps l) /\
  length (Csj.csv_loss_dev l) = length (Csj.csv_steps l) /\
  length (Csj.csv_ler_main_train l) = length (Csj.csv_steps l) /\
  length (Csj.csv_ler_second_train l) = length (Csj.csv_steps l) /\
  length (Csj.csv_ler_second_dev l) = length (Csj.csv_steps l).

Definition timit_aligned (l : Timit.locals) : Prop :=
  length (Timit.csv_loss_train l) = length (Timit.csv_steps l) /\
  length (Timit.csv_loss_dev l) = length (Timit.csv_steps l) /\
  length (Timit.csv_ler_train l) = length (Timit.csv_steps l).

(** ** What [do_train] hands to the libraries *)

(** The calls of [sess.run] in [train_multitask_ctc.do_train]: line 156,
    line 197, lines 201-202 and lines 214-219, for the tuples of a step
    [n]. *)
Inductive csj_sess_run (lr : pyval) : list op -> gmap placeholder value -> Prop :=
| csj_run_init : csj_sess_run lr [InitOp] ∅
| csj_run_update n : csj_sess_run lr [TrainOp] (Csj.feed_dict_train lr n)
| csj_run_loss_train n : csj_sess_run lr [LossOp] (Csj.feed_dict_train lr n)
| csj_run_loss_dev n : csj_sess_run lr [LossOp] (Csj.feed_dict_dev n n)
| csj_run_ler_train n :
    csj_sess_run lr [LerOpMain; LerOpSecond; SummaryTrain]
      (Csj.evaluation_mode (Csj.feed_dict_train lr n))
| csj_run_ler_dev n :
    csj_sess_run lr [LerOpMain; LerOpSecond; SummaryDev]
      (Csj.evaluation_mode (Csj.feed_dict_dev n n)).

(** What a library call of [train_multitask_ctc.do_train] can be. *)
Definition csj_does (lr : pyval) (network : Network) (ev : event) : Prop :=
  match ev with
  | ERun fetches fd => csj_sess_run lr fetches fd
  | EDoEvalCer decode_op d => decode_op = DecodeOpMain /\ d = DevData
  | ESaverSave path _ => path = join (model_dir network) "model.ckpt"
  | ESaveLoss _ _ _ path | ESaveLer _ _ _ path => path = model_dir network
  | EOpen path mode =>
      path = join (model_dir network) "complete.txt" /\ mode = "w"
  | ECall _ | ENext _ | EAddSummary _ _ => True
  | EDoEvalPer _ _ _ | EIsFile _ | EMkdir _ | EMkdirJoin _ _
  | EDeleteRecursively _ | EMakeDirs _ | ECopyFile _ _ | ESetProcTitle _ =>
      False
  end.

(** The calls of [sess.run] in [train_attention.do_train]: line 149, line
    187, lines 192-193, lines 205-210 and lines 226-229. *)
Inductive timit_sess_run (lr : pyval)
  : list op -> gmap placeholder value -> Prop :=
| timit_run_init : timit_sess_run lr [InitOp] ∅
| timit_run_update n : timit_sess_run lr [TrainOp] (Timit.feed_dict_train lr n)
| timit_run_loss_train n :
    timit_sess_run lr [LossOp] (Timit.feed_dict_train lr n)
| timit_run_loss_dev n : timit_sess_run lr [LossOp] (Timit.feed_dict_dev n)
| timit_run_decode_train n :
    timit_sess_run lr [DecodeOpInfer; SummaryTrain]
      (Timit.evaluation_mode (Timit.feed_dict_train lr n))
| timit_run_decode_dev n :
    timit_sess_run lr [DecodeOpInfer; SummaryDev]
      (Timit.evaluation_mode (Timit.feed_dict_dev n))
| timit_run_ler g n call :
    timit_sess_run lr [LerOp]
      (Timit.feed_dict_ler (VYield g n 1) (VFetch call 0)).

(** What a library call of [train_attention.do_train] can be. *)
Definition timit_does (lr label_type : pyval) (network : Network) (ev : event)
  : Prop :=
  match ev with
  | ERun fetches fd => timit_sess_run lr fetches fd
  | EDoEvalCer decode_op d =>
      decode_op = DecodeOpInfer /\ eq_str label_type "character" = true /\
      (d = DevData \/ d = TestData)
  | EDoEvalPer decode_op per_op d =>
      decode_op = DecodeOpInfer /\ per_op = LerOp /\
      eq_str label_type "character" = false /\ (d = DevData \/ d = TestData)
  | ESaverSave path _ => path = join (model_dir network) "model.ckpt"
  | ESaveLoss _ _ _ path | ESaveLer _ _ _ path => path = model_dir network
  | EOpen path mode =>
      path = join (model_dir network) "complete.txt" /\ mode = "w"
  | ECall _ | ENext _ | EAddSummary _ _ => True
  | EIsFile _ | EMkdir _ | EMkdirJoin _ _
  | EDeleteRecursively _ | EMakeDirs _ | ECopyFile _ _ | ESetProcTitle _ =>
      False
  end.

(** The keep probabilities of a feed dictionary. *)
Definition keep_probs (fd : gmap placeholder value)
  : option value * option value :=
  (fd !! KeepProbInput, fd !! KeepProbHidden).

(** A [sess.run] that fetches the training operation or the loss is fed the
    dropout ratios of the network; one that fetches an LER or the decoded
    labels (and a summary) is fed [1.0] for both. *)
Definition dropout_by_fetch (ev : event) : Prop :=
  match ev with
  | ERun fetches fd =>
      (In TrainOp fetches \/ In LossOp fetches ->
       keep_probs fd = (Some (VAttr "dropout_ratio_input"),
                        Some (VAttr "dropout_ratio_hidden"))) /\
      (In LerOpMain fetches \/ In DecodeOpInfer fetches ->
       keep_probs fd = (Some (VConst 1), Some (VConst 1)))
  | _ => True
  end.

(** ** Events and what preceded them *)

(** [each_since from P tr]: every event of [tr] from position [from] on
    satisfies [P], which also sees the events before it. *)
Definition each_since (from : nat) (P : list event -> event -> Prop)
    (tr : list event) : Prop :=
  forall i ev, (from <= i)%nat -> tr !! i = Some ev -> P (take i tr) ev.

(** ** Evaluations on the test set in [train_attention.py] *)

Definition is_dev_eval (ev : event) : bool :=
  match ev with
  | EDoEvalCer _ DevData | EDoEvalPer _ _ DevData => true
  | _ => false
  end.

Definition is_test_eval (ev : event) : bool :=
  match ev with
  | EDoEvalCer _ TestData | EDoEvalPer _ _ TestData => true
  | _ => false
  end.

(** The error rate returned by the dev evaluation at position [j], if
    there is one. *)
Definition dev_error (E : Env) (tr : list event) (j : nat) : option Q :=
  match tr !! j with
  | Some ev => if is_dev_eval ev then Some (eval_error E j) else None
  | None => None
  end.

(** [test] is the evaluation on the test set that goes with the
    evaluation [dev] on the dev set: the same function and operations. *)
Definition test_of (dev test : event) : Prop :=
  match dev, test with
  | EDoEvalCer op DevData, EDoEvalCer op' TestData => op = op'
  | EDoEvalPer op per DevData, EDoEvalPer op' per' TestData =>
      op = op' /\ per = per'
  | _, _ => False
  end.

(** An evaluation on the test set comes right after an evaluation on the
    dev set of this run, whose error rate is below 1 and below the error
    rate of every earlier dev evaluation of the run. *)
Definition after_best_dev (E : Env) (from : nat) (before : list event)
    (ev : event) : Prop :=
  is_test_eval ev = true ->
  exists j dev,
    length before = S j /\ (from <= j)%nat /\
    before !! j = Some dev /\ test_of dev ev /\
    (eval_error E j < 1)%Q /\
    forall j' e', (from <= j' < j)%nat -> dev_error E before j' = Some e' ->
                  (eval_error E j < e')%Q.

(** The invariant of the loop: [best] is at most 1 and at most every dev
    error rate of the run so far. *)
Definition tests_inv (E : Env) (from : nat) (best : Q) (tr : list event)
  : Prop :=
  (from <= length tr)%nat /\
  each_since from (after_best_dev E from) tr /\
  (best <= 1)%Q /\
  forall j e, (from <= j)%nat -> dev_error E tr j = Some e -> (best <= e)%Q.

(** ** The label error rates logged by [train_attention.py] *)

(** Lines 205-210: the decoding of tuple [n] of generator [g], in
    evaluation mode. *)
Definition decode_run (lr : pyval) (g : generator) (n : nat) : event :=
  match g with
  | MiniBatchTrain =>
      ERun [DecodeOpInfer; SummaryTrain]
        (Timit.evaluation_mode (Timit.feed_dict_train lr n))
  | MiniBatchDev =>
      ERun [DecodeOpInfer; SummaryDev]
        (Timit.evaluation_mode (Timit.feed_dict_dev n))
  end.

(** A [sess.run] of [ler_op] compares the true labels of a tuple of one of
    the generators with the labels decoded earlier from that same tuple. *)
Definition ler_of_own_batch (lr : pyval) (before : list event) (ev : event)
  : Prop :=
  match ev with
  | ERun [LerOp] fd =>
      exists g n call,
        fd = Timit.feed_dict_ler (VYield g n 1) (VFetch call 0) /\
        before !! call = Some (decode_run lr g n)
  | _ => True
  end.

(** ** The redirection of [sys.stdout] *)



(** ** The files around the model directory *)

(** What "Reset model directory" leaves of the files [before]: every path
    that is not the directory or below it is as it was; when the block
    returns, [complete.txt] was not there, the directory exists and nothing
    is below it; when it raises [ValueError], nothing changed. *)
Definition reset_leaves (dir : string) (before : gmap string node)
    (after : gmap string node) (r : result unit) : Prop :=
  (forall path, below dir path = false -> after !! path = before !! path) /\
  (is_ok r = true ->
   isfile (join dir "complete.txt") before = false /\
   after !! dir = Some Dir /\
   forall path, below dir path = true -> path <> dir -> after !! path = None) /\
  (forall msg, r = Raise (ValueError msg) ->
   after = before /\ isfile (join dir "complete.txt") before = true).

(** ** Label types without an output size *)

(** How [main] ends when the output size was left unbound: by an
    exception, with the files, [sys.stdout] and the parameters untouched;
    by the [UnboundLocalError] of [name] when nothing else fails first. *)
Definition ends_unbound (E : Env) (name : string) (others_fine : Prop)
    (w : world) (run : world * result unit) : Prop :=
  is_ok run.2 = false /\ idle w run.1 /\
  ((forall n, faulty E n = false) -> others_fine ->
   run.2 = Raise (UnboundLocalError name)).

(** ** The summaries written to the event file *)

(** The summary operation of the tuples of a generator. *)
Definition summary_op (g : generator) : op :=
  match g with
  | MiniBatchTrain => SummaryTrain
  | MiniBatchDev => SummaryDev
  end.

(** Lines 214-219 of [train_multitask_ctc.py]: the [sess.run] that computes
    the label error rates and the summary of tuple [n] of generator [g], in
    evaluation mode. *)
Definition csj_ler_run (lr : pyval) (g : generator) (n : nat) : event :=
  match g with
  | MiniBatchTrain =>
      ERun [LerOpMain; LerOpSecond; SummaryTrain]
        (Csj.evaluation_mode (Csj.feed_dict_train lr n))
  | MiniBatchDev =>
      ERun [LerOpMain; LerOpSecond; SummaryDev]
        (Csj.evaluation_mode (Csj.feed_dict_dev n n))
  end.

(** The operation whose value is at position [pos] of the result of a
    [sess.run]. *)
Definition fetch_at (ev : event) (pos : nat) : option op :=
  match ev with
  | ERun fetches _ => fetches !! pos
  | _ => None
  end.

(** A summary handed to [summary_writer.add_summary] with [global_step]
    [n + 1] is the value of the summary operation in the result of the
    earlier call [run g n] of [sess.run], on the dictionary of step [n]. *)
Definition summary_of_step (run : generator -> nat -> event)
    (before : list event) (ev : event) : Prop :=
  match ev with
  | EAddSummary summary global_step =>
      exists g n call pos,
        summary = VFetch call pos /\ global_step = Z.of_nat n + 1 /\
        before !! call = Some (run g n) /\
        fetch_at (run g n) pos = Some (summary_op g)
  | _ => True
  end.

(** ** The tuples drawn from the generators *)

(** [ev] is a call of [next] on [g]. *)
Definition draw_of (g : generator) (ev : event) : bool :=
  match ev, g with
  | ENext MiniBatchTrain, MiniBatchTrain
  | ENext MiniBatchDev, MiniBatchDev => true
  | _, _ => false
  end.

(** How many tuples were drawn from [g]. *)
Definition drawn (g : generator) (tr : list event) : nat :=
  length (List.filter (draw_of g) tr).

(** The generator and the tuple a value was taken from. *)
Fixpoint yielded (v : value) : option (generator * nat) :=
  match v with
  | VYield g n _ => Some (g, n)
  | VSparse v => yielded v
  | _ => None
  end.

(** Every tuple that [feed_dict] takes a value from is tuple [n] of its
    generator. *)
Definition yields_only (n : nat) (feed_dict : gmap placeholder value) : Prop :=
  forall p v g m, feed_dict !! p = Some v -> yielded v = Some (g, m) -> m = n.

(** A [sess.run] is fed values of the tuples drawn last: tuple [n] of [g]
    is fed when [n + 1] tuples were drawn from [g] since the run began with
    [base g] of them drawn. *)
Definition feeds_latest_draws (base : generator -> nat) (before : list event)
    (ev : event) : Prop :=
  match ev with
  | ERun _ feed_dict =>
      forall p v g n, feed_dict !! p = Some v -> yielded v = Some (g, n) ->
                      drawn g before = (base g + S n)%nat
  | _ => True
  end.

(** What a run of [do_train] started in [w] draws: each [sess.run] is fed
    the tuples drawn last, and a run that returns has drawn [max_steps]
    tuples from each generator. *)
Definition draws_each_step (steps : result (Z * Z)) (w : world)
    (run : world * result unit) : Prop :=
  each_since (length (trace w))
    (feeds_latest_draws (fun g => drawn g (trace w))) (trace run.1) /\
  (is_ok run.2 = true ->
   exists ipe max_steps,
     steps = Ok (ipe, max_steps) /\
     forall g, drawn g (trace run.1)
               = (drawn g (trace w) + Z.to_nat max_steps)%nat).

(** ** Runs of [main] around "Reset model directory" *)




(** ** Configurations that lack a key *)

(** [del d[k]] *)
Definition del_item (k : string) (d : pyval) : pyval :=
  match d with
  | PDict l => PDict (List.filter (fun kv => negb (bool_decide (kv.1 = k))) l)
  | _ => d
  end.

(** [del config[section][k]] *)
Definition del_in (section k : string) (config : pyval) : pyval :=
  match config with
  | PDict l =>
      PDict (map (fun kv => if bool_decide (kv.1 = section)
                            then (kv.1, del_item k kv.2) else kv) l)
  | _ => config
  end.

(** The environment [E] in which the configuration file loads as
    [config]. *)
Definition with_config (E : Env) (config : pyval) : Env :=
  {| faulty := faulty E;
     yaml_load := fun _ => Ok config;
     str_float := str_float E;
     str_container := str_container E;
     str_upper := str_upper E;
     float_of_str := float_of_str E;
     mul_other := mul_other E;
     mkdir := mkdir E;
     mkdir_join := mkdir_join E;
     data_num := data_num E;
     eval_error := eval_error E |}.

(** The first of [keys] that the dictionary [d] lacks. *)
Definition first_missing (keys : list string) (d : pyval) : option string :=
  List.find (fun k => negb (has_key d k)) keys.

(** The sections of the configuration and the keys [main] of
    [train_multitask_ctc.py] reads in each, as in [csj_complete]. *)
Definition csj_sections : list (string * list string) :=
  [ ("corpus", ["label_type_main"; "label_type_second"; "train_data_size"]);
    ("feature", ["input_size"; "num_stack"; "num_skip"]);
    ("param",
     ["batch_size"; "num_unit"; "num_layer_main"; "num_layer_second";
      "main_task_weight"; "weight_init"; "clip_grad"; "clip_activation";
      "dropout_input"; "dropout_hidden"; "num_proj"; "weight_decay";
      "optimizer"; "learning_rate"; "bottleneck_dim"; "num_epoch"]) ].

(** The same for [train_attention.py], as in [timit_complete]. *)
Definition timit_sections : list (string * list string) :=
  [ ("corpus", ["label_type"]);
    ("feature", ["input_size"]);
    ("param",
     ["batch_size"; "encoder_num_unit"; "encoder_num_layer"; "attention_dim";
      "decoder_num_unit"; "decoder_num_layer"; "embedding_dim";
      "max_decode_length"; "attention_weights_tempareture";
      "logits_tempareture"; "weight_init"; "clip_grad";
      "clip_activation_encoder"; "clip_activation_decoder";
      "dropout_input"; "dropout_hidden"; "weight_decay";
      "optimizer"; "learning_rate"; "num_epoch"]) ].

(** The keys [main] reads in the configuration itself. *)
Definition top_level_keys : list string :=
  ["corpus"; "feature"; "param"; "model_name"].

(** ** Two runs side by side *)

(** Two results: the first is the [KeyError] of [k], or both are the same
    exception, or both are values related by [R]. *)
Definition rsim {A B} (k : string) (R : A -> B -> Prop)
    (r' : result A) (r : result B) : Prop :=
  r' = Raise (KeyError k) \/
  match r', r with
  | Ok a', Ok a => R a' a
  | Raise e', Raise e => e' = e
  | _, _ => False
  end.

(** Two runs from the same world: the first raises the [KeyError] of [k],
    or both end in the same world, by the same exception or with values
    related by [R]. *)
Definition sim {A B} (k : string) (R : A -> B -> Prop)
    (c' : M A) (c : M B) (w : world) : Prop :=
  (c' w).2 = Raise (KeyError k) \/
  ((c' w).1 = (c w).1 /\
   match (c' w).2, (c w).2 with
   | Ok a', Ok a => R a' a
   | Raise e', Raise e => e' = e
   | _, _ => False
   end).

(** Every subscript on [d'] gives what it gives on [d], or the [KeyError]
    of [k]. *)
Definition reads_as (k : string) (d' d : pyval) : Prop :=
  forall key, rsim k eq (getitem d' key) (getitem d key).

(** What two runs hold after [read_config]. *)
Definition read_as (k : string)
    (t' t : pyval * pyval * pyval * pyval) : Prop :=
  let '(config', corpus', feature', param') := t' in
  let '(config, corpus, feature, param) := t in
  rsim k eq (getitem config' "model_name") (getitem config "model_name") /\
  reads_as k corpus' corpus /\ reads_as k feature' feature /\
  reads_as k param' param.

(** What two runs hold after [locate]. *)
Definition csj_located_as (k : string)
    (t' t : pyval * pyval * pyval * Network) : Prop :=
  let '(corpus', feature', param', network') := t' in
  let '(corpus, feature, param, network) := t in
  reads_as k corpus' corpus /\ reads_as k feature' feature /\
  reads_as k param' param /\ network' = network.

Definition timit_located_as (k : string)
    (t' t : pyval * pyval * option Z * Network) : Prop :=
  let '(corpus', param', size', network') := t' in
  let '(corpus, param, size, network) := t in
  reads_as k corpus' corpus /\ reads_as k param' param /\
  size' = size /\ network' = network.

(** The run of [main] on the configuration without the key [k], next to the
    run on the configuration itself: it stops before training, by the
    [KeyError] of [k] unless both runs end alike in the set-up. *)
Definition stops_for_key {A} (k : string)
    (lacking : world * result unit) (w : world)
    (setup : world * result A) (main : world * result unit) : Prop :=
  is_ok lacking.2 = false /\
  updates (trace lacking.1) = updates (trace w) /\
  (lacking.2 = Raise (KeyError k) \/
   (is_ok setup.2 = false /\ lacking = main)).

(** * Reasoning about runs *)

(** [wp c Q w]: running [c] from [w] ends in a world and a result related
    by [Q]. *)
Definition wp {A} (c : M A) (Q : world -> result A -> Prop) (w : world) : Prop :=
  Q (c w).1 (c w).2.

Section Rules.
Context (E : Env).

Lemma wp_bind {A B} (c : M A) (f : A -> M B) Q w :
  wp c (fun w' r => match r with
                    | Ok a => wp (f a) Q w'
                    | Raise e => Q w' (Raise e)
                    end) w ->
  wp (c ≫= f) Q w.
Proof.
  unfold wp, mbind, M_bind. destruct (c w) as [w' [a|e]]; simpl; auto.
Qed.

Lemma wp_ret {A} (a : A) (Q : world -> result A -> Prop) w :
  Q w (Ok a) -> wp (mret a) Q w.
Proof. exact id. Qed.

Lemma wp_raise {A} e (Q : world -> result A -> Prop) w :
  Q w (Raise e) -> wp (raise e) Q w.
Proof. exact id. Qed.

Lemma wp_lift {A} (r : result A) (Q : world -> result A -> Prop) w :
  Q w r -> wp (lift r) Q w.
Proof. exact id. Qed.

Lemma wp_get_fs (Q : world -> result (gmap string node) -> Prop) w :
  Q w (Ok (fs w)) -> wp get_fs Q w.
Proof. exact id. Qed.

Lemma wp_put_fs files (Q : world -> result unit -> Prop) w :
  Q {| fs := files; stdout := stdout w; trace := trace w |} (Ok tt) ->
  wp (put_fs files) Q w.
Proof. exact id. Qed.

Lemma wp_put_stdout o (Q : world -> result unit -> Prop) w :
  Q {| fs := fs w; stdout := o; trace := trace w |} (Ok tt) ->
  wp (put_stdout o) Q w.
Proof. exact id. Qed.

Lemma wp_ext ev (Q : world -> result nat -> Prop) w :
  (faulty E (length (trace w)) = true ->
   Q w (Raise (ExternalError (length (trace w))))) ->
  (faulty E (length (trace w)) = false ->
   Q (log ev w) (Ok (length (trace w)))) ->
  wp (ext E ev) Q w.
Proof.
  unfold wp, ext. destruct (faulty E (length (trace w))); simpl; auto.
Qed.

Lemma wp_mono {A} (c : M A) (Q Q' : world -> result A -> Prop) w :
  (forall w' r, Q w' r -> Q' w' r) -> wp c Q w -> wp c Q' w.
Proof. unfold wp. auto. Qed.

(** The loop rule: [I i s w] holds before iteration [i]; an iteration that
    raises must establish [X]. *)
Lemma wp_for_range {S} (body : nat -> S -> M S)
    (I : nat -> S -> world -> Prop) (X : world -> exn -> Prop) count :
  forall start s w,
  I start s w ->
  (forall i s w, (start <= i < start + count)%nat -> I i s w ->
     wp (body i s) (fun w' r => match r with
                                | Ok s' => I (Datatypes.S i) s' w'
                                | Raise e => X w' e
                                end) w) ->
  wp (for_range body start count s)
     (fun w' r => match r with
                  | Ok s' => I (start + count)%nat s' w'
                  | Raise e => X w' e
                  end) w.
Proof.
  induction count as [|n IH]; intros start s w HI Hbody; simpl.
  - apply wp_ret. by rewrite Nat.add_0_r.
  - apply wp_bind. eapply wp_mono; [|apply (Hbody start s w); [lia|done]].
    intros w' [s'|e] H; [|done].
    replace (start + Datatypes.S n)%nat with (Datatypes.S start + n)%nat by lia.
    apply IH; [done|]. intros i s0 w0 Hi. apply Hbody. lia.
Qed.

End Rules.

(** ** Arithmetic of the loop bounds *)


Lemma pow2_nonneg e : 0 <= e -> pow2 e = 2 ^ e.
Proof. intros H. unfold pow2. by rewrite Z.max_r. Qed.

Lemma pow2_nonpos e : e <= 0 -> pow2 e = 1.
Proof. intros H. unfold pow2. by rewrite Z.max_l. Qed.

(** [pow2 e / pow2 (- e)] grows by the factor [2^k] when [e] grows by
    [k]. *)
Lemma pow2_shift e k :
  0 <= k -> pow2 (e + k) * pow2 (- e) = 2 ^ k * pow2 e * pow2 (- (e + k)).
Proof.
  intros Hk.
  destruct (Z_le_gt_dec 0 e) as [He|He].
  - rewrite (pow2_nonneg (e + k)), (pow2_nonneg e), (pow2_nonpos (- e)),
      (pow2_nonpos (- (e + k))) by lia.
    rewrite Z.pow_add_r by lia. lia.
  - destruct (Z_le_gt_dec 0 (e + k)) as [Hek|Hek].
    + rewrite (pow2_nonneg (e + k)), (pow2_nonpos e), (pow2_nonneg (- e)),
        (pow2_nonpos (- (e + k))) by lia.
      rewrite <- Z.pow_add_r by lia.
      replace (2 ^ k * 1 * 1) with (2 ^ k) by lia. f_equal. lia.
    + rewrite (pow2_nonpos (e + k)), (pow2_nonpos e), (pow2_nonneg (- e)),
        (pow2_nonneg (- (e + k))) by lia.
      replace (- e) with (k + - (e + k)) by lia.
      rewrite Z.pow_add_r by lia. lia.
Qed.








Lemma pow2_le_mono e e' : e <= e' -> pow2 e <= pow2 e'.
Proof. intros H. unfold pow2. apply Z.pow_le_mono_r; lia. Qed.






(** ** The skeleton of a run without faults *)

Section Marks.
Context (ipe fe : Z) (m : metric) (Hipe : 0 < ipe).




End Marks.





Section CsjLoop.
Context (E : Env) (Hnf : forall n, faulty E n = false).
Context (network : Network) (lr : pyval) (ipe : Z) (e : nat) (Hipe : 0 < ipe).





End CsjLoop.

Section TimitLoop.
Context (E : Env) (Hnf : forall n, faulty E n = false).
Context (network : Network) (lr lt : pyval) (ipe : Z) (e : nat) (Hipe : 0 < ipe).





End TimitLoop.

Section DoTrain.
Context (E : Env) (Hnf : forall n, faulty E n = false).
Context (network : Network) (lr bs en : pyval) (ipe : Z) (e : nat).
Context (Hipe : 0 < ipe).
Context (Hlr : is_ok (py_float E lr) = true).




End DoTrain.






(** ** Runs with faults: what every event of a run satisfies *)

Lemma extends_refl P w : extends P w w.
Proof. exists []. by rewrite app_nil_r. Qed.

Lemma extends_log P w w' ev : extends P w w' -> P ev -> extends P w (log ev w').
Proof.
  intros (evs & Htr & HP) Hev. exists (evs ++ [ev]). cbn [trace log].
  rewrite Htr, app_assoc. split; [done|]. apply Forall_app. auto.
Qed.

Lemma extends_trans P w1 w2 w3 :
  extends P w1 w2 -> extends P w2 w3 -> extends P w1 w3.
Proof.
  intros (e1 & H1 & HP1) (e2 & H2 & HP2). exists (e1 ++ e2).
  rewrite H2, H1, app_assoc. split; [done|]. apply Forall_app. auto.
Qed.

Lemma extends_same_trace P w w1 w2 :
  trace w2 = trace w1 -> extends P w w1 -> extends P w w2.
Proof. intros Htr (evs & H & HP). exists evs. by rewrite Htr. Qed.

Lemma extends_put_fs P w w' files o :
  extends P w w' ->
  extends P w {| fs := files; stdout := o; trace := trace w' |}.
Proof. by apply extends_same_trace. Qed.




Ltac wp_exec tac :=
  repeat (lazymatch goal with
          | |- wp (mbind _ _) _ _ => apply wp_bind
          | |- wp (mret _) _ _ => apply wp_ret
          | |- wp (lift _) _ _ => apply wp_lift
          | |- wp (raise _) _ _ => apply wp_raise
          | |- wp get_fs _ _ => apply wp_get_fs
          | |- wp (put_fs _) _ _ => apply wp_put_fs
          | |- wp (put_stdout _) _ _ => apply wp_put_stdout
          | |- wp (calls _ _) _ _ => cbn [calls]
          | |- wp (ext _ _) _ _ =>
              apply wp_ext; intros _; [cbv beta iota; tac|]
          end; cbv beta iota).

Section CsjFeeds.
Context (E : Env) (network : Network) (lr : pyval).







End CsjFeeds.

(** ** Outcome of [do_train] with faults *)

Lemma updates_log ev w :
  updates (trace (log ev w))
  = (updates (trace w) + if is_update ev then 1 else 0)%nat.
Proof.
  unfold updates. cbn [trace log]. rewrite List.filter_app, length_app.
  cbn. by destruct (is_update ev).
Qed.

Ltac upd :=
  repeat (progress (cbn [trace]; rewrite ?updates_log));
  cbn [is_update]; try lia.

Ltac files_tac :=
  lazymatch goal with
  | H : same_files ?w ?w1 |- same_files ?w _ =>
      destruct H as [? ?]; split; cbn [fs stdout log]; congruence
  | |- same_files ?w _ => split; reflexivity
  end.

Lemma wp_calls E names (I : world -> Prop) :
  (forall w f, I w -> I (log (ECall f) w)) ->
  forall w, I w -> wp (calls E names) (fun w' _ => I w') w.
Proof.
  intros HI. induction names as [|f names IH]; intros w Hw; cbn [calls].
  - by apply wp_ret.
  - apply wp_bind, wp_ext; intros _; [done|]. apply IH. by apply HI.
Qed.

Lemma idle_log w w' ev :
  is_update ev = false -> idle w w' -> idle w (log ev w').
Proof.
  intros Hev [[? ?] Hu]. split; [by split|]. by rewrite updates_log, Hev, Nat.add_0_r.
Qed.

Lemma idle_same_files w w' : idle w w' -> same_files w w'.
Proof. by intros [? _]. Qed.

Ltac idle_tac :=
  try apply idle_same_files;
  repeat (apply idle_log; [reflexivity|]);
  first [eassumption | by split].

Ltac idle_calls w0 :=
  eapply wp_mono;
  [|apply (wp_calls _ _ (idle w0));
    [intros; by apply idle_log|idle_tac]];
  cbv beta; intros ? [[]|?] ?; cbv beta iota; [|by idle_tac].

Section CsjOutcome.
Context (E : Env) (network : Network) (lr : pyval).

Lemma csj_train_step_outcome ipe max_steps i l w0 w :
  same_files w0 w ->
  wp (Csj.train_step E network lr ipe max_steps i l)
     (fun w' r => same_files w0 w' /\
        match r with
        | Ok _ => updates (trace w') = Datatypes.S (updates (trace w))
        | Raise _ => True
        end) w.
Proof.
  intros Hw. unfold Csj.train_step, sess_run.
  wp_exec ltac:(split; [files_tac|done]).
  eapply wp_mono with
    (Q := fun w' r => same_files w0 w' /\
            match r with
            | Ok _ => updates (trace w') = Datatypes.S (updates (trace w))
            | Raise _ => True
            end).
  2:{ destruct (_ =? 0).
      - unfold Csj.log_step, sess_run.
        wp_exec ltac:(split; [files_tac|done]). split; [files_tac|upd].
      - wp_exec idtac. split; [files_tac|upd]. }
  intros w1 [l1|?] [Hw1 Hu]; [|done].
  wp_exec idtac.
  destruct (py_mod _ _) as [r|?]; [|done]. cbv beta iota.
  destruct (_ || _); [|by wp_exec idtac].
  unfold Csj.end_of_epoch, do_eval_cer.
  wp_exec ltac:(split; [files_tac|done]).
  destruct (py_floordiv _ _) as [epoch|?]; [|done]. cbv beta iota.
  wp_exec ltac:(split; [files_tac|done]).
  destruct (5 <=? epoch); wp_exec ltac:(split; [files_tac|done]);
    (split; [files_tac|upd]).
Qed.

Lemma csj_do_train_outcome opt bs en lm ls ns nk tds w :
  wp (Csj.do_train E network opt lr bs en lm ls ns nk tds)
     (fun w' r =>
        match r with
        | Ok _ =>
            exists ipe max_steps tr l,
              Csj.steps E bs en = Ok (ipe, max_steps) /\
              trace w'
              = tr ++ [ESaveLoss (Csj.csv_steps l) (Csj.csv_loss_train l)
                         (Csj.csv_loss_dev l) (model_dir network);
                       ESaveLer (Csj.csv_steps l) (Csj.csv_ler_main_train l)
                         (Csj.csv_ler_second_dev l) (model_dir network);
                       ESaveLer (Csj.csv_steps l) (Csj.csv_ler_second_train l)
                         (Csj.csv_ler_second_dev l) (model_dir network);
                       EOpen (join (model_dir network) "complete.txt") "w"] /\
              updates tr = (updates (trace w) + Z.to_nat max_steps)%nat /\
              fs w' = <[join (model_dir network) "complete.txt" := File ""]> (fs w) /\
              stdout w' = stdout w
        | Raise _ => same_files w w'
        end) w.
Proof.
  unfold Csj.do_train, Csj.build_graph, sess_run, open_write.
  do 2 apply wp_bind. idle_calls w. apply wp_bind, wp_lift.
  destruct (py_float E lr) as [q|?]; [|by idle_tac]. cbv beta iota.
  idle_calls w. apply wp_bind. idle_calls w.
  wp_exec ltac:(by idle_tac).
  destruct (Csj.steps E bs en) as [[ipe max_steps]|?]; [|by idle_tac].
  cbv beta iota.
  match goal with
  | |- wp _ _ ?W => assert (idle w W) as HW by idle_tac
  end.
  apply wp_bind.
  eapply wp_mono;
    [|apply wp_for_range with
        (I := fun (i : nat) (_ : Csj.locals) w' =>
                same_files w w' /\
                updates (trace w') = (updates (trace w) + i)%nat)
        (X := fun w' _ => same_files w w')].
  - intros w1 [l|?] Hl; [|done]. destruct Hl as [[Hfs Hout] Hu].
    wp_exec ltac:(by split). destruct (_ !! _) as [[|?]|] eqn:Hc;
      wp_exec ltac:(by split); try by split.
    all: exists ipe, max_steps, (trace w1), l; cbn [fs stdout trace log];
      rewrite <- !app_assoc, Hfs, Hout, Hu; done.
  - destruct HW as [? ->]. split; [done|lia].
  - intros i l w1 _ [Hw1 Hu].
    eapply wp_mono; [|by apply csj_train_step_outcome].
    intros w2 [l2|?] [? Hu2]; [|done]. split; [done|]. rewrite Hu2. lia.
Qed.

End CsjOutcome.

Section TimitOutcome.
Context (E : Env) (network : Network) (lr lt : pyval).

Lemma timit_train_step_outcome ipe max_steps i l w0 w :
  same_files w0 w ->
  wp (Timit.train_step E network lr lt ipe max_steps i l)
     (fun w' r => same_files w0 w' /\
        match r with
        | Ok _ => updates (trace w') = Datatypes.S (updates (trace w))
        | Raise _ => True
        end) w.
Proof.
  intros Hw. unfold Timit.train_step, sess_run.
  wp_exec ltac:(split; [files_tac|done]).
  eapply wp_mono with
    (Q := fun w' r => same_files w0 w' /\
            match r with
            | Ok _ => updates (trace w') = Datatypes.S (updates (trace w))
            | Raise _ => True
            end).
  2:{ destruct (_ =? 0).
      - unfold Timit.log_step, sess_run.
        wp_exec ltac:(split; [files_tac|done]). split; [files_tac|upd].
      - wp_exec idtac. split; [files_tac|upd]. }
  intros w1 [l1|?] [Hw1 Hu]; [|done].
  wp_exec idtac.
  destruct (py_mod _ _) as [r|?]; [|done]. cbv beta iota.
  destruct (_ || _); [|by wp_exec idtac].
  unfold Timit.end_of_epoch.
  wp_exec ltac:(split; [files_tac|done]).
  destruct (py_floordiv _ _) as [epoch|?]; [|done]. cbv beta iota.
  wp_exec ltac:(split; [files_tac|done]).
  destruct (10 <=? epoch); [|wp_exec idtac; split; [files_tac|upd]].
  unfold Timit.evaluate, do_eval_cer, do_eval_per.
  destruct (eq_str lt "character"); wp_exec ltac:(split; [files_tac|done]);
    destruct (negb _); wp_exec ltac:(split; [files_tac|done]);
    (split; [files_tac|upd]).
Qed.

Lemma timit_do_train_outcome opt bs en eos w :
  wp (Timit.do_train E network opt lr bs en lt eos)
     (fun w' r =>
        match r with
        | Ok _ =>
            exists ipe max_steps tr l,
              Timit.steps E bs en = Ok (ipe, max_steps) /\
              trace w'
              = tr ++ [ESaveLoss (Timit.csv_steps l) (Timit.csv_loss_train l)
                         (Timit.csv_loss_dev l) (model_dir network);
                       ESaveLer (Timit.csv_steps l) (Timit.csv_ler_train l)
                         (Timit.csv_loss_dev l) (model_dir network);
                       EOpen (join (model_dir network) "complete.txt") "w"] /\
              updates tr = (updates (trace w) + Z.to_nat max_steps)%nat /\
              fs w' = <[join (model_dir network) "complete.txt" := File ""]> (fs w) /\
              stdout w' = stdout w
        | Raise _ => same_files w w'
        end) w.
Proof.
  unfold Timit.do_train, Timit.build_graph, sess_run, open_write.
  do 2 apply wp_bind. idle_calls w. apply wp_bind, wp_lift.
  destruct (py_float E lr) as [q|?]; [|by idle_tac]. cbv beta iota.
  idle_calls w. apply wp_bind. idle_calls w.
  wp_exec ltac:(by idle_tac).
  destruct (Timit.steps E bs en) as [[ipe max_steps]|?]; [|by idle_tac].
  cbv beta iota.
  match goal with
  | |- wp _ _ ?W => assert (idle w W) as HW by idle_tac
  end.
  apply wp_bind.
  eapply wp_mono;
    [|apply wp_for_range with
        (I := fun (i : nat) (_ : Timit.locals) w' =>
                same_files w w' /\
                updates (trace w') = (updates (trace w) + i)%nat)
        (X := fun w' _ => same_files w w')].
  - intros w1 [l|?] Hl; [|done]. destruct Hl as [[Hfs Hout] Hu].
    wp_exec ltac:(by split). destruct (_ !! _) as [[|?]|] eqn:Hc;
      wp_exec ltac:(by split); try by split.
    all: exists ipe, max_steps, (trace w1), l; cbn [fs stdout trace log];
      rewrite <- !app_assoc, Hfs, Hout, Hu; done.
  - destruct HW as [? ->]. split; [done|lia].
  - intros i l w1 _ [Hw1 Hu].
    eapply wp_mono; [|by apply timit_train_step_outcome].
    intros w2 [l2|?] [? Hu2]; [|done]. split; [done|]. rewrite Hu2. lia.
Qed.

End TimitOutcome.

(** ** Paths below the model directory *)

Lemma append_cons (c : ascii) (s t : string) :
  String c s +:+ t = String c (s +:+ t).
Proof. reflexivity. Qed.

Lemma append_nil_r (s : string) : s +:+ "" = s.
Proof. induction s as [|c s IH]; [done|]. by rewrite append_cons, IH. Qed.

Lemma append_assoc (a b c : string) : (a +:+ b) +:+ c = a +:+ b +:+ c.
Proof. induction a as [|x a IH]; [done|]. by rewrite !append_cons, IH. Qed.

Lemma prefix_append (a b : string) : String.prefix a (a +:+ b) = true.
Proof.
  induction a as [|x a IH]; [by destruct b|]. rewrite append_cons. cbn.
  destruct (ascii_dec x x); [done|congruence].
Qed.

Lemma length_append (a b : string) :
  String.length (a +:+ b) = (String.length a + String.length b)%nat.
Proof. induction a as [|x a IH]; [done|]. rewrite append_cons. cbn. by rewrite IH. Qed.

(** A relative file name is appended to the directory prefix. *)
Lemma join_relative (dir name : string) :
  String.prefix "/" name = false -> join dir name = join dir "" +:+ name.
Proof.
  intros H. unfold join. rewrite H. cbn [String.prefix].
  destruct (_ || _); by rewrite ?append_nil_r, ?append_assoc.
Qed.

Lemma join_below (dir name : string) :
  String.prefix "/" name = false -> below dir (join dir name) = true.
Proof.
  intros H. unfold below. rewrite (join_relative _ _ H), prefix_append.
  apply orb_true_r.
Qed.

Lemma join_inj (dir a b : string) :
  String.prefix "/" a = false -> String.prefix "/" b = false ->
  join dir a = join dir b -> a = b.
Proof.
  intros Ha Hb. rewrite (join_relative _ _ Ha), (join_relative _ _ Hb).
  apply String.app_inj.
Qed.

Lemma join_not_dir (dir name : string) :
  String.prefix "/" name = false -> name <> "" -> join dir name <> dir.
Proof.
  intros H Hne Heq. apply (f_equal String.length) in Heq.
  unfold join in Heq. rewrite H in Heq.
  destruct name as [|c name]; [done|].
  destruct (_ || _); rewrite !length_append in Heq; cbn in Heq; lia.
Qed.

(** The model directory after "Reset model directory" and "Save config
    file". *)
Lemma model_dir_files (files : gmap string node) (dir path c : string) :
  let reset := <[dir := Dir]> (filter (fun kv => below dir kv.1 = false) files) in
  let saved := <[join dir "train.log" := File ""]>
                 (<[join dir "config.yml" := File c]> reset) in
  reset !! path = Some (File c) ->
  saved !! path = Some (File c) /\
  saved !! join dir "config.yml" = Some (File c) /\
  saved !! join dir "train.log" = Some (File "") /\
  saved !! join dir "complete.txt" = None.
Proof.
  intros reset saved Hpath.
  assert (below dir path = false) as Hb.
  { subst reset. destruct (decide (path = dir)) as [->|Hne].
    - by rewrite lookup_insert_eq in Hpath.
    - rewrite lookup_insert_ne in Hpath by done.
      by apply map_lookup_filter_Some_1_2 in Hpath. }
  assert (forall name, String.prefix "/" name = false ->
                       path <> join dir name) as Hout.
  { intros name Hn ->. by rewrite join_below in Hb. }
  subst saved. repeat split.
  - rewrite !lookup_insert_ne by (apply not_eq_sym, Hout; reflexivity). done.
  - rewrite lookup_insert_ne, lookup_insert_eq; [done|].
    intros [=]%join_inj; done.
  - by rewrite lookup_insert_eq.
  - rewrite !lookup_insert_ne by (intros [=]%join_inj; done).
    subst reset. rewrite lookup_insert_ne by (apply not_eq_sym, join_not_dir; done).
    apply map_lookup_filter_None_2. right. intros x _. cbn [fst].
    by rewrite join_below.
Qed.

Ltac wp_auto tac :=
  repeat (lazymatch goal with
          | |- wp (mbind _ _) _ _ => apply wp_bind
          | |- wp (mret _) _ _ => apply wp_ret
          | |- wp (lift _) _ _ => apply wp_lift
          | |- wp (raise _) _ _ => apply wp_raise
          | |- wp get_fs _ _ => apply wp_get_fs
          | |- wp (put_fs _) _ _ => apply wp_put_fs
          | |- wp (put_stdout _) _ _ => apply wp_put_stdout
          | |- wp (calls _ _) _ _ => cbn [calls]
          | |- wp (ext _ _) _ _ =>
              apply wp_ext; intros _; [cbv beta iota; tac|]
          | |- wp (match ?x with _ => _ end) _ _ => destruct x eqn:?
          | |- match ?x with _ => _ end => destruct x eqn:?
          end; cbv beta iota).

Section Setup.
Context (E : Env).

Lemma reset_model_directory_spec dir w :
  wp (reset_model_directory E dir)
     (fun w' r =>
        updates (trace w') = updates (trace w) /\
        match r with
        | Ok _ =>
            fs w' = <[dir := Dir]>
                      (filter (fun kv => below dir kv.1 = false) (fs w))
        | Raise _ => True
        end) w.
Proof.
  unfold reset_model_directory, os_isfile, delete_recursively, make_dirs.
  wp_auto ltac:(split; [upd|done]); (split; [upd|done]).
Qed.

Lemma save_config_spec path dir w :
  wp (save_config E path dir)
     (fun w' r =>
        updates (trace w') = updates (trace w) /\
        match r with
        | Ok _ =>
            exists c,
              fs w !! path = Some (File c) /\
              fs w' = <[join dir "train.log" := File ""]>
                        (<[join dir "config.yml" := File c]> (fs w)) /\
              stdout w' = Some (join dir "train.log")
        | Raise _ => True
        end) w.
Proof.
  unfold save_config, copyfile, open_write.
  wp_auto ltac:(split; [upd|done]); (split; [upd|]); try done.
  all: eexists; split; [eassumption|]; by split.
Qed.

Lemma ready_after_reset path dir (w1 w2 w3 : world) title :
  fs w2 = <[dir := Dir]> (filter (fun kv => below dir kv.1 = false) (fs w1)) ->
  (exists c,
     fs (log (ESetProcTitle title) w2) !! path = Some (File c) /\
     fs w3 = <[join dir "train.log" := File ""]>
               (<[join dir "config.yml" := File c]>
                  (fs (log (ESetProcTitle title) w2))) /\
     stdout w3 = Some (join dir "train.log")) ->
  forall name, ready path {| model_name := name; model_dir := dir |} w3.
Proof.
  intros Hreset (c & Hpath & Hfs & Hout) name. exists c.
  cbn [fs log model_dir] in *. rewrite Hfs, Hreset. rewrite Hreset in Hpath.
  destruct (model_dir_files (fs w1) dir path c Hpath) as (? & ? & ? & ?).
  done.
Qed.

Lemma csj_locate_updates path w :
  wp (Csj.locate E path)
     (fun w' _ => updates (trace w') = updates (trace w)) w.
Proof.
  unfold Csj.locate, Csj.read_config, Csj.model_setting,
    Csj.set_save_path, open_read, util_mkdir, util_mkdir_join.
  wp_auto upd; upd.
Qed.

Lemma csj_setup_spec path w :
  wp (Csj.setup E path)
     (fun w' r =>
        updates (trace w') = updates (trace w) /\
        match r with
        | Ok (network, _) => ready path network w'
        | Raise _ => True
        end) w.
Proof.
  unfold Csj.setup. apply wp_bind.
  eapply wp_mono; [|apply csj_locate_updates].
  intros w1 [[[[corpus feature] param] [name dir]]|?] Hu1; [|done].
  cbn [model_dir]. apply wp_bind.
  eapply wp_mono; [|apply reset_model_directory_spec].
  intros w2 [[]|?] [Hu2 Hreset]; [|split; [lia|done]].
  wp_auto ltac:(split; [upd|done]); try (split; [upd|done]).
  eapply wp_mono; [|apply save_config_spec].
  intros w3 [[]|?] [Hu3 Hsaved]; [|split; [revert Hu3; upd|done]].
  wp_auto idtac; (split; [revert Hu3; upd|]); try done.
  by eapply ready_after_reset.
Qed.

Lemma timit_locate_updates path w :
  wp (Timit.locate E path)
     (fun w' _ => updates (trace w') = updates (trace w)) w.
Proof.
  unfold Timit.locate, Timit.read_config, Timit.model_setting,
    Timit.set_save_path, open_read, util_mkdir, util_mkdir_join.
  wp_auto upd; upd.
Qed.

Lemma timit_setup_spec path w :
  wp (Timit.setup E path)
     (fun w' r =>
        updates (trace w') = updates (trace w) /\
        match r with
        | Ok (network, _) => ready path network w'
        | Raise _ => True
        end) w.
Proof.
  unfold Timit.setup. apply wp_bind.
  eapply wp_mono; [|apply timit_locate_updates].
  intros w1 [[[[corpus param] size] [name dir]]|?] Hu1; [|done].
  cbn [model_dir]. apply wp_bind.
  eapply wp_mono; [|apply reset_model_directory_spec].
  intros w2 [[]|?] [Hu2 Hreset]; [|split; [lia|done]].
  wp_auto ltac:(split; [upd|done]); try (split; [upd|done]).
  eapply wp_mono; [|apply save_config_spec].
  intros w3 [[]|?] [Hu3 Hsaved]; [|split; [revert Hu3; upd|done]].
  wp_auto idtac; (split; [revert Hu3; upd|]); try done.
  by eapply ready_after_reset.
Qed.

End Setup.

(** ** Files of the model directory *)



Lemma ready_has_config_and_log path network w :
  ready path network w -> has_config_and_log network w.
Proof.
  intros (c & _ & Hc & Hl & _). unfold has_config_and_log, isfile.
  by rewrite Hc, Hl.
Qed.

Lemma has_config_and_log_complete network w files :
  has_config_and_log network w ->
  files = <[join (model_dir network) "complete.txt" := File ""]> (fs w) ->
  forall o tr, has_config_and_log network {| fs := files; stdout := o; trace := tr |}.
Proof.
  intros [Hc Hl] -> o tr. unfold has_config_and_log, isfile in *. cbn [fs].
  rewrite !lookup_insert_ne by (intros [=]%join_inj; done). done.
Qed.

Lemma reset_model_directory_run (E : Env) dir w1 :
  (forall n, faulty E n = false) ->
  reset_model_directory E dir w1 = reset_outcome E dir w1.
Proof.
  intros Hnf.
  unfold reset_outcome, reset_model_directory, os_isfile, delete_recursively,
    make_dirs, ext, get_fs, put_fs, raise, mbind, M_bind, mret, M_ret.
  rewrite Hnf. cbn [fs log]. destruct (isfile _ _); cbn [negb]; [done|].
  cbn [trace log]. rewrite Hnf. cbn [fs log].
  destruct (fs w1 !! dir) as [n|] eqn:Hdir; [|done].
  cbn [trace log]. rewrite Hnf. cbn [fs stdout trace log].
  rewrite map_lookup_filter_None_2.
  2:{ right. intros x _. cbn [fst]. unfold below. by case_bool_decide. }
  unfold emptied. cbn [log trace stdout fs]. by rewrite <- !app_assoc.
Qed.

(** ** The series handed to the csv exports *)

Lemma fetched_log tr ev fetches pos P v :
  fetched tr fetches pos P v -> fetched (tr ++ [ev]) fetches pos P v.
Proof.
  intros (call & fd & -> & Hc & HP). exists call, fd.
  split; [done|]. split; [|done]. by apply lookup_app_l_Some.
Qed.

Lemma fetched_here tr fetches fd pos (P : gmap placeholder value -> Prop) :
  P fd ->
  fetched (tr ++ [ERun fetches fd]) fetches pos P (VFetch (length tr) pos).
Proof.
  intros HP. exists (length tr), fd. split; [done|]. split; [|done].
  by rewrite lookup_app_r, Nat.sub_diag.
Qed.

Lemma Forall_fetched_log tr ev fetches pos P l :
  Forall (fetched tr fetches pos P) l ->
  Forall (fetched (tr ++ [ev]) fetches pos P) l.
Proof. intros H. eapply Forall_impl; [exact H|]. intros v. apply fetched_log. Qed.

Lemma fetched_agree tr f1 f2 p1 p2 P1 P2 v :
  fetched tr f1 p1 P1 v -> fetched tr f2 p2 P2 v ->
  f1 = f2 /\ p1 = p2 /\ exists fd, P1 fd /\ P2 fd.
Proof.
  intros (c1 & fd1 & -> & H1 & HP1) (c2 & fd2 & [= <- <-] & H2 & HP2).
  rewrite H1 in H2. injection H2 as <- <-. eauto.
Qed.

Lemma timit_series_log tr ev l :
  timit_series tr l -> timit_series (tr ++ [ev]) l.
Proof.
  unfold timit_series. intros (?&?&?&?&?&?).
  repeat (split; [by apply Forall_fetched_log|]). done.
Qed.

Lemma csj_series_log tr ev l :
  csj_series tr l -> csj_series (tr ++ [ev]) l.
Proof.
  unfold csj_series. intros (?&?&?&?&?&?&?&?).
  repeat (split; [by apply Forall_fetched_log|]). done.
Qed.

Lemma exports_log ev w :
  exports (trace (log ev w))
  = exports (trace w) ++ if is_export ev then [ev] else [].
Proof.
  unfold exports. cbn [trace log]. rewrite List.filter_app. cbn.
  by destruct (is_export ev).
Qed.

Lemma no_export_log w0 w ev :
  is_export ev = false -> no_export_since w0 w -> no_export_since w0 (log ev w).
Proof.
  unfold no_export_since. intros Hev <-. by rewrite exports_log, Hev, app_nil_r.
Qed.

Ltac quiet :=
  repeat (apply no_export_log; [reflexivity|]); first [eassumption|reflexivity].

Ltac series_mono :=
  cbn [trace log]; repeat apply csj_series_log; eassumption.

Lemma feed_dict_ler_true labels predicted_ids :
  Timit.feed_dict_ler labels predicted_ids !! LabelsStTrue
  = Some (VSparse labels).
Proof. vm_compute. reflexivity. Qed.

Ltac fed :=
  lazymatch goal with
  | |- any_fed _ => exact I
  | |- train_fed _ => unfold train_fed; vm_compute; discriminate
  | |- dev_fed _ => unfold dev_fed; vm_compute; reflexivity
  | |- true_labels_of _ _ => eexists; apply feed_dict_ler_true
  end.

Ltac fetched_tac :=
  repeat first [apply fetched_here; fed | apply fetched_log].

Ltac exports_tac Hq :=
  cbn [fst trace]; rewrite ?exports_log; cbn [is_export];
  rewrite ?app_nil_r; unfold no_export_since in Hq; rewrite ?Hq;
  rewrite <- ?app_assoc; reflexivity.

Section CsjSeries.
Context (E : Env) (network : Network) (lr : pyval).

Lemma csj_log_step_series step n m l w0 w :
  no_export_since w0 w -> csj_series (trace w) l ->
  wp (Csj.log_step E step (Csj.feed_dict_train lr n) (Csj.feed_dict_dev n m) l)
     (fun w' r => no_export_since w0 w' /\
        match r with
        | Ok l' => csj_series (trace w') l'
        | Raise _ => True
        end) w.
Proof.
  intros Hq Hs. unfold Csj.log_step, sess_run.
  wp_exec ltac:(split; [quiet|done]).
  split; [quiet|]. cbn [trace log].
  destruct Hs as (H1 & H2 & H3 & H4 & H5 & H6 & H7 & H8).
  unfold csj_series.
  cbn [Csj.csv_steps Csj.csv_loss_train Csj.csv_loss_dev
       Csj.csv_ler_main_train Csj.csv_ler_main_dev Csj.csv_ler_second_train
       Csj.csv_ler_second_dev].
  rewrite !Forall_app, !Forall_singleton.
  repeat split;
    try (repeat apply Forall_fetched_log; assumption);
    try (rewrite !length_app; cbn [length]; lia);
    fetched_tac.
Qed.

Lemma csj_train_step_series ipe max_steps i l w0 w :
  no_export_since w0 w -> csj_series (trace w) l ->
  wp (Csj.train_step E network lr ipe max_steps i l)
     (fun w' r => no_export_since w0 w' /\
        match r with
        | Ok l' => csj_series (trace w') l'
        | Raise _ => True
        end) w.
Proof.
  intros Hq Hs. unfold Csj.train_step, sess_run.
  wp_exec ltac:(split; [quiet|done]).
  eapply wp_mono with
    (Q := fun w' r => no_export_since w0 w' /\
            match r with
            | Ok l' => csj_series (trace w') l'
            | Raise _ => True
            end).
  2:{ destruct (_ =? 0).
      - apply csj_log_step_series; [quiet|series_mono].
      - wp_exec idtac. split; [quiet|series_mono]. }
  intros w1 [l1|?] [Hq1 Hs1]; [|done].
  wp_exec idtac.
  destruct (py_mod _ _) as [r|?]; [|done]. cbv beta iota.
  destruct (_ || _); [|by wp_exec idtac].
  unfold Csj.end_of_epoch, do_eval_cer.
  wp_exec ltac:(split; [quiet|done]).
  destruct (py_floordiv _ _) as [epoch|?]; [|done]. cbv beta iota.
  wp_exec ltac:(split; [quiet|done]).
  destruct (5 <=? epoch); wp_exec ltac:(split; [quiet|done]).
  - split; [quiet|]. destruct (negb _); series_mono.
  - split; [quiet|series_mono].
Qed.

Lemma csj_series_start tr : csj_series tr Csj.locals0.
Proof. unfold csj_series. cbn. repeat split; constructor. Qed.

Lemma csj_do_train_exports opt bs en lm ls ns nk tds w :
  wp (Csj.do_train E network opt lr bs en lm ls ns nk tds)
     (fun w' r =>
        exists l k,
          exported (csj_exports network l) k w (w', r) /\
          csj_series (trace w') l) w.
Proof.
  assert (forall w' e, no_export_since w w' ->
            exists l k,
              exported (csj_exports network l) k w (w', Raise e) /\
              csj_series (trace w') l) as Hfail.
  { intros w' e Hq. exists Csj.locals0, 0%nat. split; [|apply csj_series_start].
    split; [|done]. cbn. by rewrite app_nil_r. }
  unfold Csj.do_train, Csj.build_graph, sess_run, open_write.
  do 2 apply wp_bind.
  eapply wp_mono;
    [|apply (wp_calls _ _ (no_export_since w)); [intros; by apply no_export_log|quiet]].
  cbv beta. intros w1 [[]|?] Hq1; cbv beta iota; [|by apply Hfail].
  apply wp_bind, wp_lift.
  destruct (py_float E lr) as [q|?]; [|by apply Hfail]. cbv beta iota.
  eapply wp_mono;
    [|apply (wp_calls _ _ (no_export_since w)); [intros; by apply no_export_log|quiet]].
  cbv beta. intros w2 [[]|?] Hq2; cbv beta iota; [|by apply Hfail].
  clear w1 Hq1. apply wp_bind.
  eapply wp_mono;
    [|apply (wp_calls _ _ (no_export_since w)); [intros; by apply no_export_log|quiet]].
  cbv beta. intros w3 [[]|?] Hq3; cbv beta iota; [|by apply Hfail].
  clear w2 Hq2.
  wp_exec ltac:(apply Hfail; quiet).
  destruct (Csj.steps E bs en) as [[ipe max_steps]|?]; [|apply Hfail; quiet].
  cbv beta iota.
  match goal with
  | |- wp _ _ ?W => assert (no_export_since w W) as HW by quiet
  end.
  apply wp_bind.
  eapply wp_mono;
    [|apply wp_for_range with
        (I := fun (_ : nat) l w' =>
                no_export_since w w' /\ csj_series (trace w') l)
        (X := fun w' _ => no_export_since w w')].
  - intros w4 [l|?] Hl; [|by apply Hfail]. destruct Hl as [Hq4 Hs4].
    assert (forall k w' r, (is_ok r = true -> k = 3%nat) ->
              exports (trace w') = exports (trace w) ++ take k (csj_exports network l) ->
              csj_series (trace w') l ->
              exists l0 k0,
                exported (csj_exports network l0) k0 w (w', r) /\
                csj_series (trace w') l0) as Hleaf.
    { intros k w' r Hk Hex Hs. exists l, k.
      split; [split; [exact Hex|exact Hk]|exact Hs]. }
    apply wp_bind, wp_ext; intros _; cbv beta iota;
      [apply (Hleaf 0%nat); [done|exports_tac Hq4|series_mono]|].
    apply wp_bind, wp_ext; intros _; cbv beta iota;
      [apply (Hleaf 1%nat); [done|exports_tac Hq4|series_mono]|].
    apply wp_bind, wp_ext; intros _; cbv beta iota;
      [apply (Hleaf 2%nat); [done|exports_tac Hq4|series_mono]|].
    apply wp_bind, wp_ext; intros _; cbv beta iota;
      [apply (Hleaf 3%nat); [done|exports_tac Hq4|series_mono]|].
    apply wp_bind, wp_get_fs. cbv beta iota.
    destruct (_ !! _) as [[|?]|]; wp_exec idtac;
      (apply (Hleaf 3%nat); [done|exports_tac Hq4|series_mono]).
  - split; [done|apply csj_series_start].
  - intros i l w4 _ [Hq4 Hs4].
    eapply wp_mono; [|by apply csj_train_step_series].
    by intros w5 [l5|?] [? ?].
Qed.

End CsjSeries.

Ltac tseries_mono :=
  cbn [trace log]; repeat apply timit_series_log; eassumption.

Section TimitSeries.
Context (E : Env) (network : Network) (lr lt : pyval).

Lemma timit_log_step_series step n m l w0 w :
  no_export_since w0 w -> timit_series (trace w) l ->
  wp (Timit.log_step E step n m (Timit.feed_dict_train lr n)
        (Timit.feed_dict_dev m) l)
     (fun w' r => no_export_since w0 w' /\
        match r with
        | Ok l' => timit_series (trace w') l'
        | Raise _ => True
        end) w.
Proof.
  intros Hq Hs. unfold Timit.log_step, sess_run.
  wp_exec ltac:(split; [quiet|done]).
  split; [quiet|]. cbn [trace log].
  destruct Hs as (H1 & H2 & H3 & H4 & H5 & H6).
  unfold timit_series.
  cbn [Timit.csv_steps Timit.csv_loss_train Timit.csv_loss_dev
       Timit.csv_ler_train Timit.csv_ler_dev].
  rewrite !Forall_app, !Forall_singleton.
  repeat split;
    try (repeat apply Forall_fetched_log; assumption);
    try (rewrite !length_app; cbn [length]; lia);
    fetched_tac.
Qed.

Lemma timit_train_step_series ipe max_steps i l w0 w :
  no_export_since w0 w -> timit_series (trace w) l ->
  wp (Timit.train_step E network lr lt ipe max_steps i l)
     (fun w' r => no_export_since w0 w' /\
        match r with
        | Ok l' => timit_series (trace w') l'
        | Raise _ => True
        end) w.
Proof.
  intros Hq Hs. unfold Timit.train_step, sess_run.
  wp_exec ltac:(split; [quiet|done]).
  eapply wp_mono with
    (Q := fun w' r => no_export_since w0 w' /\
            match r with
            | Ok l' => timit_series (trace w') l'
            | Raise _ => True
            end).
  2:{ destruct (_ =? 0).
      - apply timit_log_step_series; [quiet|tseries_mono].
      - wp_exec idtac. split; [quiet|tseries_mono]. }
  intros w1 [l1|?] [Hq1 Hs1]; [|done].
  wp_exec idtac.
  destruct (py_mod _ _) as [r|?]; [|done]. cbv beta iota.
  destruct (_ || _); [|by wp_exec idtac].
  unfold Timit.end_of_epoch.
  wp_exec ltac:(split; [quiet|done]).
  destruct (py_floordiv _ _) as [epoch|?]; [|done]. cbv beta iota.
  wp_exec ltac:(split; [quiet|done]).
  destruct (10 <=? epoch); [|wp_exec idtac; split; [quiet|tseries_mono]].
  unfold Timit.evaluate, do_eval_cer, do_eval_per.
  destruct (eq_str lt "character"); wp_exec ltac:(split; [quiet|done]);
    destruct (negb _); wp_exec ltac:(split; [quiet|done]);
    (split; [quiet|tseries_mono]).
Qed.

Lemma timit_series_start tr : timit_series tr Timit.locals0.
Proof. unfold timit_series. cbn. repeat split; constructor. Qed.

Lemma timit_do_train_exports opt bs en eos w :
  wp (Timit.do_train E network opt lr bs en lt eos)
     (fun w' r =>
        exists l k,
          exported (timit_exports network l) k w (w', r) /\
          timit_series (trace w') l) w.
Proof.
  assert (forall w' e, no_export_since w w' ->
            exists l k,
              exported (timit_exports network l) k w (w', Raise e) /\
              timit_series (trace w') l) as Hfail.
  { intros w' e Hq. exists Timit.locals0, 0%nat.
    split; [|apply timit_series_start].
    split; [|done]. cbn. by rewrite app_nil_r. }
  unfold Timit.do_train, Timit.build_graph, sess_run, open_write.
  do 2 apply wp_bind.
  eapply wp_mono;
    [|apply (wp_calls _ _ (no_export_since w)); [intros; by apply no_export_log|quiet]].
  cbv beta. intros w1 [[]|?] Hq1; cbv beta iota; [|by apply Hfail].
  apply wp_bind, wp_lift.
  destruct (py_float E lr) as [q|?]; [|by apply Hfail]. cbv beta iota.
  eapply wp_mono;
    [|apply (wp_calls _ _ (no_export_since w)); [intros; by apply no_export_log|quiet]].
  cbv beta. intros w2 [[]|?] Hq2; cbv beta iota; [|by apply Hfail].
  clear w1 Hq1. apply wp_bind.
  eapply wp_mono;
    [|apply (wp_calls _ _ (no_export_since w)); [intros; by apply no_export_log|quiet]].
  cbv beta. intros w3 [[]|?] Hq3; cbv beta iota; [|by apply Hfail].
  clear w2 Hq2.
  wp_exec ltac:(apply Hfail; quiet).
  destruct (Timit.steps E bs en) as [[ipe max_steps]|?]; [|apply Hfail; quiet].
  cbv beta iota.
  match goal with
  | |- wp _ _ ?W => assert (no_export_since w W) as HW by quiet
  end.
  apply wp_bind.
  eapply wp_mono;
    [|apply wp_for_range with
        (I := fun (_ : nat) l w' =>
                no_export_since w w' /\ timit_series (trace w') l)
        (X := fun w' _ => no_export_since w w')].
  - intros w4 [l|?] Hl; [|by apply Hfail]. destruct Hl as [Hq4 Hs4].
    assert (forall k w' r, (is_ok r = true -> k = 2%nat) ->
              exports (trace w')
              = exports (trace w) ++ take k (timit_exports network l) ->
              timit_series (trace w') l ->
              exists l0 k0,
                exported (timit_exports network l0) k0 w (w', r) /\
                timit_series (trace w') l0) as Hleaf.
    { intros k w' r Hk Hex Hs. exists l, k.
      split; [split; [exact Hex|exact Hk]|exact Hs]. }
    apply wp_bind, wp_ext; intros _; cbv beta iota;
      [apply (Hleaf 0%nat); [done|exports_tac Hq4|tseries_mono]|].
    apply wp_bind, wp_ext; intros _; cbv beta iota;
      [apply (Hleaf 1%nat); [done|exports_tac Hq4|tseries_mono]|].
    apply wp_bind, wp_ext; intros _; cbv beta iota;
      [apply (Hleaf 2%nat); [done|exports_tac Hq4|tseries_mono]|].
    apply wp_bind, wp_get_fs. cbv beta iota.
    destruct (_ !! _) as [[|?]|]; wp_exec idtac;
      (apply (Hleaf 2%nat); [done|exports_tac Hq4|tseries_mono]).
  - split; [done|apply timit_series_start].
  - intros i l w4 _ [Hq4 Hs4].
    eapply wp_mono; [|by apply timit_train_step_series].
    by intros w5 [l5|?] [? ?].
Qed.

End TimitSeries.

Lemma Forall_In {A} (P : A -> Prop) (l : list A) (x : A) :
  Forall P l -> In x l -> P x.
Proof. intros H Hx. eapply Forall_forall in H; [done|]. by apply list_elem_of_In. Qed.

Lemma csj_main_dev_never_exported tr l network :
  csj_series tr l ->
  never_exported (Csj.csv_ler_main_dev l) (csj_exports network l).
Proof.
  intros (H1 & H2 & H3 & H4 & H5 & H6 & _). unfold never_exported.
  apply Forall_forall. intros v Hv%list_elem_of_In Hin.
  pose proof (Forall_In _ _ _ H4 Hv) as Hf.
  cbn [csj_exports flat_map exported_values] in Hin.
  rewrite app_nil_r, !in_app_iff in Hin.
  destruct Hin as [[Hin|Hin]|[[Hin|Hin]|[Hin|Hin]]];
    [ pose proof (Forall_In _ _ _ H1 Hin) as Hg
    | pose proof (Forall_In _ _ _ H2 Hin) as Hg
    | pose proof (Forall_In _ _ _ H3 Hin) as Hg
    | pose proof (Forall_In _ _ _ H6 Hin) as Hg
    | pose proof (Forall_In _ _ _ H5 Hin) as Hg
    | pose proof (Forall_In _ _ _ H6 Hin) as Hg ];
    destruct (fetched_agree _ _ _ _ _ _ _ _ Hf Hg) as (? & ? & _); discriminate.
Qed.

Lemma timit_dev_ler_never_exported tr l network :
  timit_series tr l ->
  never_exported (Timit.csv_ler_dev l) (timit_exports network l).
Proof.
  intros (H1 & H2 & H3 & H4 & _). unfold never_exported.
  apply Forall_forall. intros v Hv%list_elem_of_In Hin.
  pose proof (Forall_In _ _ _ H4 Hv) as Hf.
  cbn [timit_exports flat_map exported_values] in Hin.
  rewrite app_nil_r, !in_app_iff in Hin.
  destruct Hin as [[Hin|Hin]|[Hin|Hin]];
    [ pose proof (Forall_In _ _ _ H1 Hin) as Hg
    | pose proof (Forall_In _ _ _ H2 Hin) as Hg
    | pose proof (Forall_In _ _ _ H3 Hin) as Hg
    | pose proof (Forall_In _ _ _ H2 Hin) as Hg ];
    destruct (fetched_agree _ _ _ _ _ _ _ _ Hf Hg) as (? & ? & fd & Ha & Hb);
    try discriminate.
  destruct Ha as [n Ha], Hb as [m Hb]. rewrite Ha in Hb. discriminate.
Qed.

(** ** Reading the configuration *)

Lemma wp_skip {A} (c : M A) (Q : world -> result A -> Prop) w :
  (forall w' r, Q w' r) -> wp c Q w.
Proof. unfold wp. auto. Qed.

(** Run the pure reads, step over everything else. *)
Ltac skim :=
  repeat (lazymatch goal with
          | |- wp (mbind _ _) _ _ => apply wp_bind
          | |- wp (mret _) _ _ => apply wp_ret
          | |- wp (lift ?r) _ _ =>
              apply wp_lift; destruct r eqn:?; [|done]
          | |- wp (match ?x with _ => _ end) _ _ => destruct x
          | |- wp _ _ _ =>
              apply wp_skip; intros ? [?|?]; [|done]
          end; cbv beta iota).

(** Split a successful chain of reads into its reads. *)
Ltac reads H :=
  repeat (cbv zeta in H;
          lazymatch type of H with
          | mbind _ ?r = Ok _ =>
              destruct r eqn:?; cbn [mbind result_bind] in H;
              [|discriminate H]
          | match ?r with Ok _ => _ | Raise _ => _ end = Ok _ =>
              destruct r eqn:?; cbn [mbind result_bind] in H;
              [|discriminate H]
          end).

Ltac all_reads :=
  repeat match goal with
         | H : ?f = Ok _ |- _ =>
             lazymatch f with
             | getitem _ _ => fail
             | _ => progress (unfold Csj.output_size_main,
                      Csj.output_size_second, Csj.model_args,
                      Csj.make_model_name, Csj.label_types, Csj.proc_title,
                      Csj.train_args, Timit.output_size, Timit.model_args,
                      Timit.make_model_name, Timit.proc_title,
                      Timit.train_args in H; reads H); clear H
             end
         end.

Ltac complete :=
  unfold csj_complete, timit_complete, has_keys, has_key;
  repeat match goal with
         | H : getitem ?d ?k = Ok _ |- context [getitem ?d ?k] => rewrite H
         end;
  cbn [forallb];
  repeat match goal with
         | H : getitem ?d ?k = Ok _ |- context [getitem ?d ?k] => rewrite H
         end;
  reflexivity.

Section Keys.
Context (E : Env).

Lemma csj_setup_needs_keys path w content config :
  fs w !! path = Some (File content) ->
  yaml_load E content = Ok config ->
  wp (Csj.setup E path)
     (fun _ r => is_ok r = true -> csj_complete config = true) w.
Proof.
  intros Hf Hy.
  unfold Csj.setup, Csj.locate, Csj.read_config, open_read.
  do 4 apply wp_bind. apply wp_ext; intros _; [done|]. cbv beta iota.
  apply wp_bind, wp_get_fs. cbv beta iota. cbn [fs log]. rewrite Hf.
  apply wp_ret. cbv beta iota. apply wp_bind, wp_lift. rewrite Hy.
  cbv beta iota. unfold Csj.model_setting, Csj.set_save_path.
  skim. intros _. all_reads. complete.
Qed.

Lemma timit_setup_needs_keys path w content config :
  fs w !! path = Some (File content) ->
  yaml_load E content = Ok config ->
  wp (Timit.setup E path)
     (fun _ r => is_ok r = true -> timit_complete config = true) w.
Proof.
  intros Hf Hy.
  unfold Timit.setup, Timit.locate, Timit.read_config, open_read.
  do 4 apply wp_bind. apply wp_ext; intros _; [done|]. cbv beta iota.
  apply wp_bind, wp_get_fs. cbv beta iota. cbn [fs log]. rewrite Hf.
  apply wp_ret. cbv beta iota. apply wp_bind, wp_lift. rewrite Hy.
  cbv beta iota. unfold Timit.model_setting, Timit.set_save_path.
  skim. intros _. all_reads. complete.
Qed.

(** A run whose set-up fails is over before [do_train] is entered. *)
Lemma csj_main_stops path w :
  is_ok (Csj.setup E path w).2 = false ->
  is_ok (Csj.main E path w).2 = false /\
  updates (trace (Csj.main E path w).1) = updates (trace w).
Proof.
  intros Hs. pose proof (csj_setup_spec E path w) as [Hu _].
  unfold Csj.main, mbind, M_bind.
  by destruct (Csj.setup E path w) as [w1 [[network a]|e]].
Qed.

Lemma timit_main_stops path w :
  is_ok (Timit.setup E path w).2 = false ->
  is_ok (Timit.main E path w).2 = false /\
  updates (trace (Timit.main E path w).1) = updates (trace w).
Proof.
  intros Hs. pose proof (timit_setup_spec E path w) as [Hu _].
  unfold Timit.main, mbind, M_bind.
  by destruct (Timit.setup E path w) as [w1 [[network a]|e]].
Qed.

(** Without the section [corpus] the first subscript of [main] fails. *)
Lemma csj_main_no_corpus path w content config e :
  faulty E (length (trace w)) = false ->
  fs w !! path = Some (File content) ->
  yaml_load E content = Ok config ->
  getitem config "corpus" = Raise e ->
  (Csj.main E path w).2 = Raise e.
Proof.
  intros Hn Hf Hy He.
  change (wp (Csj.main E path) (fun _ r => r = Raise e) w).
  unfold Csj.main, Csj.setup, Csj.locate, Csj.read_config, open_read.
  do 5 apply wp_bind. apply wp_ext; intros Hn'; [congruence|].
  cbv beta iota. apply wp_bind, wp_get_fs. cbv beta iota. cbn [fs log].
  rewrite Hf. apply wp_ret. cbv beta iota. apply wp_bind, wp_lift.
  rewrite Hy. cbv beta iota. apply wp_bind, wp_lift. by rewrite He.
Qed.

Lemma timit_main_no_corpus path w content config e :
  faulty E (length (trace w)) = false ->
  fs w !! path = Some (File content) ->
  yaml_load E content = Ok config ->
  getitem config "corpus" = Raise e ->
  (Timit.main E path w).2 = Raise e.
Proof.
  intros Hn Hf Hy He.
  change (wp (Timit.main E path) (fun _ r => r = Raise e) w).
  unfold Timit.main, Timit.setup, Timit.locate, Timit.read_config, open_read.
  do 5 apply wp_bind. apply wp_ext; intros Hn'; [congruence|].
  cbv beta iota. apply wp_bind, wp_get_fs. cbv beta iota. cbn [fs log].
  rewrite Hf. apply wp_ret. cbv beta iota. apply wp_bind, wp_lift.
  rewrite Hy. cbv beta iota. apply wp_bind, wp_lift. by rewrite He.
Qed.

End Keys.

Lemma getitem_missing l k :
  assoc k l = None -> getitem (PDict l) k = Raise (KeyError k).
Proof. intros H. unfold getitem. by rewrite H. Qed.

(** ** A rule for [do_train] *)

Section DoTrainRule.
Context (E : Env) (network : Network).

Lemma wp_calls_prelude names (J : world -> Prop) (Q : world -> result unit -> Prop) :
  (forall w ev, J w -> prelude_event ev -> J (log ev w)) ->
  (forall w, J w -> faulty E (length (trace w)) = true ->
             Q w (Raise (ExternalError (length (trace w))))) ->
  forall w, J w ->
  (forall w', J w' -> Q w' (Ok tt)) ->
  wp (calls E names) Q w.
Proof.
  intros HJ HX. induction names as [|f names IH]; intros w Hw HQ; cbn [calls].
  - apply wp_ret. by apply HQ.
  - apply wp_bind, wp_ext; intros Hf; cbv beta iota; [by apply HX|].
    apply IH; [|done]. apply HJ; [done|]. left. by exists f.
Qed.

(** A rule for [do_train]: [J] holds up to the loop, [I] is the invariant
    of the loop, [Q] is established by every way out. *)
Lemma csj_do_train_rule (Q : world -> result unit -> Prop) (J : world -> Prop)
    (I : Z -> Z -> nat -> Csj.locals -> world -> Prop)
    opt lr bs en lm ls ns nk tds w :
  J w ->
  (forall w' ev, J w' -> prelude_event ev -> J (log ev w')) ->
  (forall w', J w' -> faulty E (length (trace w')) = true ->
              Q w' (Raise (ExternalError (length (trace w'))))) ->
  (forall w' e, J w' -> py_float E lr = Raise e -> Q w' (Raise e)) ->
  (forall w' e, J w' -> is_ok (py_float E lr) = true ->
                Csj.steps E bs en = Raise e -> Q w' (Raise e)) ->
  (forall ipe ms w', J w' -> is_ok (py_float E lr) = true ->
     Csj.steps E bs en = Ok (ipe, ms) -> I ipe ms 0%nat Csj.locals0 w') ->
  (forall ipe ms i l w', Csj.steps E bs en = Ok (ipe, ms) ->
     (i < Z.to_nat ms)%nat -> I ipe ms i l w' ->
     wp (Csj.train_step E network lr ipe ms i l)
        (fun w'' r => match r with
                      | Ok l' => I ipe ms (S i) l' w''
                      | Raise e => Q w'' (Raise e)
                      end) w') ->
  (forall ipe ms l w', Csj.steps E bs en = Ok (ipe, ms) ->
     I ipe ms (Z.to_nat ms) l w' -> wp (csj_finish E network l) Q w') ->
  wp (Csj.do_train E network opt lr bs en lm ls ns nk tds) Q w.
Proof.
  intros Hw HJ HX Hlr Hst H0 Hstep Hfin.
  unfold Csj.do_train, Csj.build_graph, sess_run.
  do 2 apply wp_bind.
  eapply (wp_calls_prelude _ J); [done| |done|].
  { intros w' HJ' Hf. by apply HX. }
  intros w1 Hw1. cbv beta iota. apply wp_bind, wp_lift.
  destruct (py_float E lr) as [q|e] eqn:Hq; [|by eapply Hlr].
  cbv beta iota.
  eapply (wp_calls_prelude _ J); [done| |done|].
  { intros w' HJ' Hf. by apply HX. }
  intros w2 Hw2. cbv beta iota. apply wp_bind.
  eapply (wp_calls_prelude _ J); [done| |done|].
  { intros w' HJ' Hf. by apply HX. }
  intros w3 Hw3. cbv beta iota.
  apply wp_bind, wp_ext; intros Hf; cbv beta iota; [by apply HX|].
  assert (J (log (ERun [InitOp] ∅) w3)) as Hw4 by (apply HJ; [done|by right]).
  apply wp_bind.
  eapply (wp_calls_prelude _ J); [done| |done|].
  { intros w' HJ' Hf'. by apply HX. }
  intros w5 Hw5. cbv beta iota. apply wp_bind, wp_lift.
  destruct (Csj.steps E bs en) as [[ipe ms]|e] eqn:Hs; [|by eapply Hst].
  cbv beta iota. apply wp_bind.
  eapply wp_mono;
    [|apply wp_for_range with
        (I := fun i l w' => I ipe ms i l w')
        (X := fun w' e => Q w' (Raise e))].
  - intros w6 [l|e] Hl; [|done]. by apply (Hfin ipe ms).
  - by apply H0.
  - intros i l w6 Hi HI. apply Hstep; [done|lia|done].
Qed.

Lemma timit_do_train_rule (Q : world -> result unit -> Prop) (J : world -> Prop)
    (I : Z -> Z -> nat -> Timit.locals -> world -> Prop)
    opt lr bs en lt eos w :
  J w ->
  (forall w' ev, J w' -> prelude_event ev -> J (log ev w')) ->
  (forall w', J w' -> faulty E (length (trace w')) = true ->
              Q w' (Raise (ExternalError (length (trace w'))))) ->
  (forall w' e, J w' -> py_float E lr = Raise e -> Q w' (Raise e)) ->
  (forall w' e, J w' -> is_ok (py_float E lr) = true ->
                Timit.steps E bs en = Raise e -> Q w' (Raise e)) ->
  (forall ipe ms w', J w' -> is_ok (py_float E lr) = true ->
     Timit.steps E bs en = Ok (ipe, ms) -> I ipe ms 0%nat Timit.locals0 w') ->
  (forall ipe ms i l w', Timit.steps E bs en = Ok (ipe, ms) ->
     (i < Z.to_nat ms)%nat -> I ipe ms i l w' ->
     wp (Timit.train_step E network lr lt ipe ms i l)
        (fun w'' r => match r with
                      | Ok l' => I ipe ms (S i) l' w''
                      | Raise e => Q w'' (Raise e)
                      end) w') ->
  (forall ipe ms l w', Timit.steps E bs en = Ok (ipe, ms) ->
     I ipe ms (Z.to_nat ms) l w' -> wp (timit_finish E network l) Q w') ->
  wp (Timit.do_train E network opt lr bs en lt eos) Q w.
Proof.
  intros Hw HJ HX Hlr Hst H0 Hstep Hfin.
  unfold Timit.do_train, Timit.build_graph, sess_run.
  do 2 apply wp_bind.
  eapply (wp_calls_prelude _ J); [done| |done|].
  { intros w' HJ' Hf. by apply HX. }
  intros w1 Hw1. cbv beta iota. apply wp_bind, wp_lift.
  destruct (py_float E lr) as [q|e] eqn:Hq; [|by eapply Hlr].
  cbv beta iota.
  eapply (wp_calls_prelude _ J); [done| |done|].
  { intros w' HJ' Hf. by apply HX. }
  intros w2 Hw2. cbv beta iota. apply wp_bind.
  eapply (wp_calls_prelude _ J); [done| |done|].
  { intros w' HJ' Hf. by apply HX. }
  intros w3 Hw3. cbv beta iota.
  apply wp_bind, wp_ext; intros Hf; cbv beta iota; [by apply HX|].
  assert (J (log (ERun [InitOp] ∅) w3)) as Hw4 by (apply HJ; [done|by right]).
  apply wp_bind, wp_lift.
  destruct (Timit.steps E bs en) as [[ipe ms]|e] eqn:Hs; [|by eapply Hst].
  cbv beta iota. apply wp_bind.
  eapply wp_mono;
    [|apply wp_for_range with
        (I := fun i l w' => I ipe ms i l w')
        (X := fun w' e => Q w' (Raise e))].
  - intros w6 [l|e] Hl; [|done]. by apply (Hfin ipe ms).
  - by apply H0.
  - intros i l w6 Hi HI. apply Hstep; [done|lia|done].
Qed.

End DoTrainRule.

(** ** Runs of [do_train] that never enter the loop *)




Lemma updates_skeleton tr :
  updates tr = length (List.filter is_trained (skeleton tr)).
Proof.
  unfold updates, skeleton. induction tr as [|ev tr IH]; [done|].
  cbn [List.filter omap]. destruct ev as [| |fetches fd| | | | | | | | | | | | | |];
    cbn; try apply IH.
  - destruct fetches as [|[] [|? ?]]; cbn; by rewrite ?IH.
  - destruct d; cbn; by rewrite ?IH.
  - destruct d; cbn; by rewrite ?IH.
Qed.

Lemma untouched_idle w w' : untouched w w' -> idle w w'.
Proof. intros (? & Hs & _). split; [done|]. by rewrite !updates_skeleton, Hs. Qed.

Section BeforeLoop.
Context (E : Env) (network : Network).







End BeforeLoop.

(** ** The feed dictionaries of the parameter updates *)

Lemma update_feeds_log ev w :
  update_feeds (trace (log ev w))
  = update_feeds (trace w)
    ++ match update_feed ev with Some fd => [fd] | None => [] end.
Proof.
  unfold update_feeds. cbn [trace log]. rewrite omap_app. cbn.
  by destruct (update_feed ev).
Qed.

Ltac uf :=
  repeat (progress (cbn [trace]; rewrite ?update_feeds_log));
  cbn [update_feed]; rewrite ?app_nil_r.

Lemma update_feeds_next {A} (feed : nat -> A) (B fds : list A) i :
  fds = B ++ map feed (seq 0 i) ->
  fds ++ [feed i] = B ++ map feed (seq 0 (S i)).
Proof. intros ->. by rewrite seq_S, map_app, app_assoc. Qed.

Section UpdateFeeds.
Context (E : Env) (network : Network) (lr : pyval).

Ltac fail_uf H :=
  first [ eexists; uf; exact H
        | eexists; uf; apply update_feeds_next; exact H ].

Lemma csj_log_step_updates step fd1 fd2 l w :
  wp (Csj.log_step E step fd1 fd2 l)
     (fun w' r =>
        update_feeds (trace w') = update_feeds (trace w) /\
        match r with
        | Ok l' => Csj.mini_batch_train l' = Csj.mini_batch_train l
        | Raise _ => True
        end) w.
Proof.
  unfold Csj.log_step, sess_run. wp_exec ltac:(split; [by uf|done]).
  split; [by uf|done].
Qed.

Lemma csj_train_step_updates ipe ms i l B w :
  Csj.mini_batch_train l = i ->
  update_feeds (trace w) = B ++ map (Csj.feed_dict_train lr) (seq 0 i) ->
  wp (Csj.train_step E network lr ipe ms i l)
     (fun w' r =>
        match r with
        | Ok l' =>
            Csj.mini_batch_train l' = S i /\
            update_feeds (trace w')
            = B ++ map (Csj.feed_dict_train lr) (seq 0 (S i))
        | Raise _ =>
            exists k, update_feeds (trace w')
                      = B ++ map (Csj.feed_dict_train lr) (seq 0 k)
        end) w.
Proof.
  intros Hmb H. unfold Csj.train_step, sess_run. rewrite Hmb.
  wp_exec ltac:(fail_uf H).
  match goal with
  | |- wp _ _ ?W =>
      assert (update_feeds (trace W)
              = B ++ map (Csj.feed_dict_train lr) (seq 0 (S i))) as H1
        by (uf; by apply update_feeds_next)
  end.
  eapply wp_mono with
    (Q := fun w' r =>
            match r with
            | Ok l' =>
                Csj.mini_batch_train l' = S i /\
                update_feeds (trace w')
                = B ++ map (Csj.feed_dict_train lr) (seq 0 (S i))
            | Raise _ =>
                exists k, update_feeds (trace w')
                          = B ++ map (Csj.feed_dict_train lr) (seq 0 k)
            end).
  2:{ destruct (_ =? 0).
      - eapply wp_mono; [|apply csj_log_step_updates].
        intros w' [l'|?] [Hu Hl]; rewrite Hu, H1; [|by eexists].
        split; [|done]. rewrite Hl. cbn. by rewrite Hmb.
      - wp_exec idtac. split; [cbn; by rewrite Hmb|exact H1]. }
  clear H1. intros w1 [l1|?] H1; [|done]. destruct H1 as [Hmb1 H1].
  wp_exec idtac.
  destruct (py_mod _ _) as [r|?]; [|by eexists]. cbv beta iota.
  destruct (_ || _); [|by wp_exec idtac].
  unfold Csj.end_of_epoch, do_eval_cer.
  wp_exec ltac:(fail_uf H1).
  destruct (py_floordiv _ _) as [epoch|?]; [|by eexists]. cbv beta iota.
  wp_exec ltac:(fail_uf H1).
  destruct (5 <=? epoch); wp_exec ltac:(fail_uf H1).
  - split; [by destruct (negb _)|]. uf. exact H1.
  - split; [done|]. uf. exact H1.
Qed.

Lemma timit_log_step_updates step n m fd1 fd2 l w :
  wp (Timit.log_step E step n m fd1 fd2 l)
     (fun w' r =>
        update_feeds (trace w') = update_feeds (trace w) /\
        match r with
        | Ok l' => Timit.mini_batch_train l' = Timit.mini_batch_train l
        | Raise _ => True
        end) w.
Proof.
  unfold Timit.log_step, sess_run. wp_exec ltac:(split; [by uf|done]).
  split; [by uf|done].
Qed.

Lemma timit_train_step_updates lt ipe ms i l B w :
  Timit.mini_batch_train l = i ->
  update_feeds (trace w) = B ++ map (Timit.feed_dict_train lr) (seq 0 i) ->
  wp (Timit.train_step E network lr lt ipe ms i l)
     (fun w' r =>
        match r with
        | Ok l' =>
            Timit.mini_batch_train l' = S i /\
            update_feeds (trace w')
            = B ++ map (Timit.feed_dict_train lr) (seq 0 (S i))
        | Raise _ =>
            exists k, update_feeds (trace w')
                      = B ++ map (Timit.feed_dict_train lr) (seq 0 k)
        end) w.
Proof.
  intros Hmb H. unfold Timit.train_step, sess_run. rewrite Hmb.
  wp_exec ltac:(fail_uf H).
  match goal with
  | |- wp _ _ ?W =>
      assert (update_feeds (trace W)
              = B ++ map (Timit.feed_dict_train lr) (seq 0 (S i))) as H1
        by (uf; by apply update_feeds_next)
  end.
  eapply wp_mono with
    (Q := fun w' r =>
            match r with
            | Ok l' =>
                Timit.mini_batch_train l' = S i /\
                update_feeds (trace w')
                = B ++ map (Timit.feed_dict_train lr) (seq 0 (S i))
            | Raise _ =>
                exists k, update_feeds (trace w')
                          = B ++ map (Timit.feed_dict_train lr) (seq 0 k)
            end).
  2:{ destruct (_ =? 0).
      - eapply wp_mono; [|apply timit_log_step_updates].
        intros w' [l'|?] [Hu Hl]; rewrite Hu, H1; [|by eexists].
        split; [|done]. rewrite Hl. cbn. by rewrite Hmb.
      - wp_exec idtac. split; [cbn; by rewrite Hmb|exact H1]. }
  clear H1. intros w1 [l1|?] H1; [|done]. destruct H1 as [Hmb1 H1].
  wp_exec idtac.
  destruct (py_mod _ _) as [r|?]; [|by eexists]. cbv beta iota.
  destruct (_ || _); [|by wp_exec idtac].
  unfold Timit.end_of_epoch.
  wp_exec ltac:(fail_uf H1).
  destruct (py_floordiv _ _) as [epoch|?]; [|by eexists]. cbv beta iota.
  wp_exec ltac:(fail_uf H1).
  destruct (10 <=? epoch); [|wp_exec idtac; split; [done|uf; exact H1]].
  unfold Timit.evaluate, do_eval_cer, do_eval_per.
  destruct (eq_str lt "character"); wp_exec ltac:(fail_uf H1);
    destruct (negb _); wp_exec ltac:(fail_uf H1);
    (split; [done|uf; exact H1]).
Qed.

Ltac finish_uf HI :=
  destruct HI as [_ HI]; eexists; cbn [fst snd]; split;
  [uf; exact HI|first [done | intros _; eauto]].

Lemma csj_do_train_updates opt bs en lm ls ns nk tds w :
  wp (Csj.do_train E network opt lr bs en lm ls ns nk tds)
     (fun w' r =>
        updates_in_order (Csj.feed_dict_train lr) (Csj.steps E bs en) w (w', r))
     w.
Proof.
  assert (forall w' e, update_feeds (trace w') = update_feeds (trace w) ->
            updates_in_order (Csj.feed_dict_train lr) (Csj.steps E bs en) w
              (w', Raise e)) as Hfail.
  { intros w' e H. exists 0%nat. cbn. by rewrite app_nil_r. }
  apply csj_do_train_rule with
    (J := fun w' => update_feeds (trace w') = update_feeds (trace w))
    (I := fun _ _ i l w' =>
            Csj.mini_batch_train l = i /\
            update_feeds (trace w')
            = update_feeds (trace w) ++ map (Csj.feed_dict_train lr) (seq 0 i)).
  - done.
  - intros w' ev H [[f ->]| ->]; by uf.
  - intros. by apply Hfail.
  - intros. by apply Hfail.
  - intros. by apply Hfail.
  - intros ipe ms w' H _ _. split; [done|]. cbn. by rewrite app_nil_r.
  - intros ipe ms i l w' Hs Hi [Hmb HI].
    eapply wp_mono; [|by apply csj_train_step_updates].
    intros w2 [l2|?] H2; [done|]. destruct H2 as [k H2]. exists k. by split.
  - intros ipe ms l w' Hs HI. unfold csj_finish, open_write.
    wp_exec ltac:(finish_uf HI).
    destruct (_ !! _) as [[|?]|]; wp_exec idtac; finish_uf HI.
Qed.

Lemma timit_do_train_updates opt bs en lt eos w :
  wp (Timit.do_train E network opt lr bs en lt eos)
     (fun w' r =>
        updates_in_order (Timit.feed_dict_train lr) (Timit.steps E bs en) w
          (w', r)) w.
Proof.
  assert (forall w' e, update_feeds (trace w') = update_feeds (trace w) ->
            updates_in_order (Timit.feed_dict_train lr) (Timit.steps E bs en) w
              (w', Raise e)) as Hfail.
  { intros w' e H. exists 0%nat. cbn. by rewrite app_nil_r. }
  apply timit_do_train_rule with
    (J := fun w' => update_feeds (trace w') = update_feeds (trace w))
    (I := fun _ _ i l w' =>
            Timit.mini_batch_train l = i /\
            update_feeds (trace w')
            = update_feeds (trace w)
              ++ map (Timit.feed_dict_train lr) (seq 0 i)).
  - done.
  - intros w' ev H [[f ->]| ->]; by uf.
  - intros. by apply Hfail.
  - intros. by apply Hfail.
  - intros. by apply Hfail.
  - intros ipe ms w' H _ _. split; [done|]. cbn. by rewrite app_nil_r.
  - intros ipe ms i l w' Hs Hi [Hmb HI].
    eapply wp_mono; [|by apply timit_train_step_updates].
    intros w2 [l2|?] H2; [done|]. destruct H2 as [k H2]. exists k. by split.
  - intros ipe ms l w' Hs HI. unfold timit_finish, open_write.
    wp_exec ltac:(finish_uf HI).
    destruct (_ !! _) as [[|?]|]; wp_exec idtac; finish_uf HI.
Qed.

End UpdateFeeds.

(** ** The rows of the csv exports *)

Lemma logged_S every n :
  logged every (S n)
  = logged every n
    ++ if (Z.of_nat n + 1) mod every =? 0 then [Z.of_nat n] else [].
Proof. unfold logged. rewrite seq_S, flat_map_app. cbn. by rewrite app_nil_r. Qed.

Lemma logged_In every n i :
  (i < n)%nat -> (Z.of_nat i + 1) mod every = 0 -> In (Z.of_nat i) (logged every n).
Proof.
  intros Hi Hm. unfold logged. apply in_flat_map. exists i. split.
  - apply in_seq. lia.
  - rewrite Hm. cbn. by left.
Qed.

Lemma logged_closed every n :
  0 < every -> logged every n = logged_steps every (Z.of_nat n).
Proof.
  intros He. unfold logged_steps. induction n as [|n IH].
  - by rewrite Z.div_0_l by lia.
  - rewrite logged_S, IH.
    pose proof (Z.div_mod (Z.of_nat n) every ltac:(lia)) as Hdm.
    pose proof (Z.mod_pos_bound (Z.of_nat n) every He) as Hmb.
    assert (0 <= Z.of_nat n / every) as Hq by (apply Z.div_pos; lia).
    destruct (Z.eqb_spec ((Z.of_nat n + 1) mod every) 0) as [Hm|Hm].
    + assert (Z.of_nat n mod every = every - 1) as Hr.
      { destruct (Z.eq_dec (Z.of_nat n mod every + 1) every) as [|Hne]; [lia|].
        exfalso.
        pose proof (Z.mod_unique (Z.of_nat n + 1) every (Z.of_nat n / every)
                      (Z.of_nat n mod every + 1)). lia. }
      assert (Z.of_nat (S n) / every = Z.of_nat n / every + 1) as ->.
      { symmetry. apply Z.div_unique with (r := 0); lia. }
      rewrite Z2Nat.inj_add, Nat.add_comm by lia. cbn [Z.to_nat Pos.to_nat Pos.iter_op Nat.add].
      rewrite seq_S, map_app. cbn [map Nat.add]. do 2 f_equal. lia.
    + assert (Z.of_nat (S n) / every = Z.of_nat n / every) as ->.
      { symmetry. apply Z.div_unique with (r := Z.of_nat n mod every + 1); [|lia].
        assert (Z.of_nat n mod every + 1 <> every); [|lia].
        intros Heq. apply Hm.
        replace (Z.of_nat n + 1) with (0 + (Z.of_nat n / every + 1) * every) by lia.
        rewrite Z.mod_add by lia. apply Z.mod_0_l. lia. }
      by rewrite app_nil_r.
Qed.

Lemma extends_impl (P Q : event -> Prop) w w' :
  (forall ev, P ev -> Q ev) -> extends P w w' -> extends Q w w'.
Proof.
  intros HPQ (evs & Htr & HP). exists evs. split; [done|].
  eapply Forall_impl; [exact HP|]. exact HPQ.
Qed.

Ltac rows :=
  try apply extends_put_fs;
  repeat (apply extends_log; [|first [exact I | assumption | idtac]]);
  first [apply extends_refl | eassumption | idtac].

Section Rows.
Context (E : Env) (network : Network) (lr : pyval).

Lemma csj_log_step_rows steps step fd1 fd2 l w0 w :
  In step steps -> csj_aligned l -> extends (logs_rows steps) w0 w ->
  wp (Csj.log_step E step fd1 fd2 l)
     (fun w' r => extends (logs_rows steps) w0 w' /\
        match r with
        | Ok l' => Csj.csv_steps l' = Csj.csv_steps l ++ [step] /\ csj_aligned l'
        | Raise _ => True
        end) w.
Proof.
  intros Hin (H1 & H2 & H3 & H4 & H5) Hw.
  assert (logs_rows steps (EAddSummary (VFetch 0 0) (step + 1))) as Hs.
  { cbn. by rewrite Z.add_simpl_r. }
  unfold Csj.log_step, sess_run.
  wp_exec ltac:(split; [rows; exact Hs|done]).
  split; [rows; exact Hs|]. split; [done|].
  unfold csj_aligned. cbn. rewrite !length_app. cbn. lia.
Qed.

Lemma csj_train_step_rows n ipe ms i l w0 w :
  (i < n)%nat ->
  Csj.csv_steps l = logged 200 i -> csj_aligned l ->
  extends (logs_rows (logged 200 n)) w0 w ->
  wp (Csj.train_step E network lr ipe ms i l)
     (fun w' r => extends (logs_rows (logged 200 n)) w0 w' /\
        match r with
        | Ok l' => Csj.csv_steps l' = logged 200 (S i) /\ csj_aligned l'
        | Raise _ => True
        end) w.
Proof.
  intros Hi Hl Ha Hw. unfold Csj.train_step, sess_run.
  wp_exec ltac:(split; [rows|done]).
  eapply wp_mono with
    (Q := fun w' r => extends (logs_rows (logged 200 n)) w0 w' /\
            match r with
            | Ok l' => Csj.csv_steps l' = logged 200 (S i) /\ csj_aligned l'
            | Raise _ => True
            end).
  2:{ rewrite logged_S.
      destruct (Z.eqb_spec ((Z.of_nat i + 1) mod 200) 0) as [Hm|Hm].
      - eapply wp_mono; [|apply (csj_log_step_rows (logged 200 n))].
        + intros w' [l'|?] [? H]; [|done]. destruct H as [-> ?].
          split; [done|]. split; [|done]. cbn. by rewrite Hl.
        + by apply logged_In.
        + exact Ha.
        + rows.
      - wp_exec idtac. split; [rows|]. split; [|exact Ha].
        cbn. by rewrite app_nil_r. }
  intros w1 [l1|?] [Hw1 Hl1]; [|done]. destruct Hl1 as [Hl1 Ha1].
  wp_exec idtac.
  destruct (py_mod _ _) as [r|?]; [|done]. cbv beta iota.
  destruct (_ || _); [|by wp_exec idtac].
  unfold Csj.end_of_epoch, do_eval_cer.
  wp_exec ltac:(split; [rows|done]).
  destruct (py_floordiv _ _) as [epoch|?]; [|done]. cbv beta iota.
  wp_exec ltac:(split; [rows|done]).
  destruct (5 <=? epoch); wp_exec ltac:(split; [rows|done]).
  - split; [rows|]. by destruct (negb _).
  - split; [rows|done].
Qed.

Lemma timit_log_step_rows steps step n m fd1 fd2 l w0 w :
  In step steps -> timit_aligned l -> extends (logs_rows steps) w0 w ->
  wp (Timit.log_step E step n m fd1 fd2 l)
     (fun w' r => extends (logs_rows steps) w0 w' /\
        match r with
        | Ok l' =>
            Timit.csv_steps l' = Timit.csv_steps l ++ [step] /\ timit_aligned l'
        | Raise _ => True
        end) w.
Proof.
  intros Hin (H1 & H2 & H3) Hw.
  assert (logs_rows steps (EAddSummary (VFetch 0 0) (step + 1))) as Hs.
  { cbn. by rewrite Z.add_simpl_r. }
  unfold Timit.log_step, sess_run.
  wp_exec ltac:(split; [rows; exact Hs|done]).
  split; [rows; exact Hs|]. split; [done|].
  unfold timit_aligned. cbn. rewrite !length_app. cbn. lia.
Qed.

Lemma timit_train_step_rows lt n ipe ms i l w0 w :
  (i < n)%nat ->
  Timit.csv_steps l = logged 10 i -> timit_aligned l ->
  extends (logs_rows (logged 10 n)) w0 w ->
  wp (Timit.train_step E network lr lt ipe ms i l)
     (fun w' r => extends (logs_rows (logged 10 n)) w0 w' /\
        match r with
        | Ok l' => Timit.csv_steps l' = logged 10 (S i) /\ timit_aligned l'
        | Raise _ => True
        end) w.
Proof.
  intros Hi Hl Ha Hw. unfold Timit.train_step, sess_run.
  wp_exec ltac:(split; [rows|done]).
  eapply wp_mono with
    (Q := fun w' r => extends (logs_rows (logged 10 n)) w0 w' /\
            match r with
            | Ok l' => Timit.csv_steps l' = logged 10 (S i) /\ timit_aligned l'
            | Raise _ => True
            end).
  2:{ rewrite logged_S.
      destruct (Z.eqb_spec ((Z.of_nat i + 1) mod 10) 0) as [Hm|Hm].
      - eapply wp_mono; [|apply (timit_log_step_rows (logged 10 n))].
        + intros w' [l'|?] [? H]; [|done]. destruct H as [-> ?].
          split; [done|]. split; [|done]. cbn. by rewrite Hl.
        + by apply logged_In.
        + exact Ha.
        + rows.
      - wp_exec idtac. split; [rows|]. split; [|exact Ha].
        cbn. by rewrite app_nil_r. }
  intros w1 [l1|?] [Hw1 Hl1]; [|done]. destruct Hl1 as [Hl1 Ha1].
  wp_exec idtac.
  destruct (py_mod _ _) as [r|?]; [|done]. cbv beta iota.
  destruct (_ || _); [|by wp_exec idtac].
  unfold Timit.end_of_epoch.
  wp_exec ltac:(split; [rows|done]).
  destruct (py_floordiv _ _) as [epoch|?]; [|done]. cbv beta iota.
  wp_exec ltac:(split; [rows|done]).
  destruct (10 <=? epoch); [|wp_exec idtac; split; [rows|done]].
  unfold Timit.evaluate, do_eval_cer, do_eval_per.
  destruct (eq_str lt "character"); wp_exec ltac:(split; [rows|done]);
    destruct (negb _); wp_exec ltac:(split; [rows|done]);
    (split; [rows|done]).
Qed.

Lemma csj_do_train_rows opt bs en lm ls ns nk tds w :
  wp (Csj.do_train E network opt lr bs en lm ls ns nk tds)
     (fun w' _ =>
        forall ipe ms, Csj.steps E bs en = Ok (ipe, ms) ->
          extends (logs_rows (logged 200 (Z.to_nat ms))) w w') w.
Proof.
  apply csj_do_train_rule with
    (J := fun w' => forall steps, extends (logs_rows steps) w w')
    (I := fun _ ms i l w' =>
            Csj.csv_steps l = logged 200 i /\ csj_aligned l /\
            extends (logs_rows (logged 200 (Z.to_nat ms))) w w').
  - intros. apply extends_refl.
  - intros w' ev H [[f ->]| ->] steps; by apply extends_log.
  - intros w' H _ ipe ms _. apply H.
  - intros w' e H _ ipe ms _. apply H.
  - intros w' e H _ He ipe ms Hs. by rewrite Hs in He.
  - intros ipe ms w' H _ _. by repeat split.
  - intros ipe ms i l w' Hs Hi (Hl & Ha & Hw).
    eapply wp_mono; [|by apply (csj_train_step_rows (Z.to_nat ms))].
    intros w2 [l2|?] [Hw2 H2]; [by destruct H2|].
    intros ipe' ms' Hs'. rewrite Hs in Hs'. by injection Hs' as <- <-.
  - intros ipe ms l w' Hs (Hl & (H1 & H2 & H3 & H4 & H5) & Hw).
    assert (forall w2,
              extends (logs_rows (logged 200 (Z.to_nat ms))) w w2 ->
              forall ipe' ms', Csj.steps E bs en = Ok (ipe', ms') ->
                extends (logs_rows (logged 200 (Z.to_nat ms'))) w w2) as Hleaf.
    { intros w2 Hw2 ipe' ms' Hs'. rewrite Hs in Hs'. by injection Hs' as <- <-. }
    unfold csj_finish, open_write.
    wp_exec ltac:(apply Hleaf; rows; cbn; rewrite <- Hl; done).
    destruct (_ !! _) as [[|?]|]; wp_exec idtac;
      (apply Hleaf; rows; cbn; rewrite <- Hl; done).
Qed.

Lemma timit_do_train_rows opt bs en lt eos w :
  wp (Timit.do_train E network opt lr bs en lt eos)
     (fun w' _ =>
        forall ipe ms, Timit.steps E bs en = Ok (ipe, ms) ->
          extends (logs_rows (logged 10 (Z.to_nat ms))) w w') w.
Proof.
  apply timit_do_train_rule with
    (J := fun w' => forall steps, extends (logs_rows steps) w w')
    (I := fun _ ms i l w' =>
            Timit.csv_steps l = logged 10 i /\ timit_aligned l /\
            extends (logs_rows (logged 10 (Z.to_nat ms))) w w').
  - intros. apply extends_refl.
  - intros w' ev H [[f ->]| ->] steps; by apply extends_log.
  - intros w' H _ ipe ms _. apply H.
  - intros w' e H _ ipe ms _. apply H.
  - intros w' e H _ He ipe ms Hs. by rewrite Hs in He.
  - intros ipe ms w' H _ _. by repeat split.
  - intros ipe ms i l w' Hs Hi (Hl & Ha & Hw).
    eapply wp_mono; [|by apply (timit_train_step_rows lt (Z.to_nat ms))].
    intros w2 [l2|?] [Hw2 H2]; [by destruct H2|].
    intros ipe' ms' Hs'. rewrite Hs in Hs'. by injection Hs' as <- <-.
  - intros ipe ms l w' Hs (Hl & (H1 & H2 & H3) & Hw).
    assert (forall w2,
              extends (logs_rows (logged 10 (Z.to_nat ms))) w w2 ->
              forall ipe' ms', Timit.steps E bs en = Ok (ipe', ms') ->
                extends (logs_rows (logged 10 (Z.to_nat ms'))) w w2) as Hleaf.
    { intros w2 Hw2 ipe' ms' Hs'. rewrite Hs in Hs'. by injection Hs' as <- <-. }
    unfold timit_finish, open_write.
    wp_exec ltac:(apply Hleaf; rows; cbn; rewrite <- Hl; done).
    destruct (_ !! _) as [[|?]|]; wp_exec idtac;
      (apply Hleaf; rows; cbn; rewrite <- Hl; done).
Qed.

End Rows.

Lemma logged_to_nat every ms :
  0 < every -> logged every (Z.to_nat ms) = logged_steps every ms.
Proof.
  intros He. rewrite logged_closed by done. unfold logged_steps.
  destruct (Z.le_gt_cases 0 ms) as [Hms|Hms].
  - by rewrite Z2Nat.id.
  - replace (Z.to_nat ms) with 0%nat by lia. rewrite Z.div_0_l by lia.
    assert (ms / every < 0) by (apply Z.div_lt_upper_bound; lia).
    by replace (Z.to_nat (ms / every)) with 0%nat by lia.
Qed.

(** ** What [do_train] hands to the libraries *)

Ltac does :=
  cbn [csj_does timit_does];
  lazymatch goal with
  | |- csj_sess_run _ [InitOp] _ => apply csj_run_init
  | |- csj_sess_run _ [TrainOp] _ => apply csj_run_update
  | |- csj_sess_run _ [LossOp] (Csj.feed_dict_train _ _) =>
      apply csj_run_loss_train
  | |- csj_sess_run _ [LossOp] (Csj.feed_dict_dev _ _) =>
      apply csj_run_loss_dev
  | |- csj_sess_run _ [_; _; SummaryTrain] _ => apply csj_run_ler_train
  | |- csj_sess_run _ [_; _; SummaryDev] _ => apply csj_run_ler_dev
  | |- timit_sess_run _ [InitOp] _ => apply timit_run_init
  | |- timit_sess_run _ [TrainOp] _ => apply timit_run_update
  | |- timit_sess_run _ [LossOp] (Timit.feed_dict_train _ _) =>
      apply timit_run_loss_train
  | |- timit_sess_run _ [LossOp] (Timit.feed_dict_dev _) =>
      apply timit_run_loss_dev
  | |- timit_sess_run _ [_; SummaryTrain] _ => apply timit_run_decode_train
  | |- timit_sess_run _ [_; SummaryDev] _ => apply timit_run_decode_dev
  | |- timit_sess_run _ [LerOp] _ => apply timit_run_ler
  | |- _ => first [exact I | by repeat split | by repeat split; auto]
  end.

Ltac did :=
  try apply extends_put_fs;
  repeat (apply extends_log; [|does]);
  first [apply extends_refl | eassumption].

Section Does.
Context (E : Env) (network : Network) (lr : pyval).

Lemma csj_train_step_does ipe ms i l w0 w :
  Csj.mini_batch_train l = i -> Csj.mini_batch_dev l = i ->
  extends (csj_does lr network) w0 w ->
  wp (Csj.train_step E network lr ipe ms i l)
     (fun w' r => extends (csj_does lr network) w0 w' /\
        match r with
        | Ok l' => Csj.mini_batch_train l' = S i /\ Csj.mini_batch_dev l' = S i
        | Raise _ => True
        end) w.
Proof.
  intros Hmt Hmd Hw. unfold Csj.train_step, sess_run. rewrite Hmt, Hmd.
  wp_exec ltac:(split; [did|done]).
  eapply wp_mono with
    (Q := fun w' r => extends (csj_does lr network) w0 w' /\
            match r with
            | Ok l' =>
                Csj.mini_batch_train l' = S i /\ Csj.mini_batch_dev l' = S i
            | Raise _ => True
            end).
  2:{ destruct (_ =? 0).
      - unfold Csj.log_step, sess_run. wp_exec ltac:(split; [did|done]).
        split; [did|]. cbn. by rewrite Hmt, Hmd.
      - wp_exec idtac. split; [did|]. cbn. by rewrite Hmt, Hmd. }
  intros w1 [l1|?] [Hw1 Hl1]; [|done].
  wp_exec idtac.
  destruct (py_mod _ _) as [r|?]; [|done]. cbv beta iota.
  destruct (_ || _); [|by wp_exec idtac].
  unfold Csj.end_of_epoch, do_eval_cer.
  wp_exec ltac:(split; [did|done]).
  destruct (py_floordiv _ _) as [epoch|?]; [|done]. cbv beta iota.
  wp_exec ltac:(split; [did|done]).
  destruct (5 <=? epoch); wp_exec ltac:(split; [did|done]).
  - split; [did|]. by destruct (negb _).
  - split; [did|done].
Qed.

Lemma csj_do_train_does opt bs en lm ls ns nk tds w :
  wp (Csj.do_train E network opt lr bs en lm ls ns nk tds)
     (fun w' _ => extends (csj_does lr network) w w') w.
Proof.
  apply csj_do_train_rule with
    (J := fun w' => extends (csj_does lr network) w w')
    (I := fun _ _ i l w' =>
            Csj.mini_batch_train l = i /\ Csj.mini_batch_dev l = i /\
            extends (csj_does lr network) w w').
  - apply extends_refl.
  - intros w' ev H [[f ->]| ->]; apply extends_log; first [done|does].
  - by intros.
  - by intros.
  - by intros.
  - by intros.
  - intros ipe ms i l w' _ _ (Hmt & Hmd & Hw).
    eapply wp_mono; [|by apply csj_train_step_does].
    intros w2 [l2|?] [? H2]; [|done]. by destruct H2.
  - intros ipe ms l w' _ (_ & _ & Hw). unfold csj_finish, open_write.
    wp_exec did. destruct (_ !! _) as [[|?]|]; wp_exec idtac; did.
Qed.

Lemma timit_train_step_does lt ipe ms i l w0 w :
  Timit.mini_batch_train l = i -> Timit.mini_batch_dev l = i ->
  extends (timit_does lr lt network) w0 w ->
  wp (Timit.train_step E network lr lt ipe ms i l)
     (fun w' r => extends (timit_does lr lt network) w0 w' /\
        match r with
        | Ok l' =>
            Timit.mini_batch_train l' = S i /\ Timit.mini_batch_dev l' = S i
        | Raise _ => True
        end) w.
Proof.
  intros Hmt Hmd Hw. unfold Timit.train_step, sess_run. rewrite Hmt, Hmd.
  wp_exec ltac:(split; [did|done]).
  eapply wp_mono with
    (Q := fun w' r => extends (timit_does lr lt network) w0 w' /\
            match r with
            | Ok l' =>
                Timit.mini_batch_train l' = S i /\
                Timit.mini_batch_dev l' = S i
            | Raise _ => True
            end).
  2:{ destruct (_ =? 0).
      - unfold Timit.log_step, sess_run. wp_exec ltac:(split; [did|done]).
        split; [did|]. cbn. by rewrite Hmt, Hmd.
      - wp_exec idtac. split; [did|]. cbn. by rewrite Hmt, Hmd. }
  intros w1 [l1|?] [Hw1 Hl1]; [|done].
  wp_exec idtac.
  destruct (py_mod _ _) as [r|?]; [|done]. cbv beta iota.
  destruct (_ || _); [|by wp_exec idtac].
  unfold Timit.end_of_epoch.
  wp_exec ltac:(split; [did|done]).
  destruct (py_floordiv _ _) as [epoch|?]; [|done]. cbv beta iota.
  wp_exec ltac:(split; [did|done]).
  destruct (10 <=? epoch); [|wp_exec idtac; split; [did|done]].
  unfold Timit.evaluate, do_eval_cer, do_eval_per.
  destruct (eq_str lt "character") eqn:Hlt; wp_exec ltac:(split; [did|done]);
    destruct (negb _); wp_exec ltac:(split; [did|done]);
    (split; [did|done]).
Qed.

Lemma timit_do_train_does opt bs en lt eos w :
  wp (Timit.do_train E network opt lr bs en lt eos)
     (fun w' _ => extends (timit_does lr lt network) w w') w.
Proof.
  apply timit_do_train_rule with
    (J := fun w' => extends (timit_does lr lt network) w w')
    (I := fun _ _ i l w' =>
            Timit.mini_batch_train l = i /\ Timit.mini_batch_dev l = i /\
            extends (timit_does lr lt network) w w').
  - apply extends_refl.
  - intros w' ev H [[f ->]| ->]; apply extends_log; first [done|does].
  - by intros.
  - by intros.
  - by intros.
  - by intros.
  - intros ipe ms i l w' _ _ (Hmt & Hmd & Hw).
    eapply wp_mono; [|by apply timit_train_step_does].
    intros w2 [l2|?] [? H2]; [|done]. by destruct H2.
  - intros ipe ms l w' _ (_ & _ & Hw). unfold timit_finish, open_write.
    wp_exec did. destruct (_ !! _) as [[|?]|]; wp_exec idtac; did.
Qed.

End Does.

Lemma csj_does_dropout lr network ev :
  csj_does lr network ev -> dropout_by_fetch ev.
Proof.
  destruct ev; try exact (fun _ => I). cbn [csj_does dropout_by_fetch].
  intros []; (split; intros Hin;
    [ first [vm_compute; reflexivity | cbn in Hin; exfalso; intuition discriminate]
    | first [vm_compute; reflexivity | cbn in Hin; exfalso; intuition discriminate] ]).
Qed.

Lemma timit_does_dropout lr lt network ev :
  timit_does lr lt network ev -> dropout_by_fetch ev.
Proof.
  destruct ev; try exact (fun _ => I). cbn [timit_does dropout_by_fetch].
  intros []; (split; intros Hin;
    [ first [vm_compute; reflexivity | cbn in Hin; exfalso; intuition discriminate]
    | first [vm_compute; reflexivity | cbn in Hin; exfalso; intuition discriminate] ]).
Qed.

(** ** Evaluations on the test set *)

Lemma each_since_snoc from P tr ev :
  each_since from P tr -> ((from <= length tr)%nat -> P tr ev) ->
  each_since from P (tr ++ [ev]).
Proof.
  intros H Hev i ev' Hi Hlk.
  destruct (decide (i < length tr)%nat) as [Hlt|Hge].
  - rewrite lookup_app_l in Hlk by done.
    rewrite take_app_le by lia. by apply H.
  - apply lookup_lt_Some in Hlk as Hlen. rewrite length_app in Hlen. cbn in Hlen.
    assert (i = length tr) as -> by lia.
    rewrite lookup_app_r, Nat.sub_diag in Hlk by done. injection Hlk as <-.
    rewrite take_app_length. by apply Hev.
Qed.

Lemma each_since_start P tr : each_since (length tr) P tr.
Proof. intros i ev Hi Hlk. apply lookup_lt_Some in Hlk. lia. Qed.

Lemma dev_error_snoc E tr ev j :
  dev_error E (tr ++ [ev]) j
  = if decide (j = length tr)
    then (if is_dev_eval ev then Some (eval_error E j) else None)
    else dev_error E tr j.
Proof.
  unfold dev_error. destruct (decide (j = length tr)) as [->|Hne].
  - by rewrite lookup_app_r, Nat.sub_diag.
  - destruct (decide (j < length tr)%nat).
    + by rewrite lookup_app_l.
    + rewrite !lookup_ge_None_2; [done|lia|rewrite length_app; cbn; lia].
Qed.

Section Tests.
Context (E : Env) (from : nat).

Lemma tests_inv_other best tr ev :
  is_dev_eval ev = false -> is_test_eval ev = false ->
  tests_inv E from best tr -> tests_inv E from best (tr ++ [ev]).
Proof.
  intros Hd Ht (Hlen & Hes & Hb & Hall). split; [rewrite length_app; lia|].
  split; [|split; [done|]].
  - apply each_since_snoc; [done|]. intros _ Hev. by rewrite Ht in Hev.
  - intros j e Hj. rewrite dev_error_snoc, Hd.
    destruct (decide _); [done|]. by apply Hall.
Qed.

Lemma tests_inv_dev best tr ev :
  is_dev_eval ev = true -> (best <= eval_error E (length tr))%Q ->
  tests_inv E from best tr -> tests_inv E from best (tr ++ [ev]).
Proof.
  intros Hd Hle (Hlen & Hes & Hb & Hall). split; [rewrite length_app; lia|].
  split; [|split; [done|]].
  - apply each_since_snoc; [done|]. intros _ Hev.
    destruct ev as [| | | | |? []|? ? []| | | | | | | | | |]; done.
  - intros j e Hj. rewrite dev_error_snoc, Hd.
    destruct (decide _) as [->|]; [|by apply Hall]. by intros [= <-].
Qed.

Lemma tests_inv_test best tr dev test :
  is_dev_eval dev = true -> test_of dev test ->
  (eval_error E (length tr) < best)%Q ->
  tests_inv E from best tr ->
  tests_inv E from (eval_error E (length tr)) ((tr ++ [dev]) ++ [test]).
Proof.
  intros Hd Ht Hlt (Hlen & Hes & Hb & Hall).
  assert (is_test_eval dev = false) as Hdt.
  { destruct dev as [| | | | |? []|? ? []| | | | | | | | | |]; done. }
  assert (is_dev_eval test = false) as Htd.
  { destruct dev as [| | | | |? []|? ? []| | | | | | | | | |]; try done;
      destruct test as [| | | | |? []|? ? []| | | | | | | | | |]; done. }
  split; [rewrite !length_app; lia|]. split; [|split].
  - apply each_since_snoc.
    + apply each_since_snoc; [done|]. intros _ Hev. by rewrite Hdt in Hev.
    + intros _ _. exists (length tr), dev. rewrite length_app. cbn [length].
      split; [lia|]. split; [done|].
      split; [by rewrite lookup_app_r, Nat.sub_diag|]. split; [done|].
      split; [by eapply Qlt_le_trans|].
      intros j' e' Hj'. rewrite dev_error_snoc.
      destruct (decide _); [lia|]. intros He'.
      eapply Qlt_le_trans; [exact Hlt|]. apply (Hall j'); [lia|done].
  - apply Qlt_le_weak. by eapply Qlt_le_trans.
  - intros j e Hj. rewrite !dev_error_snoc, Htd, Hd, length_app. cbn [length].
    destruct (decide (j = _)); [done|].
    destruct (decide (j = _)) as [->|].
    + intros [= <-]. apply Qle_refl.
    + intros He. apply Qlt_le_weak. eapply Qlt_le_trans; [exact Hlt|].
      by apply (Hall j).
Qed.

Lemma tests_inv_each best tr :
  tests_inv E from best tr -> each_since from (after_best_dev E from) tr.
Proof. by intros (_ & ? & _). Qed.

Lemma tests_inv_log best w ev :
  is_dev_eval ev = false -> is_test_eval ev = false ->
  tests_inv E from best (trace w) -> tests_inv E from best (trace (log ev w)).
Proof. apply tests_inv_other. Qed.

End Tests.

Ltac ti :=
  cbn [trace Timit.error_best Timit.draw];
  repeat (apply tests_inv_log; [reflexivity|reflexivity|]);
  eassumption.

Ltac ti_fail := eapply tests_inv_each; ti.

Section TimitTests.
Context (E : Env) (network : Network) (lr lt : pyval) (from : nat).

Lemma Qle_bool_false (a b : Q) : Qle_bool a b = false -> (b < a)%Q.
Proof.
  intros H. apply Qnot_le_lt. intros Hle%Qle_bool_iff. congruence.
Qed.

Lemma timit_evaluate_tests l w :
  tests_inv E from (Timit.error_best l) (trace w) ->
  wp (Timit.evaluate E lt l)
     (fun w' r =>
        match r with
        | Ok l' => tests_inv E from (Timit.error_best l') (trace w')
        | Raise _ => each_since from (after_best_dev E from) (trace w')
        end) w.
Proof.
  intros H. unfold Timit.evaluate, do_eval_cer, do_eval_per.
  destruct (eq_str lt "character").
  - wp_exec ltac:(ti_fail).
    destruct (Qle_bool _ _) eqn:Hq; cbn [negb].
    + wp_exec idtac. cbn [trace log]. apply tests_inv_dev; [done| |done].
      by apply Qle_bool_iff.
    + apply Qle_bool_false in Hq.
      wp_exec ltac:(cbn [trace log]; apply each_since_snoc;
                    [by eapply tests_inv_each|by intros _ ?]).
      cbn [trace log Timit.error_best Timit.set_best].
      by eapply tests_inv_test.
  - wp_exec ltac:(ti_fail).
    destruct (Qle_bool _ _) eqn:Hq; cbn [negb].
    + wp_exec idtac. cbn [trace log]. apply tests_inv_dev; [done| |done].
      by apply Qle_bool_iff.
    + apply Qle_bool_false in Hq.
      wp_exec ltac:(cbn [trace log]; apply each_since_snoc;
                    [by eapply tests_inv_each|by intros _ ?]).
      cbn [trace log Timit.error_best Timit.set_best].
      by eapply tests_inv_test.
Qed.

Lemma timit_train_step_tests ipe ms i l w :
  tests_inv E from (Timit.error_best l) (trace w) ->
  wp (Timit.train_step E network lr lt ipe ms i l)
     (fun w' r =>
        match r with
        | Ok l' => tests_inv E from (Timit.error_best l') (trace w')
        | Raise _ => each_since from (after_best_dev E from) (trace w')
        end) w.
Proof.
  intros H. unfold Timit.train_step, sess_run.
  wp_exec ltac:(ti_fail).
  eapply wp_mono with
    (Q := fun w' r =>
            match r with
            | Ok l' => tests_inv E from (Timit.error_best l') (trace w')
            | Raise _ => each_since from (after_best_dev E from) (trace w')
            end).
  2:{ destruct (_ =? 0).
      - unfold Timit.log_step, sess_run. wp_exec ltac:(ti_fail). ti.
      - wp_exec idtac. ti. }
  intros w1 [l1|?] H1; [|done].
  wp_exec idtac.
  destruct (py_mod _ _) as [r|?]; [|by eapply tests_inv_each]. cbv beta iota.
  destruct (_ || _); [|by wp_exec idtac].
  unfold Timit.end_of_epoch.
  wp_exec ltac:(ti_fail).
  destruct (py_floordiv _ _) as [epoch|?]; [|by eapply tests_inv_each].
  cbv beta iota.
  wp_exec ltac:(ti_fail).
  destruct (10 <=? epoch); [|wp_exec idtac; ti].
  apply timit_evaluate_tests. ti.
Qed.

End TimitTests.

Lemma timit_do_train_tests E network lr lt opt bs en eos w :
  wp (Timit.do_train E network opt lr bs en lt eos)
     (fun w' _ =>
        each_since (length (trace w)) (after_best_dev E (length (trace w)))
          (trace w')) w.
Proof.
  apply timit_do_train_rule with
    (J := fun w' => tests_inv E (length (trace w)) 1 (trace w'))
    (I := fun _ _ _ l w' =>
            tests_inv E (length (trace w)) (Timit.error_best l) (trace w')).
  - split; [done|]. split; [apply each_since_start|]. split; [apply Qle_refl|].
    intros j e Hj. unfold dev_error. by rewrite lookup_ge_None_2.
  - intros w' ev H [[f ->]| ->]; by apply tests_inv_log.
  - intros. by eapply tests_inv_each.
  - intros. by eapply tests_inv_each.
  - intros. by eapply tests_inv_each.
  - by intros.
  - intros ipe ms i l w' _ _ H. by apply timit_train_step_tests.
  - intros ipe ms l w' _ H. unfold timit_finish, open_write.
    wp_exec ltac:(ti_fail).
    destruct (_ !! _) as [[|?]|]; wp_exec idtac; ti_fail.
Qed.

(** ** The label error rates of [train_attention.py] *)

Lemma each_since_log from P w ev :
  each_since from P (trace w) -> P (trace w) ev ->
  each_since from P (trace (log ev w)).
Proof. intros H Hev. apply each_since_snoc; auto. Qed.

Lemma lookup_log_here ev w : trace (log ev w) !! length (trace w) = Some ev.
Proof. cbn [trace log]. by rewrite lookup_app_r, Nat.sub_diag. Qed.

Lemma lookup_log_before ev w i x :
  trace w !! i = Some x -> trace (log ev w) !! i = Some x.
Proof. intros H. cbn [trace log]. by apply lookup_app_l_Some. Qed.

Ltac paired :=
  first
    [ exact I
    | do 3 eexists; split; [reflexivity|]; cbn [decode_run];
      repeat first [apply lookup_log_here | apply lookup_log_before] ].

Ltac es :=
  cbn [trace];
  repeat (apply each_since_log; [|paired]);
  eassumption.

Section Ler.
Context (E : Env) (network : Network) (lr lt : pyval) (from : nat).

Lemma timit_log_step_ler step n m l w :
  each_since from (ler_of_own_batch lr) (trace w) ->
  wp (Timit.log_step E step n m (Timit.feed_dict_train lr n)
        (Timit.feed_dict_dev m) l)
     (fun w' r =>
        each_since from (ler_of_own_batch lr) (trace w') /\
        match r with
        | Ok l' => Timit.mini_batch_train l' = Timit.mini_batch_train l /\
                   Timit.mini_batch_dev l' = Timit.mini_batch_dev l
        | Raise _ => True
        end) w.
Proof.
  intros H. unfold Timit.log_step, sess_run.
  wp_exec ltac:(split; [es|done]).
  split; [es|done].
Qed.

Lemma timit_train_step_ler ipe ms i l w :
  each_since from (ler_of_own_batch lr) (trace w) ->
  wp (Timit.train_step E network lr lt ipe ms i l)
     (fun w' _ => each_since from (ler_of_own_batch lr) (trace w')) w.
Proof.
  intros H. unfold Timit.train_step, sess_run.
  wp_exec ltac:(es).
  eapply wp_mono with
    (Q := fun w' _ => each_since from (ler_of_own_batch lr) (trace w')).
  2:{ destruct (_ =? 0).
      - eapply wp_mono; [|apply timit_log_step_ler; es].
        by intros w' r [? _].
      - wp_exec idtac. es. }
  intros w1 [l1|?] H1; [|done].
  wp_exec idtac.
  destruct (py_mod _ _) as [r|?]; [|done]. cbv beta iota.
  destruct (_ || _); [|by wp_exec idtac].
  unfold Timit.end_of_epoch.
  wp_exec ltac:(es).
  destruct (py_floordiv _ _) as [epoch|?]; [|done]. cbv beta iota.
  wp_exec ltac:(es).
  destruct (10 <=? epoch); [|wp_exec idtac; es].
  unfold Timit.evaluate, do_eval_cer, do_eval_per.
  destruct (eq_str lt "character"); wp_exec ltac:(es);
    destruct (negb _); wp_exec ltac:(es); es.
Qed.

Lemma timit_do_train_ler opt bs en eos w :
  each_since from (ler_of_own_batch lr) (trace w) ->
  wp (Timit.do_train E network opt lr bs en lt eos)
     (fun w' _ => each_since from (ler_of_own_batch lr) (trace w')) w.
Proof.
  intros H.
  apply timit_do_train_rule with
    (J := fun w' => each_since from (ler_of_own_batch lr) (trace w'))
    (I := fun _ _ _ _ w' => each_since from (ler_of_own_batch lr) (trace w')).
  - done.
  - intros w' ev H' [[f ->]| ->]; by apply each_since_log.
  - by intros.
  - by intros.
  - by intros.
  - by intros.
  - intros ipe ms i l w' _ _ H'.
    eapply wp_mono; [|by apply timit_train_step_ler]. by intros w2 [l2|?].
  - intros ipe ms l w' _ H'. unfold timit_finish, open_write.
    wp_exec ltac:(es). destruct (_ !! _) as [[|?]|]; wp_exec idtac; es.
Qed.

End Ler.

(** ** The redirection of [sys.stdout] *)

Lemma wp_result {A} (c : M A) (Q : world -> result A -> Prop) w :
  wp c Q w -> wp c (fun w' r => Q w' r /\ (c w).2 = r) w.
Proof. unfold wp. auto. Qed.

Section Stdout.
Context (E : Env).







End Stdout.

(** ** The files around the model directory *)

Lemma lookup_kept dir (files : gmap string node) path :
  below dir path = false ->
  filter (fun kv => below dir kv.1 = false) files !! path = files !! path.
Proof.
  intros Hb. destruct (files !! path) as [x|] eqn:Hx.
  - by apply map_lookup_filter_Some_2.
  - apply map_lookup_filter_None_2. by left.
Qed.

Lemma lookup_removed dir (files : gmap string node) path :
  below dir path = true ->
  filter (fun kv => below dir kv.1 = false) files !! path = None.
Proof.
  intros Hb. apply map_lookup_filter_None_2. right. intros x _. cbn [fst].
  by rewrite Hb.
Qed.

Lemma below_self dir : below dir dir = true.
Proof. unfold below. by case_bool_decide. Qed.

Lemma not_below_ne dir path : below dir path = false -> path <> dir.
Proof. intros H ->. by rewrite below_self in H. Qed.

Lemma reset_model_directory_leaves E dir w :
  wp (reset_model_directory E dir)
     (fun w' r => reset_leaves dir (fs w) (fs w') r) w.
Proof.
  unfold reset_model_directory, os_isfile, delete_recursively, make_dirs.
  apply wp_bind, wp_bind, wp_ext; intros _; cbv beta iota.
  { by repeat split. }
  apply wp_bind, wp_get_fs. cbv beta iota. apply wp_ret. cbv beta iota.
  cbn [fs log]. destruct (isfile _ (fs w)) eqn:Hc; cbn [negb].
  { apply wp_raise. by repeat split. }
  apply wp_bind, wp_bind, wp_ext; intros _; cbv beta iota.
  { by repeat split. }
  apply wp_bind, wp_get_fs. cbv beta iota. cbn [fs log].
  destruct (fs w !! dir) as [x|] eqn:Hd.
  2:{ apply wp_raise. by repeat split. }
  apply wp_put_fs. cbv beta iota.
  apply wp_bind, wp_ext; intros _; cbv beta iota; cbn [fs log].
  { split; [|split; [done|done]]. intros path Hb. by apply lookup_kept. }
  apply wp_bind, wp_get_fs. cbv beta iota. cbn [fs log].
  rewrite lookup_removed by apply below_self.
  apply wp_put_fs. cbn [fs]. split; [|split; [|done]].
  - intros path Hb. rewrite lookup_insert_ne by (apply not_eq_sym; by apply not_below_ne).
    by apply lookup_kept.
  - intros _. split; [done|]. split; [by rewrite lookup_insert_eq|].
    intros path Hb Hne. rewrite lookup_insert_ne by done. by apply lookup_removed.
Qed.

(** ** Label types without an output size *)

Section Unbound.
Context (E : Env).



Lemma timit_model_args_unbound feature param :
  is_ok (Timit.model_args feature param None) = false.
Proof.
  unfold Timit.model_args.
  repeat (lazymatch goal with
          | |- is_ok (mbind _ ?r) = false =>
              destruct r; cbn [mbind result_bind Timit.bound]; [|reflexivity]
          end).
  reflexivity.
Qed.

Lemma timit_model_args_unbound_exact feature param a :
  Timit.model_args feature param (Some a) = Ok tt ->
  Timit.model_args feature param None
  = Raise (UnboundLocalError "output_size").
Proof.
  unfold Timit.model_args. intros H.
  repeat (lazymatch type of H with
          | mbind _ ?r = Ok _ =>
              destruct r; cbn [mbind result_bind Timit.bound] in H |- *;
              [|discriminate H]
          end).
  reflexivity.
Qed.


Lemma timit_read_config_idle path w :
  wp (Timit.read_config E path) (fun w' _ => idle w w') w.
Proof.
  unfold Timit.read_config, open_read. wp_auto ltac:(idle_tac); idle_tac.
Qed.

Ltac unbound_leaf :=
  split; [done|]; split; [idle_tac|];
  let Hnf := fresh in
  intros Hnf;
  repeat match goal with
         | H : faulty E _ = true |- _ => rewrite Hnf in H; discriminate H
         end.


Lemma timit_locate_unbound path w config corpus feature param v :
  (Timit.read_config E path w).2 = Ok (config, corpus, feature, param) ->
  getitem corpus "label_type" = Ok v ->
  eq_str v "phone61" = false -> eq_str v "phone48" = false ->
  eq_str v "phone39" = false -> eq_str v "character" = false ->
  wp (Timit.locate E path)
     (fun w' r =>
        is_ok r = false /\ idle w w' /\
        ((forall n, faulty E n = false) ->
         Timit.model_args feature param (Some 63) = Ok tt ->
         r = Raise (UnboundLocalError "output_size"))) w.
Proof.
  intros Hrc Hv H1 H2 H3 H4. unfold Timit.locate. apply wp_bind.
  eapply wp_mono; [|apply wp_result, timit_read_config_idle].
  intros w1 r [Hi Hr]. rewrite Hrc in Hr. subst r. cbv beta iota.
  unfold Timit.output_size. rewrite Hv. cbn [mbind result_bind].
  rewrite H1, H2, H3, H4. apply wp_bind, wp_lift. cbv beta iota.
  unfold Timit.model_setting. apply wp_bind, wp_bind, wp_lift.
  pose proof (timit_model_args_unbound feature param) as Hma.
  destruct (Timit.model_args feature param None) as [[]|e] eqn:He;
    [discriminate Hma|]. cbv beta iota. unbound_leaf.
  intros Hok.
  rewrite (timit_model_args_unbound_exact _ _ _ Hok) in He. congruence.
Qed.

End Unbound.

(** ** Summaries and the steps they belong to *)

Ltac own_summary g :=
  exists g; do 3 eexists; split; [reflexivity|]; split; [reflexivity|];
  split; [|reflexivity];
  solve [repeat first [apply lookup_log_here | apply lookup_log_before]].

Ltac summaries :=
  cbn [trace];
  repeat (apply each_since_log;
          [|first [exact I | own_summary MiniBatchTrain
                  | own_summary MiniBatchDev]]);
  eassumption.

Section Summaries.
Context (E : Env) (network : Network) (lr : pyval) (from : nat).

Lemma csj_log_step_summaries n l w :
  each_since from (summary_of_step (csj_ler_run lr)) (trace w) ->
  wp (Csj.log_step E (Z.of_nat n) (Csj.feed_dict_train lr n)
        (Csj.feed_dict_dev n n) l)
     (fun w' r =>
        each_since from (summary_of_step (csj_ler_run lr)) (trace w') /\
        match r with
        | Ok l' => Csj.mini_batch_train l' = Csj.mini_batch_train l /\
                   Csj.mini_batch_dev l' = Csj.mini_batch_dev l
        | Raise _ => True
        end) w.
Proof.
  intros H. unfold Csj.log_step, sess_run.
  wp_exec ltac:(split; [summaries|done]).
  split; [summaries|done].
Qed.

Lemma csj_train_step_summaries ipe ms i l w :
  Csj.mini_batch_train l = i -> Csj.mini_batch_dev l = i ->
  each_since from (summary_of_step (csj_ler_run lr)) (trace w) ->
  wp (Csj.train_step E network lr ipe ms i l)
     (fun w' r =>
        each_since from (summary_of_step (csj_ler_run lr)) (trace w') /\
        match r with
        | Ok l' => Csj.mini_batch_train l' = S i /\
                   Csj.mini_batch_dev l' = S i
        | Raise _ => True
        end) w.
Proof.
  intros Hn Hm H. unfold Csj.train_step, sess_run. rewrite Hn, Hm.
  wp_exec ltac:(split; [summaries|done]).
  eapply wp_mono with
    (Q := fun w' r =>
            each_since from (summary_of_step (csj_ler_run lr)) (trace w') /\
            match r with
            | Ok l' => Csj.mini_batch_train l' = S i /\
                       Csj.mini_batch_dev l' = S i
            | Raise _ => True
            end).
  2:{ destruct (_ =? 0).
      - eapply wp_mono; [|apply csj_log_step_summaries; summaries].
        intros w' [l'|?] [H' Hl]; (split; [done|]); [|done].
        destruct Hl as [-> ->]. cbn. by rewrite Hn, Hm.
      - wp_exec idtac. split; [summaries|]. cbn. by rewrite Hn, Hm. }
  intros w1 [l1|?] [H1 Hl]; [|done].
  wp_exec idtac.
  destruct (py_mod _ _) as [r|?]; [|done]. cbv beta iota.
  destruct (_ || _); [|by wp_exec idtac].
  unfold Csj.end_of_epoch, do_eval_cer.
  wp_exec ltac:(split; [summaries|done]).
  destruct (py_floordiv _ _) as [epoch|?]; [|done]. cbv beta iota.
  wp_exec ltac:(split; [summaries|done]).
  destruct (5 <=? epoch); wp_exec ltac:(split; [summaries|done]).
  - split; [summaries|]. by destruct (negb _).
  - split; [summaries|done].
Qed.

Lemma csj_do_train_summaries opt bs en lm ls ns nk tds w :
  each_since from (summary_of_step (csj_ler_run lr)) (trace w) ->
  wp (Csj.do_train E network opt lr bs en lm ls ns nk tds)
     (fun w' _ => each_since from (summary_of_step (csj_ler_run lr)) (trace w'))
     w.
Proof.
  intros H.
  apply csj_do_train_rule with
    (J := fun w' =>
            each_since from (summary_of_step (csj_ler_run lr)) (trace w'))
    (I := fun _ _ i l w' =>
            Csj.mini_batch_train l = i /\ Csj.mini_batch_dev l = i /\
            each_since from (summary_of_step (csj_ler_run lr)) (trace w')).
  - done.
  - intros w' ev H' [[f ->]| ->]; by apply each_since_log.
  - by intros.
  - by intros.
  - by intros.
  - by intros.
  - intros ipe ms i l w' _ _ (Hn & Hm & H').
    eapply wp_mono; [|by apply csj_train_step_summaries].
    intros w2 [l2|?] [H2 Hl]; [|done]. by destruct Hl.
  - intros ipe ms l w' _ (_ & _ & H'). unfold csj_finish, open_write.
    wp_exec ltac:(summaries).
    destruct (_ !! _) as [[|?]|]; wp_exec idtac; summaries.
Qed.

Lemma timit_log_step_summaries n l w :
  each_since from (summary_of_step (decode_run lr)) (trace w) ->
  wp (Timit.log_step E (Z.of_nat n) n n (Timit.feed_dict_train lr n)
        (Timit.feed_dict_dev n) l)
     (fun w' r =>
        each_since from (summary_of_step (decode_run lr)) (trace w') /\
        match r with
        | Ok l' => Timit.mini_batch_train l' = Timit.mini_batch_train l /\
                   Timit.mini_batch_dev l' = Timit.mini_batch_dev l
        | Raise _ => True
        end) w.
Proof.
  intros H. unfold Timit.log_step, sess_run.
  wp_exec ltac:(split; [summaries|done]).
  split; [summaries|done].
Qed.

Lemma timit_train_step_summaries lt ipe ms i l w :
  Timit.mini_batch_train l = i -> Timit.mini_batch_dev l = i ->
  each_since from (summary_of_step (decode_run lr)) (trace w) ->
  wp (Timit.train_step E network lr lt ipe ms i l)
     (fun w' r =>
        each_since from (summary_of_step (decode_run lr)) (trace w') /\
        match r with
        | Ok l' => Timit.mini_batch_train l' = S i /\
                   Timit.mini_batch_dev l' = S i
        | Raise _ => True
        end) w.
Proof.
  intros Hn Hm H. unfold Timit.train_step, sess_run. rewrite Hn, Hm.
  wp_exec ltac:(split; [summaries|done]).
  eapply wp_mono with
    (Q := fun w' r =>
            each_since from (summary_of_step (decode_run lr)) (trace w') /\
            match r with
            | Ok l' => Timit.mini_batch_train l' = S i /\
                       Timit.mini_batch_dev l' = S i
            | Raise _ => True
            end).
  2:{ destruct (_ =? 0).
      - eapply wp_mono; [|apply timit_log_step_summaries; summaries].
        intros w' [l'|?] [H' Hl]; (split; [done|]); [|done].
        destruct Hl as [-> ->]. cbn. by rewrite Hn, Hm.
      - wp_exec idtac. split; [summaries|]. cbn. by rewrite Hn, Hm. }
  intros w1 [l1|?] [H1 Hl]; [|done].
  wp_exec idtac.
  destruct (py_mod _ _) as [r|?]; [|done]. cbv beta iota.
  destruct (_ || _); [|by wp_exec idtac].
  unfold Timit.end_of_epoch.
  wp_exec ltac:(split; [summaries|done]).
  destruct (py_floordiv _ _) as [epoch|?]; [|done]. cbv beta iota.
  wp_exec ltac:(split; [summaries|done]).
  destruct (10 <=? epoch); [|wp_exec idtac; split; [summaries|done]].
  unfold Timit.evaluate, do_eval_cer, do_eval_per.
  destruct (eq_str lt "character"); wp_exec ltac:(split; [summaries|done]);
    destruct (negb _); wp_exec ltac:(split; [summaries|done]);
    (split; [summaries|done]).
Qed.

Lemma timit_do_train_summaries opt bs en lt eos w :
  each_since from (summary_of_step (decode_run lr)) (trace w) ->
  wp (Timit.do_train E network opt lr bs en lt eos)
     (fun w' _ => each_since from (summary_of_step (decode_run lr)) (trace w'))
     w.
Proof.
  intros H.
  apply timit_do_train_rule with
    (J := fun w' =>
            each_since from (summary_of_step (decode_run lr)) (trace w'))
    (I := fun _ _ i l w' =>
            Timit.mini_batch_train l = i /\ Timit.mini_batch_dev l = i /\
            each_since from (summary_of_step (decode_run lr)) (trace w')).
  - done.
  - intros w' ev H' [[f ->]| ->]; by apply each_since_log.
  - by intros.
  - by intros.
  - by intros.
  - by intros.
  - intros ipe ms i l w' _ _ (Hn & Hm & H').
    eapply wp_mono; [|by apply timit_train_step_summaries].
    intros w2 [l2|?] [H2 Hl]; [|done]. by destruct Hl.
  - intros ipe ms l w' _ (_ & _ & H'). unfold timit_finish, open_write.
    wp_exec ltac:(summaries).
    destruct (_ !! _) as [[|?]|]; wp_exec idtac; summaries.
Qed.

End Summaries.

(** ** The tuples fed to [sess.run] *)

Lemma drawn_snoc g tr ev :
  drawn g (tr ++ [ev]) = (drawn g tr + if draw_of g ev then 1 else 0)%nat.
Proof.
  unfold drawn. rewrite List.filter_app, length_app. cbn [List.filter].
  by destruct (draw_of g ev).
Qed.

Lemma feeds_latest_draws_run base tr fetches fd n :
  yields_only n fd ->
  (forall g, drawn g tr = (base g + S n)%nat) ->
  feeds_latest_draws base tr (ERun fetches fd).
Proof.
  intros Hy Hd p v g m Hp Hv. rewrite (Hy p v g m Hp Hv). apply Hd.
Qed.

Ltac yields :=
  let p := fresh "p" in
  let Hp := fresh "Hp" in
  let Hv := fresh "Hv" in
  intros p ? ? ? Hp Hv;
  destruct p; vm_compute in Hp; try discriminate Hp;
  injection Hp as <-; cbn [yielded] in Hv; congruence.

Lemma csj_feed_dict_train_yields lr n :
  yields_only n (Csj.feed_dict_train lr n).
Proof. yields. Qed.

Lemma csj_evaluation_train_yields lr n :
  yields_only n (Csj.evaluation_mode (Csj.feed_dict_train lr n)).
Proof. yields. Qed.

Lemma csj_feed_dict_dev_yields n : yields_only n (Csj.feed_dict_dev n n).
Proof. yields. Qed.

Lemma csj_evaluation_dev_yields n :
  yields_only n (Csj.evaluation_mode (Csj.feed_dict_dev n n)).
Proof. yields. Qed.

Lemma timit_feed_dict_train_yields lr n :
  yields_only n (Timit.feed_dict_train lr n).
Proof. yields. Qed.

Lemma timit_evaluation_train_yields lr n :
  yields_only n (Timit.evaluation_mode (Timit.feed_dict_train lr n)).
Proof. yields. Qed.

Lemma timit_feed_dict_dev_yields n : yields_only n (Timit.feed_dict_dev n).
Proof. yields. Qed.

Lemma timit_evaluation_dev_yields n :
  yields_only n (Timit.evaluation_mode (Timit.feed_dict_dev n)).
Proof. yields. Qed.

Lemma timit_feed_dict_ler_yields g n pos call pos' :
  yields_only n (Timit.feed_dict_ler (VYield g n pos) (VFetch call pos')).
Proof. yields. Qed.

Ltac tally Hd :=
  let g := fresh "g" in
  intros g; cbn [trace log]; rewrite ?drawn_snoc, Hd; cbn [draw_of];
  destruct g; lia.

Ltac latest Hd :=
  first
    [ exact I
    | eapply feeds_latest_draws_run;
      [ lazymatch goal with
        | |- yields_only _ (Csj.evaluation_mode (Csj.feed_dict_train _ _)) =>
            apply csj_evaluation_train_yields
        | |- yields_only _ (Csj.evaluation_mode (Csj.feed_dict_dev _ _)) =>
            apply csj_evaluation_dev_yields
        | |- yields_only _ (Csj.feed_dict_train _ _) =>
            apply csj_feed_dict_train_yields
        | |- yields_only _ (Csj.feed_dict_dev _ _) =>
            apply csj_feed_dict_dev_yields
        | |- yields_only _ (Timit.evaluation_mode (Timit.feed_dict_train _ _)) =>
            apply timit_evaluation_train_yields
        | |- yields_only _ (Timit.evaluation_mode (Timit.feed_dict_dev _)) =>
            apply timit_evaluation_dev_yields
        | |- yields_only _ (Timit.feed_dict_train _ _) =>
            apply timit_feed_dict_train_yields
        | |- yields_only _ (Timit.feed_dict_dev _) =>
            apply timit_feed_dict_dev_yields
        | |- yields_only _ (Timit.feed_dict_ler _ _) =>
            apply timit_feed_dict_ler_yields
        end
      | tally Hd ] ].

Ltac draws Hd :=
  cbn [trace];
  repeat (apply each_since_log; [|latest Hd]);
  eassumption.

Section Draws.
Context (E : Env) (network : Network) (lr : pyval) (from : nat)
  (base : generator -> nat).

Lemma csj_log_step_draws step n l w :
  (forall g, drawn g (trace w) = (base g + S n)%nat) ->
  each_since from (feeds_latest_draws base) (trace w) ->
  wp (Csj.log_step E step (Csj.feed_dict_train lr n) (Csj.feed_dict_dev n n) l)
     (fun w' r =>
        each_since from (feeds_latest_draws base) (trace w') /\
        match r with
        | Ok l' => Csj.mini_batch_train l' = Csj.mini_batch_train l /\
                   Csj.mini_batch_dev l' = Csj.mini_batch_dev l /\
                   forall g, drawn g (trace w') = (base g + S n)%nat
        | Raise _ => True
        end) w.
Proof.
  intros Hd H. unfold Csj.log_step, sess_run.
  wp_exec ltac:(split; [draws Hd|done]).
  split; [draws Hd|]. split; [done|]. split; [done|]. tally Hd.
Qed.

Lemma csj_train_step_draws ipe ms i l w :
  Csj.mini_batch_train l = i -> Csj.mini_batch_dev l = i ->
  (forall g, drawn g (trace w) = (base g + i)%nat) ->
  each_since from (feeds_latest_draws base) (trace w) ->
  wp (Csj.train_step E network lr ipe ms i l)
     (fun w' r =>
        each_since from (feeds_latest_draws base) (trace w') /\
        match r with
        | Ok l' => Csj.mini_batch_train l' = S i /\
                   Csj.mini_batch_dev l' = S i /\
                   forall g, drawn g (trace w') = (base g + S i)%nat
        | Raise _ => True
        end) w.
Proof.
  intros Hn Hm Hd H. unfold Csj.train_step, sess_run. rewrite Hn, Hm.
  wp_exec ltac:(split; [draws Hd|done]).
  eapply wp_mono with
    (Q := fun w' r =>
            each_since from (feeds_latest_draws base) (trace w') /\
            match r with
            | Ok l' => Csj.mini_batch_train l' = S i /\
                       Csj.mini_batch_dev l' = S i /\
                       forall g, drawn g (trace w') = (base g + S i)%nat
            | Raise _ => True
            end).
  2:{ destruct (_ =? 0).
      - eapply wp_mono; [|apply csj_log_step_draws; [tally Hd|draws Hd]].
        intros w' [l'|?] [H' Hl]; (split; [done|]); [|done].
        destruct Hl as (-> & -> & Hd'). cbn. by rewrite Hn, Hm.
      - wp_exec idtac. split; [draws Hd|]. cbn [Csj.draw Csj.mini_batch_train
          Csj.mini_batch_dev]. rewrite Hn, Hm. split; [done|]. split; [done|].
        tally Hd. }
  intros w1 [l1|?] [H1 Hl]; [|done]. destruct Hl as (Hn1 & Hm1 & Hd1).
  wp_exec idtac.
  destruct (py_mod _ _) as [r|?]; [|done]. cbv beta iota.
  destruct (_ || _); [|by wp_exec idtac].
  unfold Csj.end_of_epoch, do_eval_cer.
  wp_exec ltac:(split; [draws Hd1|done]).
  destruct (py_floordiv _ _) as [epoch|?]; [|done]. cbv beta iota.
  wp_exec ltac:(split; [draws Hd1|done]).
  destruct (5 <=? epoch); wp_exec ltac:(split; [draws Hd1|done]).
  - split; [draws Hd1|]. split; [by destruct (negb _)|].
    split; [by destruct (negb _)|]. tally Hd1.
  - split; [draws Hd1|]. split; [done|]. split; [done|]. tally Hd1.
Qed.

Lemma timit_log_step_draws step n l w :
  (forall g, drawn g (trace w) = (base g + S n)%nat) ->
  each_since from (feeds_latest_draws base) (trace w) ->
  wp (Timit.log_step E step n n (Timit.feed_dict_train lr n)
        (Timit.feed_dict_dev n) l)
     (fun w' r =>
        each_since from (feeds_latest_draws base) (trace w') /\
        match r with
        | Ok l' => Timit.mini_batch_train l' = Timit.mini_batch_train l /\
                   Timit.mini_batch_dev l' = Timit.mini_batch_dev l /\
                   forall g, drawn g (trace w') = (base g + S n)%nat
        | Raise _ => True
        end) w.
Proof.
  intros Hd H. unfold Timit.log_step, sess_run.
  wp_exec ltac:(split; [draws Hd|done]).
  split; [draws Hd|]. split; [done|]. split; [done|]. tally Hd.
Qed.

Lemma timit_train_step_draws lt ipe ms i l w :
  Timit.mini_batch_train l = i -> Timit.mini_batch_dev l = i ->
  (forall g, drawn g (trace w) = (base g + i)%nat) ->
  each_since from (feeds_latest_draws base) (trace w) ->
  wp (Timit.train_step E network lr lt ipe ms i l)
     (fun w' r =>
        each_since from (feeds_latest_draws base) (trace w') /\
        match r with
        | Ok l' => Timit.mini_batch_train l' = S i /\
                   Timit.mini_batch_dev l' = S i /\
                   forall g, drawn g (trace w') = (base g + S i)%nat
        | Raise _ => True
        end) w.
Proof.
  intros Hn Hm Hd H. unfold Timit.train_step, sess_run. rewrite Hn, Hm.
  wp_exec ltac:(split; [draws Hd|done]).
  eapply wp_mono with
    (Q := fun w' r =>
            each_since from (feeds_latest_draws base) (trace w') /\
            match r with
            | Ok l' => Timit.mini_batch_train l' = S i /\
                       Timit.mini_batch_dev l' = S i /\
                       forall g, drawn g (trace w') = (base g + S i)%nat
            | Raise _ => True
            end).
  2:{ destruct (_ =? 0).
      - eapply wp_mono; [|apply timit_log_step_draws; [tally Hd|draws Hd]].
        intros w' [l'|?] [H' Hl]; (split; [done|]); [|done].
        destruct Hl as (-> & -> & Hd'). cbn. by rewrite Hn, Hm.
      - wp_exec idtac. split; [draws Hd|]. cbn [Timit.draw
          Timit.mini_batch_train Timit.mini_batch_dev]. rewrite Hn, Hm.
        split; [done|]. split; [done|]. tally Hd. }
  intros w1 [l1|?] [H1 Hl]; [|done]. destruct Hl as (Hn1 & Hm1 & Hd1).
  wp_exec idtac.
  destruct (py_mod _ _) as [r|?]; [|done]. cbv beta iota.
  destruct (_ || _); [|by wp_exec idtac].
  unfold Timit.end_of_epoch.
  wp_exec ltac:(split; [draws Hd1|done]).
  destruct (py_floordiv _ _) as [epoch|?]; [|done]. cbv beta iota.
  wp_exec ltac:(split; [draws Hd1|done]).
  destruct (10 <=? epoch);
    [|wp_exec idtac; split; [draws Hd1|]; split; [done|]; split; [done|];
      tally Hd1].
  unfold Timit.evaluate, do_eval_cer, do_eval_per.
  destruct (eq_str lt "character"); wp_exec ltac:(split; [draws Hd1|done]);
    destruct (negb _); wp_exec ltac:(split; [draws Hd1|done]);
    (split; [draws Hd1|]; split; [done|]; split; [done|]; tally Hd1).
Qed.

End Draws.

Section DrawsOfRun.
Context (E : Env) (network : Network) (lr : pyval).

Lemma csj_do_train_draws opt bs en lm ls ns nk tds w :
  wp (Csj.do_train E network opt lr bs en lm ls ns nk tds)
     (fun w' r => draws_each_step (Csj.steps E bs en) w (w', r)) w.
Proof.
  set (base := fun g => drawn g (trace w)).
  set (P := feeds_latest_draws base).
  apply csj_do_train_rule with
    (J := fun w' =>
            each_since (length (trace w)) P (trace w') /\
            forall g, drawn g (trace w') = (base g + 0)%nat)
    (I := fun _ _ i l w' =>
            Csj.mini_batch_train l = i /\ Csj.mini_batch_dev l = i /\
            each_since (length (trace w)) P (trace w') /\
            forall g, drawn g (trace w') = (base g + i)%nat).
  - split; [apply each_since_start|]. intros g. unfold base. lia.
  - intros w' ev [H' Hd] [[f ->]| ->].
    + split; [by apply each_since_log|tally Hd].
    + split; [|tally Hd]. apply each_since_log; [done|].
      intros p v g n Hp. by rewrite lookup_empty in Hp.
  - by intros w' [H' _] _.
  - by intros w' e [H' _] _.
  - by intros w' e [H' _] _ _.
  - intros ipe ms w' [H' Hd] _ _. by repeat split.
  - intros ipe ms i l w' _ _ (Hn & Hm & H' & Hd).
    eapply wp_mono; [|by apply csj_train_step_draws].
    intros w2 [l2|?] [H2 Hl]; [|by split]. by destruct Hl as (? & ? & ?).
  - intros ipe ms l w' Hs (_ & _ & H' & Hd). unfold csj_finish, open_write.
    wp_exec ltac:(split; [draws Hd|done]).
    destruct (_ !! _) as [[|?]|]; wp_exec idtac;
      (split; [cbn [fst snd]; draws Hd|]); try done;
      intros _; exists ipe, ms; (split; [done|]); cbn [fst snd];
      unfold base in Hd; tally Hd.
Qed.

Lemma timit_do_train_draws opt bs en lt eos w :
  wp (Timit.do_train E network opt lr bs en lt eos)
     (fun w' r => draws_each_step (Timit.steps E bs en) w (w', r)) w.
Proof.
  set (base := fun g => drawn g (trace w)).
  set (P := feeds_latest_draws base).
  apply timit_do_train_rule with
    (J := fun w' =>
            each_since (length (trace w)) P (trace w') /\
            forall g, drawn g (trace w') = (base g + 0)%nat)
    (I := fun _ _ i l w' =>
            Timit.mini_batch_train l = i /\ Timit.mini_batch_dev l = i /\
            each_since (length (trace w)) P (trace w') /\
            forall g, drawn g (trace w') = (base g + i)%nat).
  - split; [apply each_since_start|]. intros g. unfold base. lia.
  - intros w' ev [H' Hd] [[f ->]| ->].
    + split; [by apply each_since_log|tally Hd].
    + split; [|tally Hd]. apply each_since_log; [done|].
      intros p v g n Hp. by rewrite lookup_empty in Hp.
  - by intros w' [H' _] _.
  - by intros w' e [H' _] _.
  - by intros w' e [H' _] _ _.
  - intros ipe ms w' [H' Hd] _ _. by repeat split.
  - intros ipe ms i l w' _ _ (Hn & Hm & H' & Hd).
    eapply wp_mono; [|by apply timit_train_step_draws].
    intros w2 [l2|?] [H2 Hl]; [|by split]. by destruct Hl as (? & ? & ?).
  - intros ipe ms l w' Hs (_ & _ & H' & Hd). unfold timit_finish, open_write.
    wp_exec ltac:(split; [draws Hd|done]).
    destruct (_ !! _) as [[|?]|]; wp_exec idtac;
      (split; [cbn [fst snd]; draws Hd|]); try done;
      intros _; exists ipe, ms; (split; [done|]); cbn [fst snd];
      unfold base in Hd; tally Hd.
Qed.

End DrawsOfRun.

(** ** Runs of [main] around "Reset model directory" *)

(** What is left when "Save config file" finds the configuration file
    inside the model directory that was just reset. *)
Lemma save_config_after_reset E (Hnf : forall n, faulty E n = false)
    path dir files o tr title :
  below dir path = true ->
  let w2 := log (ESetProcTitle title)
              {| fs := emptied dir files; stdout := o; trace := tr |} in
  save_config E path dir w2
  = (log (ECopyFile path (join dir "config.yml")) w2, Raise (IOError path)).
Proof.
  intros Hb w2. subst w2.
  unfold save_config, copyfile, ext, get_fs, raise, mbind, M_bind.
  rewrite Hnf. cbn [fs log]. unfold emptied.
  destruct (decide (path = dir)) as [->|Hne].
  - by rewrite lookup_insert_eq.
  - by rewrite lookup_insert_ne, lookup_removed.
Qed.

Section AroundReset.
Context (E : Env).




End AroundReset.

Section GoesOn.
Context (E : Env) (Hnf : forall n, faulty E n = false).




End GoesOn.

Section FailedSetup.
Context (E : Env).












End FailedSetup.

Section ConfigInside.
Context (E : Env) (Hnf : forall n, faulty E n = false).

Lemma after_located_config_inside path dir (title : result string) w1 :
  below dir path = true ->
  fs w1 !! dir <> None ->
  isfile (join dir "complete.txt") (fs w1) = false ->
  exists w',
    (_ ← reset_model_directory E dir;
     title ← lift title;
     _ ← ext E (ESetProcTitle title);
     save_config E path dir) w1
    = (w', Raise (match title with
                  | Ok _ => IOError path
                  | Raise e => e
                  end)) /\
    fs w' = emptied dir (fs w1).
Proof.
  intros Hb Hd Hc. unfold mbind, M_bind.
  rewrite reset_model_directory_run by done. unfold reset_outcome.
  rewrite Hc. destruct (fs w1 !! dir) as [x|]; [|done].
  destruct title as [title|e]; unfold lift; [|by eexists].
  unfold ext. rewrite Hnf.
  rewrite (save_config_after_reset E Hnf) by done. by eexists.
Qed.

Lemma csj_setup_config_inside path w corpus feature param network :
  let w1 := (Csj.locate E path w).1 in
  (Csj.locate E path w).2 = Ok (corpus, feature, param, network) ->
  below (model_dir network) path = true ->
  fs w1 !! model_dir network <> None ->
  isfile (join (model_dir network) "complete.txt") (fs w1) = false ->
  exists w',
    Csj.setup E path w
    = (w', Raise (match Csj.proc_title corpus with
                  | Ok _ => IOError path
                  | Raise e => e
                  end)) /\
    fs w' = emptied (model_dir network) (fs w1).
Proof.
  intros w1 Hloc Hb Hd Hc. subst w1.
  unfold Csj.setup. unfold mbind at 1, M_bind at 1.
  destruct (Csj.locate E path w) as [w1 r]. cbn [fst snd] in *. subst r.
  destruct (after_located_config_inside path (model_dir network)
              (Csj.proc_title corpus) w1 Hb Hd Hc) as (w' & Hr & Hfs).
  exists w'. split; [|done].
  unfold mbind, M_bind in Hr |- *.
  destruct (reset_model_directory E (model_dir network) w1) as [w2 [[]|?]];
    [|by injection Hr as -> ->].
  destruct (lift (Csj.proc_title corpus) w2) as [w3 [title|?]];
    [|by injection Hr as -> ->].
  destruct (ext E (ESetProcTitle title) w3) as [w4 [?|?]];
    [|by injection Hr as -> ->].
  destruct (save_config E path (model_dir network) w4) as [w5 [[]|?]];
    [discriminate Hr|by injection Hr as -> ->].
Qed.

Lemma timit_setup_config_inside path w corpus param size network :
  let w1 := (Timit.locate E path w).1 in
  (Timit.locate E path w).2 = Ok (corpus, param, size, network) ->
  below (model_dir network) path = true ->
  fs w1 !! model_dir network <> None ->
  isfile (join (model_dir network) "complete.txt") (fs w1) = false ->
  exists w',
    Timit.setup E path w
    = (w', Raise (match Timit.proc_title corpus with
                  | Ok _ => IOError path
                  | Raise e => e
                  end)) /\
    fs w' = emptied (model_dir network) (fs w1).
Proof.
  intros w1 Hloc Hb Hd Hc. subst w1.
  unfold Timit.setup. unfold mbind at 1, M_bind at 1.
  destruct (Timit.locate E path w) as [w1 r]. cbn [fst snd] in *. subst r.
  destruct (after_located_config_inside path (model_dir network)
              (Timit.proc_title corpus) w1 Hb Hd Hc) as (w' & Hr & Hfs).
  exists w'. split; [|done].
  unfold mbind, M_bind in Hr |- *.
  destruct (reset_model_directory E (model_dir network) w1) as [w2 [[]|?]];
    [|by injection Hr as -> ->].
  destruct (lift (Timit.proc_title corpus) w2) as [w3 [title|?]];
    [|by injection Hr as -> ->].
  destruct (ext E (ESetProcTitle title) w3) as [w4 [?|?]];
    [|by injection Hr as -> ->].
  destruct (save_config E path (model_dir network) w4) as [w5 [[]|?]];
    [discriminate Hr|by injection Hr as -> ->].
Qed.

End ConfigInside.

(** ** A run on a configuration that lacks a key *)

Lemma assoc_filter_eq k l :
  assoc k (List.filter (fun kv => negb (bool_decide (kv.1 = k))) l) = None.
Proof.
  induction l as [|[k' v] l IH]; [done|]. cbn [List.filter fst].
  destruct (bool_decide_reflect (k' = k)) as [->|Hne]; cbn [negb]; [done|].
  cbn [assoc]. by rewrite bool_decide_eq_false_2.
Qed.

Lemma assoc_filter_ne k key l :
  key <> k ->
  assoc key (List.filter (fun kv => negb (bool_decide (kv.1 = k))) l)
  = assoc key l.
Proof.
  intros Hne. induction l as [|[k' v] l IH]; [done|]. cbn [List.filter fst].
  destruct (bool_decide_reflect (k' = k)) as [->|Hk]; cbn [negb assoc].
  - by rewrite bool_decide_eq_false_2.
  - by rewrite IH.
Qed.

Lemma getitem_del_item_eq k d : is_ok (getitem (del_item k d) k) = false.
Proof.
  destruct d; try done. cbn [del_item getitem]. by rewrite assoc_filter_eq.
Qed.

Lemma getitem_del_item_ne k key d :
  key <> k -> getitem (del_item k d) key = getitem d key.
Proof.
  intros Hne. destruct d; try done. cbn [del_item getitem].
  by rewrite assoc_filter_ne.
Qed.

Lemma assoc_del_in_eq s k l :
  assoc s (map (fun kv => if bool_decide (kv.1 = s)
                          then (kv.1, del_item k kv.2) else kv) l)
  = del_item k <$> assoc s l.
Proof.
  induction l as [|[k' v] l IH]; [done|]. cbn [map fst snd assoc].
  destruct (bool_decide_reflect (k' = s)) as [->|Hne]; cbn [assoc].
  - by rewrite bool_decide_eq_true_2.
  - by rewrite bool_decide_eq_false_2.
Qed.

Lemma assoc_del_in_ne s k key l :
  key <> s ->
  assoc key (map (fun kv => if bool_decide (kv.1 = s)
                            then (kv.1, del_item k kv.2) else kv) l)
  = assoc key l.
Proof.
  intros Hne. induction l as [|[k' v] l IH]; [done|]. cbn [map fst snd assoc].
  destruct (bool_decide_reflect (k' = s)) as [->|Hk]; cbn [assoc].
  - by rewrite bool_decide_eq_false_2.
  - by rewrite IH.
Qed.

Lemma getitem_del_in_eq s k config :
  getitem (del_in s k config) s
  = match getitem config s with
    | Ok d => Ok (del_item k d)
    | Raise e => Raise e
    end.
Proof.
  destruct config; try done. cbn [del_in getitem]. rewrite assoc_del_in_eq.
  match goal with |- context [assoc s ?l] => by destruct (assoc s l) end.
Qed.

Lemma getitem_del_in_ne s k key config :
  key <> s -> getitem (del_in s k config) key = getitem config key.
Proof.
  intros Hne. destruct config; try done. cbn [del_in getitem].
  by rewrite assoc_del_in_ne.
Qed.

Lemma has_keys_del_in s k keys config :
  In k keys -> has_keys (del_in s k config) s keys = false.
Proof.
  intros Hin. unfold has_keys. rewrite getitem_del_in_eq.
  destruct (getitem config s) as [d|]; [|done].
  apply not_true_is_false. intros Hall.
  pose proof (proj1 (forallb_forall _ _) Hall k Hin) as Hk.
  unfold has_key in Hk. by rewrite getitem_del_item_eq in Hk.
Qed.

Lemma csj_complete_del_in s keys k config :
  In (s, keys) csj_sections -> In k keys ->
  csj_complete (del_in s k config) = false.
Proof.
  intros Hs Hk. unfold csj_complete.
  destruct Hs as [[= <- <-]|[[= <- <-]|[[= <- <-]|[]]]];
    rewrite (has_keys_del_in _ k) by done;
    by rewrite ?andb_false_r.
Qed.

Lemma timit_complete_del_in s keys k config :
  In (s, keys) timit_sections -> In k keys ->
  timit_complete (del_in s k config) = false.
Proof.
  intros Hs Hk. unfold timit_complete.
  destruct Hs as [[= <- <-]|[[= <- <-]|[[= <- <-]|[]]]];
    rewrite (has_keys_del_in _ k) by done;
    by rewrite ?andb_false_r.
Qed.

Lemma has_keys_del_item k keys config :
  has_keys (del_item k config) k keys = false.
Proof.
  unfold has_keys. pose proof (getitem_del_item_eq k config) as H.
  by destruct (getitem (del_item k config) k).
Qed.

Lemma csj_complete_del_item k config :
  In k top_level_keys -> csj_complete (del_item k config) = false.
Proof.
  intros Hk. unfold csj_complete.
  destruct Hk as [<-|[<-|[<-|[<-|[]]]]];
    rewrite ?has_keys_del_item; unfold has_key;
    rewrite ?getitem_del_item_eq; by rewrite ?andb_false_r.
Qed.

Lemma timit_complete_del_item k config :
  In k top_level_keys -> timit_complete (del_item k config) = false.
Proof.
  intros Hk. unfold timit_complete.
  destruct Hk as [<-|[<-|[<-|[<-|[]]]]];
    rewrite ?has_keys_del_item; unfold has_key;
    rewrite ?getitem_del_item_eq; by rewrite ?andb_false_r.
Qed.

(** *** Rules for two runs *)

Lemma rsim_refl {A} k (r : result A) : rsim k eq r r.
Proof. right. by destruct r. Qed.

Lemma rsim_bind {A B A2 B2} k (R : A -> B -> Prop) (R2 : A2 -> B2 -> Prop)
    (r' : result A) (r : result B) f' f :
  rsim k R r' r ->
  (forall a' a, R a' a -> rsim k R2 (f' a') (f a)) ->
  rsim k R2 (r' ≫= f') (r ≫= f).
Proof.
  intros [->|H] Hf; [by left|].
  destruct r' as [a'|e'], r as [a|e]; try done; cbn [mbind result_bind].
  - by apply Hf.
  - right. by subst.
Qed.

Lemma reads_as_refl k d : reads_as k d d.
Proof. intros key. apply rsim_refl. Qed.

Lemma reads_as_del_item k d : reads_as k (del_item k d) d.
Proof.
  intros key. destruct (decide (key = k)) as [->|Hne].
  - destruct d; try (right; done). left. cbn [del_item getitem].
    by rewrite assoc_filter_eq.
  - rewrite getitem_del_item_ne by done. apply rsim_refl.
Qed.

Lemma sim_same {A} k (c : M A) w : sim k eq c c w.
Proof. right. split; [done|]. by destruct (c w).2. Qed.

Lemma sim_bind {A B A2 B2} k (R : A -> B -> Prop) (R2 : A2 -> B2 -> Prop)
    (c' : M A) (c : M B) f' f w :
  sim k R c' c w ->
  (forall a' a w1, R a' a -> sim k R2 (f' a') (f a) w1) ->
  sim k R2 (c' ≫= f') (c ≫= f) w.
Proof.
  unfold sim, mbind, M_bind. intros [H|[Hw H]] Hf.
  - left. destruct (c' w) as [w1 [a'|e']]; [done|]. cbn [snd] in *.
    by injection H as ->.
  - destruct (c' w) as [w1' [a'|e']], (c w) as [w1 [a|e]]; cbn [fst snd] in *;
      try done; subst.
    + by apply Hf.
    + by right.
Qed.

Lemma sim_lift {A B} k (R : A -> B -> Prop) r' r w :
  rsim k R r' r -> sim k R (lift r') (lift r) w.
Proof. intros [H|H]; [by left|by right]. Qed.

Lemma sim_ret {A B} k (R : A -> B -> Prop) a' a w :
  R a' a -> sim k R (mret a') (mret a) w.
Proof. intros H. by right. Qed.

(** Two chains of reads, side by side: the dictionaries of the first are
    read as those of the second ([reads_as] in the context). *)
Ltac co_reads :=
  repeat (cbv zeta;
          lazymatch goal with
          | |- rsim _ _ (mbind _ _) (mbind _ _) =>
              eapply rsim_bind with (R := eq);
              [ first [ apply rsim_refl
                      | match goal with
                        | H : reads_as _ _ _ |- _ => apply H
                        | H : rsim _ _ _ _ |- _ => exact H
                        end ]
              | intros ? ? ->; cbv beta ]
          | |- rsim _ _ _ _ =>
              first [ apply rsim_refl
                    | match goal with
                      | H : reads_as _ _ _ |- _ => apply H
                      | H : rsim _ _ _ _ |- _ => exact H
                      end ]
          end).

(** Two runs side by side. *)
Ltac co_run unfolds :=
  repeat (lazymatch goal with
          | |- sim _ _ (mbind _ _) (mbind _ _) _ =>
              eapply sim_bind with (R := eq);
              [| intros ? ? ? ->; cbv beta iota ]
          | |- sim _ _ (lift _) (lift _) _ =>
              apply sim_lift; unfolds; co_reads
          | |- sim _ _ (mret _) (mret _) _ => apply sim_ret; try reflexivity
          | |- sim _ _ _ _ _ => apply sim_same
          end).

Section Lacking.
Context (E : Env) (k : string).

Lemma open_read_sim config' path content w :
  fs w !! path = Some (File content) ->
  sim k (fun c' c => c' = c /\ c = content)
    (open_read (with_config E config') path) (open_read E path) w.
Proof.
  intros Hf. right. unfold open_read, mbind, M_bind, ext.
  cbn [faulty with_config].
  destruct (faulty E (length (trace w))); [done|].
  unfold get_fs. cbn [fs log]. rewrite Hf. done.
Qed.

Lemma rsim_section s key config :
  rsim k (reads_as k) (getitem (del_in s k config) key) (getitem config key).
Proof.
  right. destruct (decide (key = s)) as [->|Hne].
  - rewrite getitem_del_in_eq. destruct (getitem config s); [|done].
    apply reads_as_del_item.
  - rewrite getitem_del_in_ne by done.
    destruct (getitem config key); [|done]. apply reads_as_refl.
Qed.

Lemma rsim_top key config :
  rsim k (reads_as k) (getitem (del_item k config) key) (getitem config key).
Proof.
  pose proof (reads_as_del_item k config key) as [H|H]; [by left|right].
  destruct (getitem (del_item k config) key), (getitem config key);
    try done. subst. apply reads_as_refl.
Qed.

Section Sections.
Context (config' config : pyval) (path content : string).
Context (Hy : yaml_load E content = Ok config).
Context (Hsec : forall key,
           rsim k (reads_as k) (getitem config' key) (getitem config key)).
Context (Hname : rsim k eq (getitem config' "model_name")
                   (getitem config "model_name")).

Lemma csj_read_config_sim w :
  fs w !! path = Some (File content) ->
  sim k (read_as k) (Csj.read_config (with_config E config') path)
    (Csj.read_config E path) w.
Proof.
  intros Hf. unfold Csj.read_config.
  eapply sim_bind; [by apply open_read_sim|]. intros ? ? w1 [-> ->].
  eapply sim_bind with (R := fun c' c => c' = config' /\ c = config).
  { apply sim_lift. right. cbn [yaml_load with_config]. by rewrite Hy. }
  intros ? ? w2 [-> ->].
  do 3 (eapply sim_bind; [apply sim_lift, Hsec|]; intros ? ? ? ?).
  by apply sim_ret.
Qed.

Lemma timit_read_config_sim w :
  fs w !! path = Some (File content) ->
  sim k (read_as k) (Timit.read_config (with_config E config') path)
    (Timit.read_config E path) w.
Proof.
  intros Hf. unfold Timit.read_config.
  eapply sim_bind; [by apply open_read_sim|]. intros ? ? w1 [-> ->].
  eapply sim_bind with (R := fun c' c => c' = config' /\ c = config).
  { apply sim_lift. right. cbn [yaml_load with_config]. by rewrite Hy. }
  intros ? ? w2 [-> ->].
  do 3 (eapply sim_bind; [apply sim_lift, Hsec|]; intros ? ? ? ?).
  by apply sim_ret.
Qed.

Lemma csj_locate_sim w :
  fs w !! path = Some (File content) ->
  sim k (csj_located_as k) (Csj.locate (with_config E config') path)
    (Csj.locate E path) w.
Proof.
  intros Hf. unfold Csj.locate.
  eapply sim_bind; [by apply csj_read_config_sim|].
  intros [[[cf' c'] f'] p'] [[[cf c] f] p] w1 (Hn & Hc & Hfe & Hp).
  unfold Csj.model_setting, Csj.set_save_path.
  co_run ltac:(unfold Csj.output_size_main, Csj.output_size_second,
               Csj.model_args, Csj.make_model_name, Csj.label_types).
  done.
Qed.

Lemma timit_locate_sim w :
  fs w !! path = Some (File content) ->
  sim k (timit_located_as k) (Timit.locate (with_config E config') path)
    (Timit.locate E path) w.
Proof.
  intros Hf. unfold Timit.locate.
  eapply sim_bind; [by apply timit_read_config_sim|].
  intros [[[cf' c'] f'] p'] [[[cf c] f] p] w1 (Hn & Hc & Hfe & Hp).
  unfold Timit.model_setting, Timit.set_save_path.
  co_run ltac:(unfold Timit.output_size, Timit.model_args,
               Timit.make_model_name).
  done.
Qed.

Lemma csj_setup_sim w :
  fs w !! path = Some (File content) ->
  sim k eq (Csj.setup (with_config E config') path) (Csj.setup E path) w.
Proof.
  intros Hf. unfold Csj.setup.
  eapply sim_bind; [by apply csj_locate_sim|].
  intros [[[c' f'] p'] n'] [[[c f] p] n] w1 (Hc & Hfe & Hp & ->).
  co_run ltac:(unfold Csj.proc_title, Csj.train_args).
Qed.

Lemma timit_setup_sim w :
  fs w !! path = Some (File content) ->
  sim k eq (Timit.setup (with_config E config') path) (Timit.setup E path) w.
Proof.
  intros Hf. unfold Timit.setup.
  eapply sim_bind; [by apply timit_locate_sim|].
  intros [[[c' p'] s'] n'] [[[c p] s] n] w1 (Hc & Hp & -> & ->).
  co_run ltac:(unfold Timit.proc_title, Timit.train_args).
Qed.

Lemma csj_main_lacking w :
  fs w !! path = Some (File content) ->
  csj_complete config' = false ->
  stops_for_key k (Csj.main (with_config E config') path w) w
    (Csj.setup E path w) (Csj.main E path w).
Proof.
  intros Hf Hc. pose proof (csj_setup_sim w Hf) as Hs.
  pose proof (csj_setup_needs_keys (with_config E config') path w content
                config' Hf eq_refl) as Hk.
  unfold wp in Hk.
  assert (is_ok (Csj.setup (with_config E config') path w).2 = false) as Hno.
  { destruct (Csj.setup (with_config E config') path w).2; [|done].
    rewrite Hk in Hc; done. }
  destruct (csj_main_stops _ path w Hno) as [H1 H2].
  split; [done|]. split; [done|].
  unfold Csj.main, mbind, M_bind. destruct Hs as [Hs|[Hw Hs]].
  - left. destruct (Csj.setup (with_config E config') path w)
      as [w1 [a|e]]; [done|].
    cbn [snd] in *. by injection Hs as ->.
  - right. destruct (Csj.setup (with_config E config') path w)
      as [w1' [a'|e']]; [done|].
    destruct (Csj.setup E path w) as [w1 [a|e]]; [done|].
    cbn [fst snd] in *. by subst.
Qed.

Lemma timit_main_lacking w :
  fs w !! path = Some (File content) ->
  timit_complete config' = false ->
  stops_for_key k (Timit.main (with_config E config') path w) w
    (Timit.setup E path w) (Timit.main E path w).
Proof.
  intros Hf Hc. pose proof (timit_setup_sim w Hf) as Hs.
  pose proof (timit_setup_needs_keys (with_config E config') path w content
                config' Hf eq_refl) as Hk.
  unfold wp in Hk.
  assert (is_ok (Timit.setup (with_config E config') path w).2 = false)
    as Hno.
  { destruct (Timit.setup (with_config E config') path w).2; [|done].
    rewrite Hk in Hc; done. }
  destruct (timit_main_stops _ path w Hno) as [H1 H2].
  split; [done|]. split; [done|].
  unfold Timit.main, mbind, M_bind. destruct Hs as [Hs|[Hw Hs]].
  - left. destruct (Timit.setup (with_config E config') path w)
      as [w1 [a|e]]; [done|].
    cbn [snd] in *. by injection Hs as ->.
  - right. destruct (Timit.setup (with_config E config') path w)
      as [w1' [a'|e']]; [done|].
    destruct (Timit.setup E path w) as [w1 [a|e]]; [done|].
    cbn [fst snd] in *. by subst.
Qed.

End Sections.

Lemma getitem_dict_raise l key e :
  getitem (PDict l) key = Raise e -> e = KeyError key.
Proof. cbn [getitem]. destruct (assoc key l); congruence. Qed.

(** The first section the configuration lacks stops [main] by its
    [KeyError]. *)
Lemma csj_main_first_missing path w content l s :
  faulty E (length (trace w)) = false ->
  fs w !! path = Some (File content) ->
  yaml_load E content = Ok (PDict l) ->
  first_missing ["corpus"; "feature"; "param"] (PDict l) = Some s ->
  (Csj.main E path w).2 = Raise (KeyError s).
Proof.
  intros Hn Hf Hy Hm.
  change (wp (Csj.main E path) (fun _ r => r = Raise (KeyError s)) w).
  unfold Csj.main, Csj.setup, Csj.locate, Csj.read_config, open_read.
  do 5 apply wp_bind. apply wp_ext; intros Hn'; [congruence|].
  cbv beta iota. apply wp_bind, wp_get_fs. cbv beta iota. cbn [fs log].
  rewrite Hf. apply wp_ret. cbv beta iota. apply wp_bind, wp_lift.
  rewrite Hy. cbv beta iota. unfold first_missing, has_key in Hm.
  do 3 (apply wp_bind, wp_lift; cbn [find] in Hm;
        match goal with
        | |- match ?r with _ => _ end =>
            destruct r as [?|e] eqn:Hr; cbn [is_ok negb] in Hm;
            [ cbv beta iota; clear Hr
            | apply getitem_dict_raise in Hr; by simplify_eq ]
        end).
  discriminate Hm.
Qed.

Lemma timit_main_first_missing path w content l s :
  faulty E (length (trace w)) = false ->
  fs w !! path = Some (File content) ->
  yaml_load E content = Ok (PDict l) ->
  first_missing ["corpus"; "feature"; "param"] (PDict l) = Some s ->
  (Timit.main E path w).2 = Raise (KeyError s).
Proof.
  intros Hn Hf Hy Hm.
  change (wp (Timit.main E path) (fun _ r => r = Raise (KeyError s)) w).
  unfold Timit.main, Timit.setup, Timit.locate, Timit.read_config, open_read.
  do 5 apply wp_bind. apply wp_ext; intros Hn'; [congruence|].
  cbv beta iota. apply wp_bind, wp_get_fs. cbv beta iota. cbn [fs log].
  rewrite Hf. apply wp_ret. cbv beta iota. apply wp_bind, wp_lift.
  rewrite Hy. cbv beta iota. unfold first_missing, has_key in Hm.
  do 3 (apply wp_bind, wp_lift; cbn [find] in Hm;
        match goal with
        | |- match ?r with _ => _ end =>
            destruct r as [?|e] eqn:Hr; cbn [is_ok negb] in Hm;
            [ cbv beta iota; clear Hr
            | apply getitem_dict_raise in Hr; by simplify_eq ]
        end).
  discriminate Hm.
Qed.

Lemma rsim_name_del_in s keys (sections : list (string * list string))
    config :
  In (s, keys) sections ->
  Forall (fun sk => sk.1 <> "model_name") sections ->
  rsim k eq (getitem (del_in s k config) "model_name")
    (getitem config "model_name").
Proof.
  intros Hin Hall. rewrite getitem_del_in_ne; [apply rsim_refl|].
  intros <-. by apply (proj1 (List.Forall_forall _ _) Hall _ Hin).
Qed.

End Lacking.

(** * The claims *)

(** C10 as stated fails: with [num_proj = 0] and a bottleneck layer of 64
    units the output layer's weight matrix has 64 rows, not [num_unit]. *)
Lemma C10_bottleneck_counterexample :
  let m := LstmCtc.init LstmCtc.example_base (Some 0) (Some 64) in
  LstmCtc.num_proj m = None /\
  LstmCtc.W_output (LstmCtc.build m) = [64; 62] /\
  LstmCtc.W_output (LstmCtc.build m)
    <> [LstmCtc.num_unit LstmCtc.example_base;
        LstmCtc.num_classes LstmCtc.example_base].
Proof. repeat split. discriminate. Qed.

(** C10 (amended): [LSTM_CTC.__init__] turns [num_proj = 0] into [None], so
    the object equals the one built with [num_proj = None]; every LSTM cell
    of [_build] is created with [num_proj = None]; the RNN outputs are
    reshaped to rows of [num_unit] entries; these rows feed the output
    layer when no bottleneck layer is configured ([bottleneck_dim] is
    [None] or [0]), and otherwise they feed the bottleneck layer, whose
    [bottleneck_dim] outputs feed the output layer. *)
Theorem C10_num_proj_zero (b : LstmCtc.ctcBase) (bottleneck_dim : option Z) :
  let m := LstmCtc.init b (Some 0) bottleneck_dim in
  let g := LstmCtc.build m in
  m = LstmCtc.init b None bottleneck_dim /\
  LstmCtc.num_proj m = None /\
  Forall (fun c => LstmCtc.cell_num_proj c = None
                   /\ LstmCtc.cell_num_units c = LstmCtc.num_unit b)
         (LstmCtc.lstm_list g) /\
  length (LstmCtc.lstm_list g) = Z.to_nat (LstmCtc.num_layer b) /\
  LstmCtc.reshape_shape g = [-1; LstmCtc.num_unit b] /\
  match LstmCtc.has_bottleneck m with
  | None =>
      LstmCtc.W_bottleneck g = None /\
      LstmCtc.W_output g = [LstmCtc.num_unit b; LstmCtc.num_classes b]
  | Some d =>
      LstmCtc.W_bottleneck g = Some [LstmCtc.num_unit b; d] /\
      LstmCtc.W_output g = [d; LstmCtc.num_classes b]
  end.
Proof.
  intros m g. split; [reflexivity|]. split; [reflexivity|].
  split; [|split; [|split]].
  - subst g. unfold LstmCtc.build. cbn [LstmCtc.lstm_list].
    apply Forall_forall. intros c Hc. apply list_elem_of_In in Hc.
    apply in_map_iff in Hc as (i & <- & _). split; reflexivity.
  - subst g. unfold LstmCtc.build. cbn [LstmCtc.lstm_list].
    rewrite length_map. apply length_seq.
  - reflexivity.
  - subst g. unfold LstmCtc.build.
    cbn [LstmCtc.W_bottleneck LstmCtc.W_output].
    destruct (LstmCtc.has_bottleneck m); split; reflexivity.
Qed.

(** C4: each script accepts exactly one command-line argument.  With
    [sys.argv] of any length other than two the process ends at once, by
    [sys.exit(0)] in the CSJ script and by [ValueError] in the TIMIT
    script, and nothing of [main] is run; with two entries [main] is called
    on the second one. *)
Theorem C4_one_positional_argument (E : Env) (argv : list string) (w : world) :
  Csj.script E argv w
    = match argv with
      | [_; config_path] => Csj.main E config_path w
      | _ => (w, Raise (SystemExit 0))
      end /\
  Timit.script E argv w
    = match argv with
      | [_; config_path] => Timit.main E config_path w
      | _ => (w, Raise (ValueError ""))
      end.
Proof.
  unfold Csj.script, Timit.script.
  destruct argv as [|prog [|config_path [|extra rest]]]; split; reflexivity.
Qed.








(** The two dev computations of step 200 in a run without faults. *)
Example csj_dev_runs_in_200_steps :
  let E := Example.env PNone 400 (1 # 2) Example.no_faults in
  let net := {| model_name := "m"; model_dir := "d" |} in
  let w := (Csj.do_train E net PNone (PFloat (1 # 1000)) (PInt 2) (PInt 1)
              PNone PNone PNone PNone PNone (initial ∅)).1 in
  trace w !! 631%nat
  = Some (ERun [LossOp] (Csj.feed_dict_dev 199 199)) /\
  trace w !! 633%nat
  = Some (ERun [LerOpMain; LerOpSecond; SummaryDev]
            (Csj.evaluation_mode (Csj.feed_dict_dev 199 199))).
Proof. vm_compute. split; reflexivity. Qed.



(** C7: when the set-up of [main] succeeds, that is when [do_train] is
    called, no parameter update has happened yet, [config.yml] in the model
    directory holds the content of the given configuration file,
    [train.log] exists there and is the target of [sys.stdout], and both
    files are still there when [main] ends; when the set-up raises, [main]
    ends with that exception and without any parameter update. *)
Theorem C7_config_and_log_before_training (E : Env) (config_path : string)
    (w : world) :
  match Csj.setup E config_path w with
  | (w1, Ok (network, _)) =>
      updates (trace w1) = updates (trace w) /\
      ready config_path network w1 /\
      has_config_and_log network (Csj.main E config_path w).1
  | (w1, Raise e) =>
      Csj.main E config_path w = (w1, Raise e) /\
      updates (trace w1) = updates (trace w)
  end /\
  match Timit.setup E config_path w with
  | (w1, Ok (network, _)) =>
      updates (trace w1) = updates (trace w) /\
      ready config_path network w1 /\
      has_config_and_log network (Timit.main E config_path w).1
  | (w1, Raise e) =>
      Timit.main E config_path w = (w1, Raise e) /\
      updates (trace w1) = updates (trace w)
  end.
Proof.
  split.
  - pose proof (csj_setup_spec E config_path w) as Hs.
    unfold wp in Hs. unfold Csj.main, mbind, M_bind.
    destruct (Csj.setup E config_path w) as [w1 [[network a]|e]];
      cbn [fst snd] in Hs; [|by destruct Hs].
    destruct Hs as [Hu Hr]. split; [done|]. split; [done|].
    apply ready_has_config_and_log in Hr.
    match goal with
    | |- context [Csj.do_train ?E ?n ?a1 ?a2 ?a3 ?a4 ?a5 ?a6 ?a7 ?a8 ?a9 ?w] =>
        pose proof (csj_do_train_outcome E n a2 a1 a3 a4 a5 a6 a7 a8 a9 w) as H;
        unfold wp in H;
        destruct (Csj.do_train E n a1 a2 a3 a4 a5 a6 a7 a8 a9 w) as [w2 [[]|e]]
    end; cbn [fst snd] in H |- *.
    + destruct H as (_ & _ & _ & _ & _ & _ & _ & Hfs & _).
      unfold put_stdout. cbn [fst]. by eapply has_config_and_log_complete.
    + destruct H as [Hfs _]. unfold has_config_and_log in *. by rewrite Hfs.
  - pose proof (timit_setup_spec E config_path w) as Hs.
    unfold wp in Hs. unfold Timit.main, mbind, M_bind.
    destruct (Timit.setup E config_path w) as [w1 [[network a]|e]];
      cbn [fst snd] in Hs; [|by destruct Hs].
    destruct Hs as [Hu Hr]. split; [done|]. split; [done|].
    apply ready_has_config_and_log in Hr.
    match goal with
    | |- context [Timit.do_train ?E ?n ?a1 ?a2 ?a3 ?a4 ?a5 ?a6 ?w] =>
        pose proof (timit_do_train_outcome E n a2 a5 a1 a3 a4 a6 w) as H;
        unfold wp in H;
        destruct (Timit.do_train E n a1 a2 a3 a4 a5 a6 w) as [w2 [[]|e]]
    end; cbn [fst snd] in H |- *.
    + destruct H as (_ & _ & _ & _ & _ & _ & _ & Hfs & _).
      unfold put_stdout. cbn [fst]. by eapply has_config_and_log_complete.
    + destruct H as [Hfs _]. unfold has_config_and_log in *. by rewrite Hfs.
Qed.




(** C9: the exports of a run of [do_train] are, in order, the calls listed
    by [timit_exports] and [csj_exports] (all of them when the run returns,
    the first [k] when it raises).  In [train_attention.py] the dev argument
    of [save_ler] is [csv_loss_dev], whose entries are fetches of the loss
    with the dev dictionary, next to the training LER; in
    [train_multitask_ctc.py] the first [save_ler] pairs the main-task
    training LER with the second-task dev LER.  The dev LER of
    [train_attention.py] and the main-task dev LER of
    [train_multitask_ctc.py] are collected, one entry per logged step, and
    none of their entries is handed to an export. *)
Theorem C9_exports_pair_mismatched_series (E : Env) (network : Network) :
  (forall opt lr bs en lt eos w,
     let run := Timit.do_train E network opt lr bs en lt eos w in
     exists l k,
       exported (timit_exports network l) k w run /\
       timit_series (trace run.1) l /\
       never_exported (Timit.csv_ler_dev l) (timit_exports network l)) /\
  (forall opt lr bs en lm ls ns nk tds w,
     let run := Csj.do_train E network opt lr bs en lm ls ns nk tds w in
     exists l k,
       exported (csj_exports network l) k w run /\
       csj_series (trace run.1) l /\
       never_exported (Csj.csv_ler_main_dev l) (csj_exports network l)).
Proof.
  split.
  - intros opt lr bs en lt eos w run.
    destruct (timit_do_train_exports E network lr lt opt bs en eos w)
      as (l & k & Hex & Hs).
    exists l, k. split; [|split; [done|]].
    + subst run. by destruct (Timit.do_train _ _ _ _ _ _ _ _ _).
    + by eapply timit_dev_ler_never_exported.
  - intros opt lr bs en lm ls ns nk tds w run.
    destruct (csj_do_train_exports E network lr opt bs en lm ls ns nk tds w)
      as (l & k & Hex & Hs).
    exists l, k. split; [|split; [done|]].
    + subst run. by destruct (Csj.do_train _ _ _ _ _ _ _ _ _ _ _ _).
    + by eapply csj_main_dev_never_exported.
Qed.

(** The exports of a run of ten steps of [train_attention.py]. *)
Example timit_export_after_ten_steps :
  let E := Example.env PNone 20 (1 # 2) Example.no_faults in
  let net := {| model_name := "m"; model_dir := "d" |} in
  let run := Timit.do_train E net PNone (PFloat (1 # 1000)) (PInt 2) (PInt 1)
               PNone 0 (initial ∅) in
  exports (trace run.1)
  = [ESaveLoss [9] [VFetch 63 0] [VFetch 64 0] "d";
     ESaveLer [9] [VFetch 74 0] [VFetch 64 0] "d"] /\
  trace run.1 !! 64%nat = Some (ERun [LossOp] (Timit.feed_dict_dev 9)) /\
  trace run.1 !! 74%nat
  = Some (ERun [LerOp]
            (Timit.feed_dict_ler (VYield MiniBatchTrain 9 1) (VFetch 65 0))) /\
  trace run.1 !! 75%nat
  = Some (ERun [LerOp]
            (Timit.feed_dict_ler (VYield MiniBatchDev 9 1) (VFetch 66 0))).
Proof. vm_compute. repeat split. Qed.

(** C6, as stated, fails: the configuration lacks [num_epoch], which
    [main] reads last, and the model directory holds [complete.txt] from an
    earlier run; the run ends by [ValueError('File exists.')], not by a
    [KeyError]. *)
Lemma C6_value_error_counterexample :
  let config := Example.csj_config [] in
  let E := Example.env config 2 (1 # 2) Example.no_faults in
  let w := initial (Example.files_completed Example.csj_dir) in
  fs w !! "config.yml" = Some (File "yaml") /\
  yaml_load E "yaml" = Ok config /\
  csj_complete config = false /\
  has_keys config "param" ["num_epoch"] = false /\
  (Csj.main E "config.yml" w).2 = Raise (ValueError "File exists.").
Proof. vm_compute. repeat split; reflexivity. Qed.

(** C6 (amended).  [main] of both scripts reads the configuration by plain
    subscripts, with no default and no handler.  When the file at
    [config_path] loads as a configuration that lacks one of the keys [main]
    reads, the run of [main] ends by an exception and no parameter update
    has been run.  A subscript on a dictionary without the key raises the
    [KeyError] of that key.  When the call of [open] succeeds and the
    configuration is a dictionary, the first of the sections [corpus],
    [feature] and [param] that it lacks ends the run by its [KeyError].
    For every key [main] reads, in a section or in the configuration
    itself, the run on the configuration without that key stops before
    training, and it ends by the [KeyError] of that key unless the set-up
    on the configuration itself fails and both runs end alike, in the same
    world by the same exception: an earlier statement raised first.  So
    when the set-up on the configuration goes through, the run on the
    configuration without the key ends by the [KeyError] of the key. *)
Theorem C6_missing_key_stops_before_training
    (E : Env) (config_path content : string) (config : pyval) (w : world)
    (Hfile : fs w !! config_path = Some (File content))
    (Hload : yaml_load E content = Ok config) :
  (csj_complete config = false ->
   is_ok (Csj.main E config_path w).2 = false /\
   updates (trace (Csj.main E config_path w).1) = updates (trace w)) /\
  (timit_complete config = false ->
   is_ok (Timit.main E config_path w).2 = false /\
   updates (trace (Timit.main E config_path w).1) = updates (trace w)) /\
  (forall l k, assoc k l = None -> getitem (PDict l) k = Raise (KeyError k)) /\
  (forall l s, config = PDict l ->
     faulty E (length (trace w)) = false ->
     first_missing ["corpus"; "feature"; "param"] config = Some s ->
     (Csj.main E config_path w).2 = Raise (KeyError s) /\
     (Timit.main E config_path w).2 = Raise (KeyError s)) /\
  (forall section keys k,
     In (section, keys) csj_sections -> In k keys ->
     stops_for_key k
       (Csj.main (with_config E (del_in section k config)) config_path w) w
       (Csj.setup E config_path w) (Csj.main E config_path w)) /\
  (forall section keys k,
     In (section, keys) timit_sections -> In k keys ->
     stops_for_key k
       (Timit.main (with_config E (del_in section k config)) config_path w) w
       (Timit.setup E config_path w) (Timit.main E config_path w)) /\
  (forall k, In k top_level_keys ->
     stops_for_key k
       (Csj.main (with_config E (del_item k config)) config_path w) w
       (Csj.setup E config_path w) (Csj.main E config_path w) /\
     stops_for_key k
       (Timit.main (with_config E (del_item k config)) config_path w) w
       (Timit.setup E config_path w) (Timit.main E config_path w)).
Proof.
  split; [|split; [|split; [|split; [|split; [|split]]]]].
  - intros Hc. apply csj_main_stops.
    pose proof (csj_setup_needs_keys E config_path w content config Hfile Hload)
      as H.
    unfold wp in H. destruct (Csj.setup E config_path w).2; [|done].
    rewrite H in Hc; done.
  - intros Hc. apply timit_main_stops.
    pose proof (timit_setup_needs_keys E config_path w content config Hfile
                  Hload) as H.
    unfold wp in H. destruct (Timit.setup E config_path w).2; [|done].
    rewrite H in Hc; done.
  - apply getitem_missing.
  - intros l s -> Hn Hm. split.
    + by eapply csj_main_first_missing.
    + by eapply timit_main_first_missing.
  - intros s keys k Hs Hk.
    apply (csj_main_lacking E k _ config config_path content Hload);
      [intros key; apply rsim_section| |done|by eapply csj_complete_del_in].
    eapply rsim_name_del_in; [exact Hs|]. by repeat constructor.
  - intros s keys k Hs Hk.
    apply (timit_main_lacking E k _ config config_path content Hload);
      [intros key; apply rsim_section| |done|by eapply timit_complete_del_in].
    eapply rsim_name_del_in; [exact Hs|]. by repeat constructor.
  - intros k Hk. split.
    + apply (csj_main_lacking E k _ config config_path content Hload);
        [intros key; apply rsim_top|apply reads_as_del_item|done
        |by apply csj_complete_del_item].
    + apply (timit_main_lacking E k _ config config_path content Hload);
        [intros key; apply rsim_top|apply reads_as_del_item|done
        |by apply timit_complete_del_item].
Qed.

(** The configuration without [num_epoch], on a fresh file system: both
    scripts stop before the first update; and the complete configuration
    of the example with [num_epoch] deleted ends the run by
    [KeyError('num_epoch')]. *)
Lemma C6_witness :
  let w := initial Example.files0 in
  let E := Example.env (Example.csj_config []) 2 (1 # 2) Example.no_faults in
  let config := Example.csj_config [("num_epoch", PInt 1)] in
  (is_ok (Csj.main E "config.yml" w).2 = false /\
   updates (trace (Csj.main E "config.yml" w).1) = updates (trace w)) /\
  (Csj.main (with_config Example.csj_env (del_in "param" "num_epoch" config))
     "config.yml" w).2 = Raise (KeyError "num_epoch").
Proof.
  intros w E config. split.
  - refine (proj1 (C6_missing_key_stops_before_training E "config.yml" "yaml"
                     (Example.csj_config []) w _ _) _);
      vm_compute; reflexivity.
  - destruct (C6_missing_key_stops_before_training Example.csj_env
                "config.yml" "yaml" config w eq_refl eq_refl)
      as (_ & _ & _ & _ & H & _).
    destruct (H "param" _ "num_epoch"
                ltac:(right; right; left; reflexivity)
                ltac:(repeat (first [left; reflexivity | right])))
      as (_ & _ & [Hk|[Hs _]]); [exact Hk|].
    vm_compute in Hs. discriminate Hs.
Defined.

(** * Further properties *)

(** ** The graph of [LSTM_CTC._build] *)

(** X1.  For every configuration of the model, the rows [_build] reshapes
    the RNN outputs to pass through the affine layers it creates (the
    bottleneck layer when there is one, then the output layer): each weight
    matrix has as many rows as its input has columns, each bias matches its
    weight, and the logits have [num_classes] columns. *)
Theorem build_layers_fit (self : LstmCtc.LSTM_CTC) :
  exists n,
    LstmCtc.reshape_shape (LstmCtc.build self) = [-1; n] /\
    feeds_through n (affine_layers (LstmCtc.build self))
    = Some (LstmCtc.num_classes (LstmCtc.base self)).
Proof.
  destruct self as [b p d]. unfold LstmCtc.build, affine_layers.
  cbn [LstmCtc.reshape_shape LstmCtc.W_bottleneck LstmCtc.b_bottleneck
       LstmCtc.W_output LstmCtc.b_output LstmCtc.num_proj LstmCtc.base].
  eexists. split; [reflexivity|].
  destruct (LstmCtc.has_bottleneck _) as [k|]; cbn;
    rewrite ?Z.eqb_refl; cbn; rewrite ?Z.eqb_refl; reflexivity.
Qed.

(** X2.  [__init__] stores [bottleneck_dim] as given, also when it is [0],
    but [_build] treats [0] like [None]: the graph is the one built without
    a bottleneck.  A non-zero [bottleneck_dim] adds the bottleneck layer,
    whose [bottleneck_dim] columns are the rows of the output layer. *)
Theorem bottleneck_dim_zero_builds_no_bottleneck
    (b : LstmCtc.ctcBase) (num_proj : option Z) (d : Z) :
  let m := LstmCtc.init b num_proj (Some d) in
  let g := LstmCtc.build m in
  LstmCtc.bottleneck_dim m = Some d /\
  (d = 0 -> g = LstmCtc.build (LstmCtc.init b num_proj None)) /\
  (d <> 0 ->
   exists n,
     LstmCtc.reshape_shape g = [-1; n] /\
     LstmCtc.W_bottleneck g = Some [n; d] /\
     LstmCtc.b_bottleneck g = Some [d] /\
     LstmCtc.W_output g = [d; LstmCtc.num_classes b]).
Proof.
  intros m g. split; [reflexivity|]. split.
  - intros ->. reflexivity.
  - intros Hd. subst g m. unfold LstmCtc.build, LstmCtc.has_bottleneck.
    cbn [LstmCtc.bottleneck_dim LstmCtc.init LstmCtc.reshape_shape
         LstmCtc.W_bottleneck LstmCtc.b_bottleneck LstmCtc.W_output
         LstmCtc.base].
    destruct (Z.eqb_spec d 0) as [|_]; [done|].
    eexists. repeat split.
Qed.

(** X3.  With a non-zero [num_proj] every LSTM cell of [_build] gets the
    projection layer of [num_proj] units, and the RNN outputs are reshaped
    to rows of [num_proj] entries, not [num_unit]. *)
Theorem num_proj_sets_output_width
    (b : LstmCtc.ctcBase) (p : Z) (bottleneck_dim : option Z) :
  p <> 0 ->
  let m := LstmCtc.init b (Some p) bottleneck_dim in
  let g := LstmCtc.build m in
  LstmCtc.num_proj m = Some p /\
  Forall (fun c => LstmCtc.cell_num_proj c = Some p /\
                   LstmCtc.cell_num_units c = LstmCtc.num_unit b)
         (LstmCtc.lstm_list g) /\
  LstmCtc.reshape_shape g = [-1; p] /\
  hd_error (affine_layers g)
  = Some (match LstmCtc.has_bottleneck m with
          | Some d => ([p; d], [d])
          | None => ([p; LstmCtc.num_classes b], [LstmCtc.num_classes b])
          end).
Proof.
  intros Hp m g.
  assert (LstmCtc.num_proj m = Some p) as Hm.
  { subst m. cbn. by destruct (Z.eqb_spec p 0). }
  split; [done|]. subst g. unfold LstmCtc.build, affine_layers.
  cbn [LstmCtc.lstm_list LstmCtc.reshape_shape LstmCtc.W_bottleneck
       LstmCtc.b_bottleneck LstmCtc.W_output LstmCtc.b_output].
  rewrite Hm. split; [|split; [done|]].
  - apply Forall_forall. intros c Hc%list_elem_of_In.
    apply in_map_iff in Hc as (i & <- & _).
    split; [exact Hm|reflexivity].
  - by destruct (LstmCtc.has_bottleneck m).
Qed.

Lemma num_proj_sets_output_width_witness :
  LstmCtc.reshape_shape
    (LstmCtc.build (LstmCtc.init LstmCtc.example_base (Some 128) None))
  = [-1; 128].
Proof.
  destruct (num_proj_sets_output_width LstmCtc.example_base 128 None)
    as (_ & _ & H & _); [done|exact H].
Defined.

(** X4.  [_build] creates [num_layer] cells (none when [num_layer] is not
    positive); the cell of layer [i], counted from 0, is created in the name
    scope [lstm_hidden] followed by [i + 1]; no two layers share a name
    scope, and all cells have the same settings. *)
Theorem lstm_layers_named_apart (self : LstmCtc.LSTM_CTC) :
  let cells := LstmCtc.lstm_list (LstmCtc.build self) in
  length cells = Z.to_nat (LstmCtc.num_layer (LstmCtc.base self)) /\
  (forall i c, cells !! i = Some c ->
     LstmCtc.name_scope c = "lstm_hidden" +:+ pretty (Z.of_nat i + 1)) /\
  (forall i j c c', cells !! i = Some c -> cells !! j = Some c' ->
     (LstmCtc.name_scope c = LstmCtc.name_scope c' -> i = j) /\
     same_cell_settings c c').
Proof.
  intros cells.
  assert (forall i c, cells !! i = Some c -> c = LstmCtc.lstm_cell self i) as Hc.
  { intros i c. subst cells. unfold LstmCtc.build. cbn [LstmCtc.lstm_list].
    rewrite list_lookup_fmap. intros H.
    destruct (seq _ _ !! i) as [k|] eqn:Hk; [|done].
    apply lookup_seq in Hk as [-> _]. by injection H as <-. }
  split; [|split].
  - subst cells. unfold LstmCtc.build. cbn [LstmCtc.lstm_list].
    by rewrite length_map, length_seq.
  - intros i c ->%Hc. reflexivity.
  - intros i j c c' ->%Hc ->%Hc. split; [|by repeat split].
    cbn [LstmCtc.lstm_cell LstmCtc.name_scope].
    intros H%String.app_inj%(inj pretty). lia.
Qed.

(** ** [do_train] outside its loop *)







(** X8.  In every run of [do_train] of either script, with or without
    failing library calls, the parameter updates are fed, in order, the
    training dictionaries of the steps [0], [1], ...: the update of step [i]
    gets the [i]-th tuple of the training generator (each tuple once, none
    skipped), the network's own dropout ratios and the learning rate; the
    switch to evaluation mode at a logged step never reaches an update.  A
    run that returns has run exactly [max_steps] updates. *)
Theorem updates_fed_in_order (E : Env) (network : Network)
    (optimizer learning_rate batch_size epoch_num label_type_main
     label_type_second num_stack num_skip train_data_size label_type : pyval)
    (eos_index : Z) (w : world) :
  updates_in_order (Csj.feed_dict_train learning_rate)
    (Csj.steps E batch_size epoch_num) w
    (Csj.do_train E network optimizer learning_rate batch_size epoch_num
       label_type_main label_type_second num_stack num_skip train_data_size w)
  /\
  updates_in_order (Timit.feed_dict_train learning_rate)
    (Timit.steps E batch_size epoch_num) w
    (Timit.do_train E network optimizer learning_rate batch_size epoch_num
       label_type eos_index w).
Proof.
  split.
  - pose proof (csj_do_train_updates E network learning_rate optimizer
                  batch_size epoch_num label_type_main label_type_second
                  num_stack num_skip train_data_size w) as H.
    unfold wp in H. by destruct (Csj.do_train _ _ _ _ _ _ _ _ _ _ _ _).
  - pose proof (timit_do_train_updates E network learning_rate optimizer
                  batch_size epoch_num label_type eos_index w) as H.
    unfold wp in H. by destruct (Timit.do_train _ _ _ _ _ _ _ _ _).
Qed.

(** X9.  In every run of [do_train], with or without failing library
    calls: the csv steps are the values of [step] with
    [(step + 1) % 200 == 0] (CSJ) or [(step + 1) % 10 == 0] (TIMIT) below
    [max_steps], that is 199, 399, ... and 9, 19, ...; every call of
    [save_loss] and [save_ler] gets exactly these steps together with two
    series that have one entry per step; and every [add_summary] is written
    with a [global_step] that is one more than one of these csv steps (the
    csv rows are numbered from step 0, the summaries from step 1). *)
Theorem csv_rows_every_logged_step (E : Env) (network : Network)
    (optimizer learning_rate batch_size epoch_num label_type_main
     label_type_second num_stack num_skip train_data_size label_type : pyval)
    (eos_index : Z) (w : world) :
  (forall ipe max_steps,
     Csj.steps E batch_size epoch_num = Ok (ipe, max_steps) ->
     extends (logs_rows (logged_steps 200 max_steps)) w
       (Csj.do_train E network optimizer learning_rate batch_size epoch_num
          label_type_main label_type_second num_stack num_skip train_data_size
          w).1) /\
  (forall ipe max_steps,
     Timit.steps E batch_size epoch_num = Ok (ipe, max_steps) ->
     extends (logs_rows (logged_steps 10 max_steps)) w
       (Timit.do_train E network optimizer learning_rate batch_size epoch_num
          label_type eos_index w).1).
Proof.
  split; intros ipe max_steps Hs; rewrite <- logged_to_nat by done.
  - by eapply (csj_do_train_rows E network learning_rate).
  - by eapply (timit_do_train_rows E network learning_rate).
Qed.

(** The csv steps of 1000 steps of the CSJ script and of 35 steps of the
    TIMIT script. *)
Example logged_steps_examples :
  logged_steps 200 1000 = [199; 399; 599; 799; 999] /\
  logged_steps 10 35 = [9; 19; 29].
Proof. split; reflexivity. Qed.

(** X10.  Every library call of a run of [train_multitask_ctc.do_train],
    with or without failing calls, is of one of these kinds.  A [sess.run]
    is the initialisation, or fetches [train_op] or the loss with the
    training dictionary of a step, or the loss with the dev dictionary of a
    step, or the two LERs and a summary with one of these dictionaries
    switched to evaluation mode; the decoding operations are never
    fetched.  The only evaluation is [do_eval_cer] with the main decoder on
    the dev set ([do_eval_per] and the eval sets are never used); every
    checkpoint goes to [model.ckpt] in the model directory; the exports go
    to the model directory; the only file opened is [complete.txt], for
    writing; no file is tested, copied or deleted and no directory is
    made. *)
Theorem csj_do_train_library_calls (E : Env) (network : Network)
    (optimizer learning_rate batch_size epoch_num label_type_main
     label_type_second num_stack num_skip train_data_size : pyval)
    (w : world) :
  extends (csj_does learning_rate network) w
    (Csj.do_train E network optimizer learning_rate batch_size epoch_num
       label_type_main label_type_second num_stack num_skip train_data_size
       w).1.
Proof. apply csj_do_train_does. Qed.

(** X11.  Every library call of a run of [train_attention.do_train], with
    or without failing calls, is of one of these kinds.  A [sess.run] is
    the initialisation, or fetches [train_op] or the loss with the training
    dictionary of a step, or the loss with the dev dictionary of a step, or
    [decode_op_infer] and a summary with one of these dictionaries switched
    to evaluation mode, or the LER with the true labels of a tuple of one
    of the generators and a fetched prediction; [decode_op_train] is never
    fetched.  An evaluation is [do_eval_cer] when the label type is
    [character] and [do_eval_per] with [ler_op] otherwise, with
    [decode_op_infer], on the dev or the test set.  Checkpoints, exports
    and files are as in the CSJ script. *)
Theorem timit_do_train_library_calls (E : Env) (network : Network)
    (optimizer learning_rate batch_size epoch_num label_type : pyval)
    (eos_index : Z) (w : world) :
  extends (timit_does learning_rate label_type network) w
    (Timit.do_train E network optimizer learning_rate batch_size epoch_num
       label_type eos_index w).1.
Proof. apply timit_do_train_does. Qed.

(** X12.  In every run of [do_train] of either script, a [sess.run] that
    fetches [train_op] or the loss, for the training and for the dev
    batch, is fed the dropout ratios of the network as keep probabilities:
    the logged losses are computed with dropout active.  A [sess.run] that
    fetches the LER of the CSJ script or the decoded labels of the TIMIT
    script is fed [1.0] for both keep probabilities. *)
Theorem losses_computed_with_dropout (E : Env) (network : Network)
    (optimizer learning_rate batch_size epoch_num label_type_main
     label_type_second num_stack num_skip train_data_size label_type : pyval)
    (eos_index : Z) (w : world) :
  extends dropout_by_fetch w
    (Csj.do_train E network optimizer learning_rate batch_size epoch_num
       label_type_main label_type_second num_stack num_skip train_data_size
       w).1 /\
  extends dropout_by_fetch w
    (Timit.do_train E network optimizer learning_rate batch_size epoch_num
       label_type eos_index w).1.
Proof.
  split.
  - eapply extends_impl; [apply csj_does_dropout|apply csj_do_train_does].
  - eapply extends_impl; [apply timit_does_dropout|apply timit_do_train_does].
Qed.

(** X13.  In every run of [train_attention.do_train], with or without
    failing library calls, an evaluation on the test set happens only right
    after an evaluation on the dev set of the same run, with the same
    function and operations, whose error rate is strictly below 1 and
    strictly below the error rate of every earlier dev evaluation of the
    run: the test set is evaluated only on a new best dev score, and never
    for a model whose dev error rate stays at 1 or above. *)
Theorem timit_test_only_on_best_dev (E : Env) (network : Network)
    (optimizer learning_rate batch_size epoch_num label_type : pyval)
    (eos_index : Z) (w : world) :
  each_since (length (trace w)) (after_best_dev E (length (trace w)))
    (trace (Timit.do_train E network optimizer learning_rate batch_size
              epoch_num label_type eos_index w).1).
Proof. apply timit_do_train_tests. Qed.

(** Ten epochs of one step with a dev error rate of 1/2: the first dev
    evaluation is followed by the test evaluation. *)
Example timit_test_after_first_dev :
  let E := Example.env PNone 2 (1 # 2) Example.no_faults in
  let net := {| model_name := "m"; model_dir := "d" |} in
  let run := Timit.do_train E net PNone (PFloat (1 # 1000)) (PInt 2) (PInt 10)
               (PStr "phone61") 62 (initial ∅) in
  List.filter (fun ev => is_dev_eval ev || is_test_eval ev) (trace run.1)
  = [EDoEvalPer DecodeOpInfer LerOp DevData;
     EDoEvalPer DecodeOpInfer LerOp TestData].
Proof. vm_compute. reflexivity. Qed.

(** X14.  In every run of [train_attention.do_train], with or without
    failing library calls, each [sess.run] of [ler_op] is fed the true
    labels of a tuple of the training or of the dev generator together with
    the labels that an earlier [sess.run] decoded, in
    evaluation mode, from the dictionary of that same tuple: the training
    LER and the dev LER are each computed on their own batch. *)
Theorem timit_ler_on_own_batch (E : Env) (network : Network)
    (optimizer learning_rate batch_size epoch_num label_type : pyval)
    (eos_index : Z) (w : world) :
  each_since (length (trace w)) (ler_of_own_batch learning_rate)
    (trace (Timit.do_train E network optimizer learning_rate batch_size
              epoch_num label_type eos_index w).1).
Proof. apply timit_do_train_ler, each_since_start. Qed.


(** A run of the CSJ script in which the first [DataSet] of [do_train]
    raises: [sys.stdout] is left on [train.log]. *)
Example stdout_left_on_train_log :
  let E := Example.env (Example.csj_config [("num_epoch", PInt 1)]) 2 (1 # 2)
             (fun n => bool_decide (n = 13%nat)) in
  let run := Csj.main E "config.yml" (initial Example.files0) in
  run.2 = Raise (ExternalError 13) /\
  last (trace run.1)
  = Some (EOpen (join Example.csj_dir "train.log") "w") /\
  stdout run.1 = Some (join Example.csj_dir "train.log").
Proof. vm_compute. repeat split. Qed.

(** X16.  When [config_path] is not a file, [main] of either script ends
    at [open(config_path)]: it raises the [IOError] of that path and has
    done nothing else (the exception of the library when the call itself
    fails): no directory is made and nothing is deleted. *)
Theorem missing_config_file (E : Env) (config_path : string) (w : world) :
  isfile config_path (fs w) = false ->
  let after :=
    if faulty E (length (trace w))
    then (w, Raise (ExternalError (length (trace w))))
    else (log (EOpen config_path "r") w, Raise (IOError config_path)) in
  Csj.main E config_path w = after /\ Timit.main E config_path w = after.
Proof.
  intros Hf after. subst after.
  unfold Csj.main, Csj.setup, Csj.locate, Csj.read_config, Timit.main,
    Timit.setup, Timit.locate, Timit.read_config, open_read, ext, get_fs,
    raise, mbind, M_bind.
  unfold isfile in Hf.
  destruct (faulty E (length (trace w))); [done|]. cbn [fs log].
  by destruct (fs w !! config_path) as [[|c]|].
Qed.

Lemma missing_config_file_witness :
  Csj.main Example.csj_env "nowhere.yml" (initial Example.files0)
  = (log (EOpen "nowhere.yml" "r") (initial Example.files0),
     Raise (IOError "nowhere.yml")).
Proof.
  refine (proj1 (missing_config_file Example.csj_env "nowhere.yml"
                   (initial Example.files0) _)).
  reflexivity.
Defined.

(** X17.  "Reset model directory", in every run, with or without failing
    library calls: a path that is neither the model directory nor below it
    is left as it was; when the block returns, [complete.txt] was not in
    the directory, the directory exists and nothing is left below it (the
    checkpoints and logs of an earlier, interrupted run are gone); when it
    raises [ValueError], [complete.txt] was there and no file changed. *)
Theorem reset_touches_only_the_model_directory (E : Env) (dir : string)
    (w : world) :
  let run := reset_model_directory E dir w in
  reset_leaves dir (fs w) (fs run.1) run.2.
Proof. apply reset_model_directory_leaves. Qed.

(** X18.  When the configuration file given to [main] lies in the model
    directory (as the [config.yml] saved by an earlier run does) and that
    directory exists without [complete.txt], "Reset model directory"
    deletes the configuration file together with the directory, so that
    "Save config file" cannot succeed: in a run without failing library
    calls [main] ends before any training, by the [IOError] of
    [config_path] when the process title can be built and by the exception
    of building it otherwise, and the configuration file is gone. *)
Theorem config_file_inside_model_directory (E : Env) (config_path : string)
    (w : world) :
  (forall n, faulty E n = false) ->
  (forall corpus feature param network,
     let w1 := (Csj.locate E config_path w).1 in
     let run := Csj.main E config_path w in
     (Csj.locate E config_path w).2 = Ok (corpus, feature, param, network) ->
     below (model_dir network) config_path = true ->
     fs w1 !! model_dir network <> None ->
     isfile (join (model_dir network) "complete.txt") (fs w1) = false ->
     run.2 = Raise (match Csj.proc_title corpus with
                    | Ok _ => IOError config_path
                    | Raise e => e
                    end) /\
     updates (trace run.1) = updates (trace w) /\
     fs run.1 = emptied (model_dir network) (fs w1) /\
     isfile config_path (fs run.1) = false) /\
  (forall corpus param size network,
     let w1 := (Timit.locate E config_path w).1 in
     let run := Timit.main E config_path w in
     (Timit.locate E config_path w).2 = Ok (corpus, param, size, network) ->
     below (model_dir network) config_path = true ->
     fs w1 !! model_dir network <> None ->
     isfile (join (model_dir network) "complete.txt") (fs w1) = false ->
     run.2 = Raise (match Timit.proc_title corpus with
                    | Ok _ => IOError config_path
                    | Raise e => e
                    end) /\
     updates (trace run.1) = updates (trace w) /\
     fs run.1 = emptied (model_dir network) (fs w1) /\
     isfile config_path (fs run.1) = false).
Proof.
  intros Hnf.
  assert (forall dir files, below dir config_path = true ->
            isfile config_path (emptied dir files) = false) as Hgone.
  { intros dir files Hb. unfold isfile, emptied.
    destruct (decide (config_path = dir)) as [->|Hne].
    - by rewrite lookup_insert_eq.
    - by rewrite lookup_insert_ne, lookup_removed. }
  split.
  - intros corpus feature param network w1 run Hloc Hb Hd Hc.
    destruct (csj_setup_config_inside E Hnf config_path w corpus feature
                param network Hloc Hb Hd Hc) as (w' & Hs & Hfs).
    pose proof (csj_setup_spec E config_path w) as [Hu _].
    subst run. unfold Csj.main, mbind, M_bind. rewrite Hs in Hu |- *.
    cbn [fst snd] in *. rewrite Hfs. split; [done|]. split; [done|].
    split; [done|]. by apply Hgone.
  - intros corpus param size network w1 run Hloc Hb Hd Hc.
    destruct (timit_setup_config_inside E Hnf config_path w corpus param
                size network Hloc Hb Hd Hc) as (w' & Hs & Hfs).
    pose proof (timit_setup_spec E config_path w) as [Hu _].
    subst run. unfold Timit.main, mbind, M_bind. rewrite Hs in Hu |- *.
    cbn [fst snd] in *. rewrite Hfs. split; [done|]. split; [done|].
    split; [done|]. by apply Hgone.
Qed.

(** The CSJ script started on the [config.yml] that an interrupted run left
    in the model directory. *)
Lemma config_file_inside_model_directory_witness :
  let path := join Example.csj_dir "config.yml" in
  let files : gmap string node := {[ path := File "yaml" ]} in
  let run := Csj.main Example.csj_env path (initial files) in
  run.2 = Raise (IOError path) /\ isfile path (fs run.1) = false.
Proof.
  intros path files run.
  destruct (config_file_inside_model_directory Example.csj_env path
              (initial files)) as [H _]; [done|].
  edestruct H as (H1 & _ & _ & H3);
    [vm_compute; reflexivity|vm_compute; reflexivity
    |vm_compute; discriminate|vm_compute; reflexivity|].
  split; [exact H1|exact H3].
Defined.



(** X20.  When [corpus['label_type']] of the configuration read by
    [train_attention.main] is none of ['phone61'], ['phone48'],
    ['phone39'] and ['character'], [output_size] is never assigned and
    [main] ends by an exception while evaluating the arguments of
    [BLSTMAttetion]: no directory is made, nothing is deleted,
    [sys.stdout] is not redirected and nothing is trained.  When no library
    call fails and the other arguments can be read, the exception is the
    [UnboundLocalError] of [output_size]. *)
Theorem timit_unsupported_label_type (E : Env) (config_path : string)
    (w : world) (config corpus feature param v : pyval) :
  (Timit.read_config E config_path w).2 = Ok (config, corpus, feature, param) ->
  getitem corpus "label_type" = Ok v ->
  eq_str v "phone61" = false -> eq_str v "phone48" = false ->
  eq_str v "phone39" = false -> eq_str v "character" = false ->
  ends_unbound E "output_size"
    (Timit.model_args feature param (Some 63) = Ok tt)
    w (Timit.main E config_path w).
Proof.
  intros Hrc Hv H1 H2 H3 H4.
  pose proof (timit_locate_unbound E config_path w _ _ _ _ _ Hrc Hv H1 H2 H3 H4)
    as H.
  unfold wp in H. unfold ends_unbound, Timit.main, Timit.setup, mbind, M_bind.
  destruct (Timit.locate E config_path w) as [w1 [?|e]]; cbn [fst snd] in *;
    [by destruct H|].
  destruct H as (_ & Hi & Hex). split; [done|]. split; [done|].
  intros Hnf Ho. specialize (Hex Hnf Ho). congruence.
Qed.

Lemma timit_unsupported_label_type_witness :
  let config :=
    PDict [ ("model_name", PStr "blstm_attention");
            ("corpus", PDict [ ("label_type", PStr "phone") ]);
            ("feature", PDict [ ("input_size", PInt 123) ]);
            ("param", Example.timit_param [("num_epoch", PInt 1)]) ] in
  let E := Example.env config 2 (1 # 2) Example.no_faults in
  (Timit.main E "config.yml" (initial Example.files0)).2
  = Raise (UnboundLocalError "output_size").
Proof.
  intros config E.
  edestruct (timit_unsupported_label_type E "config.yml"
               (initial Example.files0))
    as (_ & _ & H);
    [vm_compute; reflexivity|vm_compute; reflexivity|vm_compute; reflexivity
    |vm_compute; reflexivity|vm_compute; reflexivity|vm_compute; reflexivity|].
  apply H; [done|]. vm_compute. reflexivity.
Defined.

(** X21.  In every run of [do_train] of either script, with or without
    failing library calls, each summary handed to
    [summary_writer.add_summary] with [global_step = n + 1] is the value of
    [summary_train] or [summary_dev] in the result of an earlier [sess.run]
    of the same run, the one fed, in evaluation mode, the dictionary built
    from the tuples drawn at step [n]: the event file shows at [n + 1] what
    was measured at step [n], without dropout. *)
Theorem summaries_of_their_own_step (E : Env) (network : Network)
    (optimizer learning_rate batch_size epoch_num label_type_main
     label_type_second num_stack num_skip train_data_size label_type : pyval)
    (eos_index : Z) (w : world) :
  each_since (length (trace w))
    (summary_of_step (csj_ler_run learning_rate))
    (trace (Csj.do_train E network optimizer learning_rate batch_size
              epoch_num label_type_main label_type_second num_stack num_skip
              train_data_size w).1) /\
  each_since (length (trace w))
    (summary_of_step (decode_run learning_rate))
    (trace (Timit.do_train E network optimizer learning_rate batch_size
              epoch_num label_type eos_index w).1).
Proof.
  split.
  - apply csj_do_train_summaries, each_since_start.
  - apply timit_do_train_summaries, each_since_start.
Qed.

(** X22.  In every run of [do_train] of either script, with or without
    failing library calls, each [sess.run] is fed values of the tuples
    drawn last from the generators, never of an older tuple; and a run that
    returns has drawn [max_steps] tuples from the training generator and as
    many from the dev generator, one of each per step, although the dev
    tuple is used only in the steps that log. *)
Theorem tuples_fed_are_the_latest_drawn (E : Env) (network : Network)
    (optimizer learning_rate batch_size epoch_num label_type_main
     label_type_second num_stack num_skip train_data_size label_type : pyval)
    (eos_index : Z) (w : world) :
  draws_each_step (Csj.steps E batch_size epoch_num) w
    (Csj.do_train E network optimizer learning_rate batch_size epoch_num
       label_type_main label_type_second num_stack num_skip train_data_size
       w) /\
  draws_each_step (Timit.steps E batch_size epoch_num) w
    (Timit.do_train E network optimizer learning_rate batch_size epoch_num
       label_type eos_index w).
Proof.
  split.
  - pose proof (csj_do_train_draws E network learning_rate optimizer batch_size
                  epoch_num label_type_main label_type_second num_stack
                  num_skip train_data_size w) as H.
    unfold wp in H. by destruct (Csj.do_train _ _ _ _ _ _ _ _ _ _ _ _).
  - pose proof (timit_do_train_draws E network learning_rate optimizer
                  batch_size epoch_num label_type eos_index w) as H.
    unfold wp in H. by destruct (Timit.do_train _ _ _ _ _ _ _ _ _).
Qed.
